(** * negroni-gzip: the deferred compression decision, verified

  A shallow embedding of the gzip middleware for Negroni.  The repository
  holds two revisions of the middleware:

  - [src/gzip/gzip.go], where the decision is taken by [compressContent],
    called from [Write] only (module [GzipGo]);
  - [src/unnamed/part_001], where the decision is taken by an overriding
    [WriteHeader], which [Write] calls while undecided (module [Part001]).

  The collaborators that are not part of the repository (net/http headers,
  the response writer that is wrapped, negroni's status-capturing writer,
  compress/gzip) are modelled first, the codec and the content sniffer as
  parameters. *)

From Stdlib Require Import ZArith Lia Ascii String.
From stdpp Require Import base strings gmap list.

Open Scope string_scope.
Open Scope list_scope.
Open Scope Z_scope.

(** Response and request bodies are byte sequences ([[]byte] in Go). *)
Abbreviation bytes := (list Byte.byte).

(* ===================================================================== *)
(** ** strings: [strings.Contains]                                        *)
(* ===================================================================== *)

Module strings.

(** [strings.HasPrefix s prefix]. *)
Fixpoint HasPrefix (s prefix : string) : bool :=
  match prefix, s with
  | EmptyString, _ => true
  | String c p, String d t => Ascii.eqb c d && HasPrefix t p
  | String _ _, EmptyString => false
  end.

(** [strings.Contains s substr]: [substr] occurs somewhere within [s]. *)
Fixpoint Contains (s substr : string) : bool :=
  HasPrefix s substr ||
  match s with
  | EmptyString => false
  | String _ t => Contains t substr
  end.

End strings.

(* ===================================================================== *)
(** ** net/http: headers, requests, response writers                      *)
(* ===================================================================== *)

Module http.

Definition StatusOK : Z := 200.

(** [bodyAllowedForStatus]: a response with status 1xx, 204 or 304 carries
    no body. *)
Definition bodyAllowedForStatus (status : Z) : bool :=
  if (100 <=? status) && (status <=? 199) then false
  else if status =? 204 then false
  else if status =? 304 then false
  else true.

(** [http.ErrBodyNotAllowed], the error of a write that is refused. *)
Inductive error := ErrBodyNotAllowed.

(** *** Header keys are canonicalised (net/textproto) *)

Definition isLower (c : ascii) : bool :=
  let n := nat_of_ascii c in (97 <=? n)%nat && (n <=? 122)%nat.
Definition isUpper (c : ascii) : bool :=
  let n := nat_of_ascii c in (65 <=? n)%nat && (n <=? 90)%nat.
Definition isDigit (c : ascii) : bool :=
  let n := nat_of_ascii c in (48 <=? n)%nat && (n <=? 57)%nat.

Definition toUpper (c : ascii) : ascii :=
  if isLower c then ascii_of_nat (nat_of_ascii c - 32) else c.
Definition toLower (c : ascii) : ascii :=
  if isUpper c then ascii_of_nat (nat_of_ascii c + 32) else c.

(** The bytes allowed in a header field name (an RFC 7230 token). *)
Definition validHeaderFieldByte (c : ascii) : bool :=
  isLower c || isUpper c || isDigit c ||
  existsb (Ascii.eqb c) (list_ascii_of_string "!#$%&'*+-.^_`|~").

Fixpoint allValid (s : string) : bool :=
  match s with
  | EmptyString => true
  | String c t => validHeaderFieldByte c && allValid t
  end.

(** First letter and every letter after a dash in upper case, the others
    in lower case. *)
Fixpoint canonicalise (upper : bool) (s : string) : string :=
  match s with
  | EmptyString => EmptyString
  | String c t =>
      let c' := if upper then toUpper c else toLower c in
      String c' (canonicalise (Ascii.eqb c' "-") t)
  end.

(** [textproto.CanonicalMIMEHeaderKey]: a key that is not a token is left
    as it is. *)
Definition CanonicalMIMEHeaderKey (s : string) : string :=
  if allValid s then canonicalise true s else s.

(** *** [http.Header], a [map[string][]string] *)

Abbreviation Header := (gmap string (list string)).

(** [h.Get(key)]: the first value of the key, or the empty string. *)
Definition Get (h : Header) (key : string) : string :=
  match h !! CanonicalMIMEHeaderKey key with
  | Some (v :: _) => v
  | _ => ""
  end.

(** [h.Set(key, value)]: replaces whatever values the key had. *)
Definition Set_ (h : Header) (key value : string) : Header :=
  <[CanonicalMIMEHeaderKey key := [value]]> h.

(** [h.Add(key, value)]: appends to the values of the key. *)
Definition Add (h : Header) (key value : string) : Header :=
  let k := CanonicalMIMEHeaderKey key in
  <[k := default [] (h !! k) ++ [value]]> h.

(** [h.Del(key)]. *)
Definition Del (h : Header) (key : string) : Header :=
  delete (CanonicalMIMEHeaderKey key) h.

(** [h.Values(key)]: all the values of the key. *)
Definition Values (h : Header) (key : string) : list string :=
  default [] (h !! CanonicalMIMEHeaderKey key).

(** [http.DetectContentType], the content sniffer: a collaborator the
    middleware calls and does not implement. *)
Class ContentSniffer := { DetectContentType : bytes -> string }.

(** *** [http.Request]: what the middleware and the predicate read *)

Record Request := mkRequest {
  Method : string;
  URL : string;
  reqHeader : Header            (* r.Header *)
}.

(** *** [http.ResponseWriter]

    The interface has three methods.  [Header()] returns the header map
    itself, a reference that every layer of decoration shares, so that a
    mutation made through one layer is seen through all of them:
    [HeaderUpd] is that mutation. *)
Class ResponseWriter (W : Type) := {
  rwHeader : W -> Header;
  rwHeaderUpd : (Header -> Header) -> W -> W;
  rwWrite : bytes -> W -> W;
  rwWriteHeader : Z -> W -> W
}.

(** *** The underlying response sink

    The writer at the bottom of the chain, as the test recorder
    ([httptest.ResponseRecorder]) behaves: the first [WriteHeader] commits
    the status code together with a copy of the headers as they are at
    that moment, later ones are ignored; a [Write] before any
    [WriteHeader] commits [200] first; the body collects the bytes of
    every write.  A write under a status that allows no body is recorded
    all the same and answered with [(0, ErrBodyNotAllowed)]; any other
    write is answered with the length of the chunk and no error. *)
Record Sink := mkSink {
  HeaderMap : Header;                  (* the live map behind Header() *)
  committed : option (Z * Header);     (* status line and headers sent *)
  Body : bytes
}.

Definition NewRecorder : Sink :=
  {| HeaderMap := ∅; committed := None; Body := [] |}.

Definition sinkHeaderUpd (f : Header -> Header) (s : Sink) : Sink :=
  {| HeaderMap := f (HeaderMap s); committed := committed s; Body := Body s |}.

Definition sinkWriteHeader (code : Z) (s : Sink) : Sink :=
  match committed s with
  | Some _ => s
  | None => {| HeaderMap := HeaderMap s;
               committed := Some (code, HeaderMap s);
               Body := Body s |}
  end.

(** [rw.Write(buf)]: the state the call leaves. *)
Definition sinkWrite (b : bytes) (s : Sink) : Sink :=
  let s' := sinkWriteHeader StatusOK s in
  {| HeaderMap := HeaderMap s'; committed := committed s'; Body := Body s' ++ b |}.

(** Whether the sink accepts a body: by the status that was committed, or
    by [200], which a write commits when nothing was. *)
Definition takesBody (s : Sink) : bool :=
  match committed s with
  | Some (code, _) => bodyAllowedForStatus code
  | None => bodyAllowedForStatus StatusOK
  end.

(** [rw.Write(buf)]: the [(n, err)] the call returns. *)
Definition sinkWriteResult (b : bytes) (s : Sink) : Z * option error :=
  if takesBody (sinkWrite b s)
  then (Z.of_nat (length b), None)
  else (0, Some ErrBodyNotAllowed).

#[global] Instance Sink_ResponseWriter : ResponseWriter Sink := {
  rwHeader := HeaderMap;
  rwHeaderUpd := sinkHeaderUpd;
  rwWrite := sinkWrite;
  rwWriteHeader := sinkWriteHeader
}.

(** *** Downstream handlers

    A handler ([http.HandlerFunc]) is a program over the
    [http.ResponseWriter] it is given: it writes body chunks, commits a
    status code, mutates the header map, and may read the header map and
    branch on what it finds.  [next] of [ServeHTTP] is a function from
    the request to such a program. *)
Inductive HeaderOp :=
| HSet (key value : string)
| HAdd (key value : string)
| HDel (key : string).

Definition applyHeaderOp (o : HeaderOp) (h : Header) : Header :=
  match o with
  | HSet k v => Set_ h k v
  | HAdd k v => Add h k v
  | HDel k => Del h k
  end.

Inductive Handler :=
| Return
| CallWrite (b : bytes) (k : Handler)
| CallWriteHeader (code : Z) (k : Handler)
| CallHeader (o : HeaderOp) (k : Handler)
| ReadHeader (k : Header -> Handler).

Definition HandlerFunc := Request -> Handler.

(** Running a handler against a response writer. *)
Fixpoint exec {W} `{ResponseWriter W} (p : Handler) (w : W) : W :=
  match p with
  | Return => w
  | CallWrite b k => exec k (rwWrite b w)
  | CallWriteHeader code k => exec k (rwWriteHeader code w)
  | CallHeader o k => exec k (rwHeaderUpd (applyHeaderOp o) w)
  | ReadHeader k => exec (k (rwHeader w)) w
  end.

(** The bytes the handler passes to [Write] during that run, in order. *)
Fixpoint written {W} `{ResponseWriter W} (p : Handler) (w : W) : bytes :=
  match p with
  | Return => []
  | CallWrite b k => b ++ written k (rwWrite b w)
  | CallWriteHeader code k => written k (rwWriteHeader code w)
  | CallHeader o k => written k (rwHeaderUpd (applyHeaderOp o) w)
  | ReadHeader k => written (k (rwHeader w)) w
  end.

(** The calls a handler makes during a run, each with the writer as the
    call leaves it (reads of the header map are not calls of the writer). *)
Inductive Call :=
| CWrite (b : bytes)
| CWriteHeader (code : Z)
| CHeader (o : HeaderOp).

Fixpoint run {W} `{ResponseWriter W} (p : Handler) (w : W) : list (Call * W) :=
  match p with
  | Return => []
  | CallWrite b k =>
      let w' := rwWrite b w in (CWrite b, w') :: run k w'
  | CallWriteHeader code k =>
      let w' := rwWriteHeader code w in (CWriteHeader code, w') :: run k w'
  | CallHeader o k =>
      let w' := rwHeaderUpd (applyHeaderOp o) w in (CHeader o, w') :: run k w'
  | ReadHeader k => run (k (rwHeader w)) w
  end.

Definition isWrite (c : Call) : bool :=
  match c with CWrite _ => true | _ => false end.

Definition isWriteOrWriteHeader (c : Call) : bool :=
  match c with CWrite _ | CWriteHeader _ => true | CHeader _ => false end.

End http.

(* ===================================================================== *)
(** ** negroni: the status-capturing response writer                      *)
(* ===================================================================== *)

Module negroni.

(** [negroni.responseWriter] embeds the writer it wraps and records the
    status code and the number of body bytes that went through it. *)
Record responseWriter := mkResponseWriter {
  ResponseWriter : http.Sink;
  status : Z;
  size : Z
}.

(** [negroni.NewResponseWriter(rw)]. *)
Definition NewResponseWriter (rw : http.Sink) : responseWriter :=
  {| ResponseWriter := rw; status := 0; size := 0 |}.

Definition Written (rw : responseWriter) : bool := negb (status rw =? 0).

(** [rw.WriteHeader(s)]: forwarded every time, the sink keeps the first. *)
Definition WriteHeader (s : Z) (rw : responseWriter) : responseWriter :=
  {| ResponseWriter := http.sinkWriteHeader s (ResponseWriter rw);
     status := s;
     size := size rw |}.

(** [rw.Write(b)]: commits [200] first when nothing was committed through
    this writer; the size grows by the count the wrapped writer returns. *)
Definition Write (b : bytes) (rw : responseWriter) : responseWriter :=
  let rw1 := if Written rw then rw else WriteHeader http.StatusOK rw in
  {| ResponseWriter := http.sinkWrite b (ResponseWriter rw1);
     status := status rw1;
     size := size rw1 + (http.sinkWriteResult b (ResponseWriter rw1)).1 |}.

(** [Header()] is promoted from the embedded writer: the same map. *)
Definition Header (rw : responseWriter) : http.Header :=
  http.HeaderMap (ResponseWriter rw).

Definition HeaderUpd (f : http.Header -> http.Header) (rw : responseWriter)
  : responseWriter :=
  {| ResponseWriter := http.sinkHeaderUpd f (ResponseWriter rw);
     status := status rw;
     size := size rw |}.

(** The wrapped sink replaced, as when the gzip writer, which holds the same
    sink, has written to it. *)
Definition withSink (s : http.Sink) (rw : responseWriter) : responseWriter :=
  {| ResponseWriter := s; status := status rw; size := size rw |}.

End negroni.

(* ===================================================================== *)
(** ** compress/gzip: the codec writer                                    *)
(* ===================================================================== *)

Module compress_gzip.

Definition NoCompression : Z := 0.
Definition BestSpeed : Z := 1.
Definition BestCompression : Z := 9.
Definition DefaultCompression : Z := -1.
Definition HuffmanOnly : Z := -2.

(** The codec itself is a collaborator: the ten-byte header, the deflate
    compressor as a stream transducer that emits bytes when it pleases, the
    trailer (checksum and size of the data), and the matching decoder. *)
Class Codec := {
  flate : Type;
  flate_NewWriter : Z -> flate;
  flate_Write : flate -> bytes -> flate * bytes;
  flate_Close : flate -> bytes;
  gzip_header : Z -> bytes;
  gzip_trailer : bytes -> bytes;
  gunzip : bytes -> option bytes
}.

(** What a compressor emits for a sequence of writes, and the state it is
    left in. *)
Fixpoint flate_writes `{Codec} (c : flate) (chunks : list bytes) : flate * bytes :=
  match chunks with
  | [] => (c, [])
  | p :: ps =>
      let (c1, out) := flate_Write c p in
      let (c2, outs) := flate_writes c1 ps in
      (c2, out ++ outs)
  end.

(** A whole gzip stream: header, the deflate output of the writes and of
    the close, trailer. *)
Definition gzip_stream `{Codec} (level : Z) (chunks : list bytes) : bytes :=
  let (c, out) := flate_writes (flate_NewWriter level) chunks in
  gzip_header level ++ (out ++ flate_Close c) ++ gzip_trailer (concat chunks).

Definition validLevel (level : Z) : bool :=
  negb ((level <? HuffmanOnly) || (BestCompression <? level)).

(** The contract of the codec: every stream produced at a valid level
    decodes to the data that was written. *)
Definition CodecSound (C : Codec) : Prop :=
  forall level chunks, validLevel level = true ->
    gunzip (gzip_stream level chunks) = Some (concat chunks).

(** [gzip.Writer]; the sink it writes to is held by reference and is the
    very sink the middleware wraps, so the operations below take and return
    that sink. [digest] stands for the running checksum and size: the
    data they are computed from. [err] is the error of the first write to
    the sink that failed; once set, the writer writes no more. *)
Record Writer `{Codec} := mkWriter {
  level : Z;
  wroteHeader : bool;
  closed : bool;
  err : option http.error;
  compressor : flate;
  digest : bytes
}.

Inductive error := InvalidLevel (level : Z).

(** [gzip.NewWriterLevel(w, level)]. *)
Definition NewWriterLevel `{Codec} (level : Z) : Writer + error :=
  if (level <? HuffmanOnly) || (BestCompression <? level)
  then inr (InvalidLevel level)
  else inl {| level := level; wroteHeader := false; closed := false;
              err := None;
              compressor := flate_NewWriter level; digest := [] |}.

(** The compressor writes to the sink only when it has bytes to write, in
    one write; the error of that write, if any, is what it returns. *)
Definition emit (out : bytes) (s : http.Sink) : http.Sink * option http.error :=
  match out with
  | [] => (s, None)
  | _ => (http.sinkWrite out s, (http.sinkWriteResult out s).2)
  end.

(** [z.Write(p)]: nothing when an earlier write failed; the header goes out
    with the first write, and if the sink refuses it the data is not
    written; else the data goes to the compressor. *)
Definition Write `{Codec} (p : bytes) (zs : Writer * http.Sink) : Writer * http.Sink :=
  let (z, s) := zs in
  match err z with
  | Some _ => (z, s)
  | None =>
      let (z1, s1) :=
        if wroteHeader z then (z, s)
        else ({| level := level z; wroteHeader := true; closed := closed z;
                 err := (http.sinkWriteResult (gzip_header (level z)) s).2;
                 compressor := compressor z; digest := digest z |},
              http.sinkWrite (gzip_header (level z)) s) in
      match err z1 with
      | Some _ => (z1, s1)
      | None =>
          let (c, out) := flate_Write (compressor z1) p in
          let (s2, e) := emit out s1 in
          ({| level := level z1; wroteHeader := true; closed := closed z1;
              err := e; compressor := c; digest := digest z1 ++ p |},
           s2)
      end
  end.

(** [z.Close()]: nothing when an earlier write failed, nothing at a second
    call; else the header if it was not written yet, the rest of the
    compressor's output and the trailer, stopping at the first write that the
    sink refuses. *)
Definition Close `{Codec} (zs : Writer * http.Sink) : Writer * http.Sink :=
  let (z, s) := zs in
  match err z with
  | Some _ => (z, s)
  | None =>
      if closed z then (z, s)
      else
        let z0 := {| level := level z; wroteHeader := wroteHeader z;
                     closed := true; err := err z;
                     compressor := compressor z; digest := digest z |} in
        let (z1, s1) := if wroteHeader z0 then (z0, s) else Write [] (z0, s) in
        match err z1 with
        | Some _ => (z1, s1)
        | None =>
            let (s2, e2) := emit (flate_Close (compressor z1)) s1 in
            match e2 with
            | Some _ =>
                ({| level := level z1; wroteHeader := wroteHeader z1;
                    closed := closed z1; err := e2;
                    compressor := compressor z1; digest := digest z1 |}, s2)
            | None =>
                ({| level := level z1; wroteHeader := wroteHeader z1;
                    closed := closed z1;
                    err := (http.sinkWriteResult (gzip_trailer (digest z1)) s2).2;
                    compressor := compressor z1; digest := digest z1 |},
                 http.sinkWrite (gzip_trailer (digest z1)) s2)
            end
        end
  end.

End compress_gzip.

(* ===================================================================== *)
(** ** What a decorated writer did (ghost state)                          *)
(* ===================================================================== *)

(** The middleware's own actions are recorded, newest last, so that "once",
    "never" and "before" can be stated: a call of the allow predicate, a
    mutation of the response headers made by the middleware (not by the
    downstream handler), a [Close] of the codec writer. *)
Inductive Event :=
| PredicateCalled
| HeaderChanged (o : http.HeaderOp)
| CodecClosed.

#[global] Instance HeaderOp_eq_dec : EqDecision http.HeaderOp.
Proof. solve_decision. Defined.

#[global] Instance Event_eq_dec : EqDecision Event.
Proof. solve_decision. Defined.

(** How many times an event occurs in a log. *)
Fixpoint occurrences (e : Event) (log : list Event) : nat :=
  match log with
  | [] => 0
  | x :: rest => ((if bool_decide (x = e) then 1 else 0) + occurrences e rest)%nat
  end.

(* ===================================================================== *)
(** ** src/gzip/gzip.go                                                   *)
(* ===================================================================== *)

Module GzipGo.

Definition encodingGzip := "gzip".
Definition headerAcceptEncoding := "Accept-Encoding".
Definition headerContentEncoding := "Content-Encoding".
Definition headerContentLength := "Content-Length".
Definition headerContentType := "Content-Type".
Definition headerVary := "Vary".
Definition headerSecWebSocketKey := "Sec-WebSocket-Key".

Definition BestCompression := compress_gzip.BestCompression.
Definition BestSpeed := compress_gzip.BestSpeed.
Definition DefaultCompression := compress_gzip.DefaultCompression.
Definition NoCompression := compress_gzip.NoCompression.

Inductive status :=
| COMPRESSION_UNDEFINED
| COMPRESSION_DISABLED
| COMPRESSION_ENABLED.

Definition status_eqb (a b : status) : bool :=
  match a, b with
  | COMPRESSION_UNDEFINED, COMPRESSION_UNDEFINED
  | COMPRESSION_DISABLED, COMPRESSION_DISABLED
  | COMPRESSION_ENABLED, COMPRESSION_ENABLED => true
  | _, _ => false
  end.

(** [AllowCompressionFunc]: the callback is handed the writer and the
    request; what it can learn from the writer through the
    [http.ResponseWriter] interface is the response header map. *)
Definition AllowCompressionFunc := http.Header -> http.Request -> bool.

(** The handler: [nil] for the callback is [None]. *)
Record handler := mkHandler {
  compressionLevel : Z;
  allowCompression : option AllowCompressionFunc
}.

Definition New (level : Z) (fn : option AllowCompressionFunc) : handler :=
  {| compressionLevel := level; allowCompression := fn |}.

Definition Default : handler := New compress_gzip.DefaultCompression None.

Section Middleware.
Context `{SN : http.ContentSniffer} `{CD : compress_gzip.Codec}.

(** [gzipResponseWriter]. The sink that [grw_w] writes to is the one inside
    [grw_ResponseWriter]. [grw_log] is ghost. *)
Record gzipResponseWriter := mkGrw {
  grw_r : http.Request;
  grw_w : compress_gzip.Writer;
  grw_ResponseWriter : negroni.responseWriter;
  grw_status : status;
  grw_allowCompression : option AllowCompressionFunc;
  grw_log : list Event
}.

Definition sink (grw : gzipResponseWriter) : http.Sink :=
  negroni.ResponseWriter (grw_ResponseWriter grw).

(** [grw.Header()], promoted through the embedded writers. *)
Definition Header (grw : gzipResponseWriter) : http.Header :=
  negroni.Header (grw_ResponseWriter grw).

Definition setStatus (st : status) (grw : gzipResponseWriter) : gzipResponseWriter :=
  {| grw_r := grw_r grw; grw_w := grw_w grw;
     grw_ResponseWriter := grw_ResponseWriter grw;
     grw_status := st;
     grw_allowCompression := grw_allowCompression grw;
     grw_log := grw_log grw |}.

Definition setInner (rw : negroni.responseWriter) (grw : gzipResponseWriter)
  : gzipResponseWriter :=
  {| grw_r := grw_r grw; grw_w := grw_w grw;
     grw_ResponseWriter := rw;
     grw_status := grw_status grw;
     grw_allowCompression := grw_allowCompression grw;
     grw_log := grw_log grw |}.

Definition record (e : Event) (grw : gzipResponseWriter) : gzipResponseWriter :=
  {| grw_r := grw_r grw; grw_w := grw_w grw;
     grw_ResponseWriter := grw_ResponseWriter grw;
     grw_status := grw_status grw;
     grw_allowCompression := grw_allowCompression grw;
     grw_log := grw_log grw ++ [e] |}.

(** A header mutation made by the downstream handler through [Header()]. *)
Definition HeaderUpd (f : http.Header -> http.Header) (grw : gzipResponseWriter)
  : gzipResponseWriter :=
  setInner (negroni.HeaderUpd f (grw_ResponseWriter grw)) grw.

(** A header mutation made by the middleware itself. *)
Definition headers (o : http.HeaderOp) (grw : gzipResponseWriter) : gzipResponseWriter :=
  record (HeaderChanged o) (HeaderUpd (http.applyHeaderOp o) grw).

(** [grw.allowCompression == nil || grw.allowCompression(grw, grw.r)]: the
    callback is not called when it is nil. *)
Definition allowed (grw : gzipResponseWriter) : bool * gzipResponseWriter :=
  match grw_allowCompression grw with
  | None => (true, grw)
  | Some fn => (fn (Header grw) (grw_r grw), record PredicateCalled grw)
  end.

(** [grw.w.Write(b)]: into the codec writer, which writes to the sink. *)
Definition codecWrite (b : bytes) (grw : gzipResponseWriter) : gzipResponseWriter :=
  let (z, s) := compress_gzip.Write b (grw_w grw, sink grw) in
  {| grw_r := grw_r grw; grw_w := z;
     grw_ResponseWriter := negroni.withSink s (grw_ResponseWriter grw);
     grw_status := grw_status grw;
     grw_allowCompression := grw_allowCompression grw;
     grw_log := grw_log grw |}.

(** [gz.Close()] of the deferred function. *)
Definition codecClose (grw : gzipResponseWriter) : gzipResponseWriter :=
  let (z, s) := compress_gzip.Close (grw_w grw, sink grw) in
  {| grw_r := grw_r grw; grw_w := z;
     grw_ResponseWriter := negroni.withSink s (grw_ResponseWriter grw);
     grw_status := grw_status grw;
     grw_allowCompression := grw_allowCompression grw;
     grw_log := grw_log grw ++ [CodecClosed] |}.

(** [grw.ResponseWriter.Write(b)]. *)
Definition plainWrite (b : bytes) (grw : gzipResponseWriter) : gzipResponseWriter :=
  setInner (negroni.Write b (grw_ResponseWriter grw)) grw.

(** [grw.WriteHeader(code)] is not overridden in this revision: the method
    is the embedded negroni writer's. *)
Definition WriteHeader (code : Z) (grw : gzipResponseWriter) : gzipResponseWriter :=
  setInner (negroni.WriteHeader code (grw_ResponseWriter grw)) grw.

(** [compressContent]: decides on the first call, answers from the state on
    the later ones. *)
Definition compressContent (grw : gzipResponseWriter) : gzipResponseWriter * bool :=
  let grw' :=
    if status_eqb (grw_status grw) COMPRESSION_UNDEFINED then
      let (ok, grw1) := allowed grw in
      if ok then
        let grw2 := setStatus COMPRESSION_ENABLED grw1 in
        let grw3 := headers (http.HSet headerContentEncoding encodingGzip) grw2 in
        headers (http.HSet headerVary headerAcceptEncoding) grw3
      else setStatus COMPRESSION_DISABLED grw1
    else grw in
  (grw', status_eqb (grw_status grw') COMPRESSION_ENABLED).

(** [Write]: sets the Content-Type when there is none, then writes to the
    codec writer or to the wrapped writer as [compressContent] says. *)
Definition Write (b : bytes) (grw : gzipResponseWriter) : gzipResponseWriter :=
  let grw1 :=
    if (String.length (http.Get (Header grw) headerContentType) =? 0)%nat
    then headers (http.HSet headerContentType (http.DetectContentType b)) grw
    else grw in
  let (grw2, compress) := compressContent grw1 in
  if compress then codecWrite b grw2 else plainWrite b grw2.

Instance grw_ResponseWriter_inst : http.ResponseWriter gzipResponseWriter := {
  rwHeader := Header;
  rwHeaderUpd := HeaderUpd;
  rwWrite := Write;
  rwWriteHeader := WriteHeader
}.

(** What [ServeHTTP] leaves behind: the sink as the downstream handler left
    it when it was called with the sink itself, or the decorated writer
    (which holds the sink) after the deferred function has run. *)
Inductive Outcome :=
| Direct (w : http.Sink)
| Decorated (grw : gzipResponseWriter).

Definition sinkOf (o : Outcome) : http.Sink :=
  match o with
  | Direct w => w
  | Decorated grw => sink grw
  end.

(** The deferred function of [ServeHTTP]. *)
Definition deferred (grw : gzipResponseWriter) : gzipResponseWriter :=
  if status_eqb (grw_status grw) COMPRESSION_ENABLED then
    let grw1 := codecClose grw in
    headers (http.HDel headerContentLength) grw1
  else grw.

(** The writer [ServeHTTP] builds. *)
Definition newGrw (h : handler) (gz : compress_gzip.Writer) (w : http.Sink)
  (r : http.Request) : gzipResponseWriter :=
  {| grw_r := r; grw_w := gz;
     grw_ResponseWriter := negroni.NewResponseWriter w;
     grw_status := COMPRESSION_UNDEFINED;
     grw_allowCompression := allowCompression h;
     grw_log := [] |}.

(** [ServeHTTP]. *)
Definition ServeHTTP (h : handler) (w : http.Sink) (r : http.Request)
  (next : http.HandlerFunc) : Outcome :=
  if negb (strings.Contains (http.Get (http.reqHeader r) headerAcceptEncoding) encodingGzip)
  then Direct (http.exec (next r) w)
  else if (0 <? String.length (http.Get (http.reqHeader r) headerSecWebSocketKey))%nat
  then Direct (http.exec (next r) w)
  else if String.eqb (http.Get (http.HeaderMap w) headerContentEncoding) encodingGzip
  then Direct (http.exec (next r) w)
  else
    match compress_gzip.NewWriterLevel (compressionLevel h) with
    | inr _ => Direct (http.exec (next r) w)
    | inl gz => Decorated (deferred (http.exec (next r) (newGrw h gz w r)))
    end.

End Middleware.

#[global] Existing Instance grw_ResponseWriter_inst.

End GzipGo.

(* ===================================================================== *)
(** ** src/unnamed/part_001                                               *)
(* ===================================================================== *)

Module Part001.

Definition encodingGzip := "gzip".
Definition headerAcceptEncoding := "Accept-Encoding".
Definition headerContentEncoding := "Content-Encoding".
Definition headerContentLength := "Content-Length".
Definition headerContentType := "Content-Type".
Definition headerVary := "Vary".
Definition headerSecWebSocketKey := "Sec-WebSocket-Key".

Definition BestCompression := compress_gzip.BestCompression.
Definition BestSpeed := compress_gzip.BestSpeed.
Definition DefaultCompression := compress_gzip.DefaultCompression.
Definition NoCompression := compress_gzip.NoCompression.

Inductive status :=
| COMPRESSION_CHECK
| COMPRESSION_DISABLED
| COMPRESSION_ENABLED.

Definition status_eqb (a b : status) : bool :=
  match a, b with
  | COMPRESSION_CHECK, COMPRESSION_CHECK
  | COMPRESSION_DISABLED, COMPRESSION_DISABLED
  | COMPRESSION_ENABLED, COMPRESSION_ENABLED => true
  | _, _ => false
  end.

Definition AllowCompressionFunc := http.Header -> http.Request -> bool.

Record handler := mkHandler {
  compressionLevel : Z;
  allowCompression : option AllowCompressionFunc
}.

Definition New (level : Z) (fn : option AllowCompressionFunc) : handler :=
  {| compressionLevel := level; allowCompression := fn |}.

Definition Default : handler := New compress_gzip.DefaultCompression None.

Section Middleware.
Context `{SN : http.ContentSniffer} `{CD : compress_gzip.Codec}.

(** [gzipResponseWriter], as in the other revision. *)
Record gzipResponseWriter := mkGrw {
  grw_r : http.Request;
  grw_w : compress_gzip.Writer;
  grw_ResponseWriter : negroni.responseWriter;
  grw_status : status;
  grw_allowCompression : option AllowCompressionFunc;
  grw_log : list Event
}.

Definition sink (grw : gzipResponseWriter) : http.Sink :=
  negroni.ResponseWriter (grw_ResponseWriter grw).

Definition Header (grw : gzipResponseWriter) : http.Header :=
  negroni.Header (grw_ResponseWriter grw).

Definition setStatus (st : status) (grw : gzipResponseWriter) : gzipResponseWriter :=
  {| grw_r := grw_r grw; grw_w := grw_w grw;
     grw_ResponseWriter := grw_ResponseWriter grw;
     grw_status := st;
     grw_allowCompression := grw_allowCompression grw;
     grw_log := grw_log grw |}.

Definition setInner (rw : negroni.responseWriter) (grw : gzipResponseWriter)
  : gzipResponseWriter :=
  {| grw_r := grw_r grw; grw_w := grw_w grw;
     grw_ResponseWriter := rw;
     grw_status := grw_status grw;
     grw_allowCompression := grw_allowCompression grw;
     grw_log := grw_log grw |}.

Definition record (e : Event) (grw : gzipResponseWriter) : gzipResponseWriter :=
  {| grw_r := grw_r grw; grw_w := grw_w grw;
     grw_ResponseWriter := grw_ResponseWriter grw;
     grw_status := grw_status grw;
     grw_allowCompression := grw_allowCompression grw;
     grw_log := grw_log grw ++ [e] |}.

Definition HeaderUpd (f : http.Header -> http.Header) (grw : gzipResponseWriter)
  : gzipResponseWriter :=
  setInner (negroni.HeaderUpd f (grw_ResponseWriter grw)) grw.

Definition headers (o : http.HeaderOp) (grw : gzipResponseWriter) : gzipResponseWriter :=
  record (HeaderChanged o) (HeaderUpd (http.applyHeaderOp o) grw).

Definition allowed (grw : gzipResponseWriter) : bool * gzipResponseWriter :=
  match grw_allowCompression grw with
  | None => (true, grw)
  | Some fn => (fn (Header grw) (grw_r grw), record PredicateCalled grw)
  end.

Definition codecWrite (b : bytes) (grw : gzipResponseWriter) : gzipResponseWriter :=
  let (z, s) := compress_gzip.Write b (grw_w grw, sink grw) in
  {| grw_r := grw_r grw; grw_w := z;
     grw_ResponseWriter := negroni.withSink s (grw_ResponseWriter grw);
     grw_status := grw_status grw;
     grw_allowCompression := grw_allowCompression grw;
     grw_log := grw_log grw |}.

Definition codecClose (grw : gzipResponseWriter) : gzipResponseWriter :=
  let (z, s) := compress_gzip.Close (grw_w grw, sink grw) in
  {| grw_r := grw_r grw; grw_w := z;
     grw_ResponseWriter := negroni.withSink s (grw_ResponseWriter grw);
     grw_status := grw_status grw;
     grw_allowCompression := grw_allowCompression grw;
     grw_log := grw_log grw ++ [CodecClosed] |}.

Definition plainWrite (b : bytes) (grw : gzipResponseWriter) : gzipResponseWriter :=
  setInner (negroni.Write b (grw_ResponseWriter grw)) grw.

(** [grw.ResponseWriter.WriteHeader(code)]. *)
Definition plainWriteHeader (code : Z) (grw : gzipResponseWriter) : gzipResponseWriter :=
  setInner (negroni.WriteHeader code (grw_ResponseWriter grw)) grw.

(** [WriteHeader]: decides while the status is [COMPRESSION_CHECK], then
    commits the status code to the wrapped writer. *)
Definition WriteHeader (code : Z) (grw : gzipResponseWriter) : gzipResponseWriter :=
  let grw' :=
    if status_eqb (grw_status grw) COMPRESSION_CHECK then
      let (ok, grw1) := allowed grw in
      if ok then
        let grw2 := setStatus COMPRESSION_ENABLED grw1 in
        let grw3 := headers (http.HDel headerContentLength) grw2 in
        let grw4 := headers (http.HSet headerContentEncoding encodingGzip) grw3 in
        headers (http.HSet headerVary headerAcceptEncoding) grw4
      else setStatus COMPRESSION_DISABLED grw1
    else grw in
  plainWriteHeader code grw'.

(** [Write]: while undecided, sets the Content-Type when there is none and
    calls [WriteHeader(200)]; then writes to the codec writer or to the
    wrapped writer. *)
Definition Write (b : bytes) (grw : gzipResponseWriter) : gzipResponseWriter :=
  let grw' :=
    if status_eqb (grw_status grw) COMPRESSION_CHECK then
      let grw1 :=
        if (String.length (http.Get (Header grw) headerContentType) =? 0)%nat
        then headers (http.HSet headerContentType (http.DetectContentType b)) grw
        else grw in
      WriteHeader http.StatusOK grw1
    else grw in
  if status_eqb (grw_status grw') COMPRESSION_ENABLED
  then codecWrite b grw'
  else plainWrite b grw'.

Instance grw_ResponseWriter_inst : http.ResponseWriter gzipResponseWriter := {
  rwHeader := Header;
  rwHeaderUpd := HeaderUpd;
  rwWrite := Write;
  rwWriteHeader := WriteHeader
}.

Inductive Outcome :=
| Direct (w : http.Sink)
| Decorated (grw : gzipResponseWriter).

Definition sinkOf (o : Outcome) : http.Sink :=
  match o with
  | Direct w => w
  | Decorated grw => sink grw
  end.

(** The deferred function of [ServeHTTP]. *)
Definition deferred (grw : gzipResponseWriter) : gzipResponseWriter :=
  if status_eqb (grw_status grw) COMPRESSION_ENABLED then codecClose grw else grw.

Definition newGrw (h : handler) (gz : compress_gzip.Writer) (w : http.Sink)
  (r : http.Request) : gzipResponseWriter :=
  {| grw_r := r; grw_w := gz;
     grw_ResponseWriter := negroni.NewResponseWriter w;
     grw_status := COMPRESSION_CHECK;
     grw_allowCompression := allowCompression h;
     grw_log := [] |}.

(** [ServeHTTP]. *)
Definition ServeHTTP (h : handler) (w : http.Sink) (r : http.Request)
  (next : http.HandlerFunc) : Outcome :=
  if negb (strings.Contains (http.Get (http.reqHeader r) headerAcceptEncoding) encodingGzip)
  then Direct (http.exec (next r) w)
  else if (0 <? String.length (http.Get (http.reqHeader r) headerSecWebSocketKey))%nat
  then Direct (http.exec (next r) w)
  else if String.eqb (http.Get (http.HeaderMap w) headerContentEncoding) encodingGzip
  then Direct (http.exec (next r) w)
  else
    match compress_gzip.NewWriterLevel (compressionLevel h) with
    | inr _ => Direct (http.exec (next r) w)
    | inl gz => Decorated (deferred (http.exec (next r) (newGrw h gz w r)))
    end.

End Middleware.

#[global] Existing Instance grw_ResponseWriter_inst.

End Part001.

(* ===================================================================== *)
(** ** A concrete platform, to run the middleware on                      *)
(* ===================================================================== *)

Module Toy.

Definition b (s : string) : bytes := list_byte_of_string s.

(** A sniffer that knows one type. *)
Definition sniffer : http.ContentSniffer :=
  {| http.DetectContentType := fun _ => "application/octet-stream" |}.

(** A codec that stores: two magic bytes, the data as it comes, an end
    mark for a trailer. A stream without its end mark does not decode. *)
Definition magic : bytes := [Byte.x1f; Byte.x8b].
Definition endMark : bytes := [Byte.x00].

Definition decode (z : bytes) : option bytes :=
  match z with
  | Byte.x1f :: Byte.x8b :: rest =>
      match rev rest with
      | Byte.x00 :: data => Some (rev data)
      | _ => None
      end
  | _ => None
  end.

Definition codec : compress_gzip.Codec :=
  {| compress_gzip.flate := unit;
     compress_gzip.flate_NewWriter := fun _ => tt;
     compress_gzip.flate_Write := fun c p => (c, p);
     compress_gzip.flate_Close := fun _ => [];
     compress_gzip.gzip_header := fun _ => magic;
     compress_gzip.gzip_trailer := fun _ => endMark;
     compress_gzip.gunzip := decode |}.

(** A codec writer as [gzip.NewWriterLevel] makes it at the default level. *)
Definition gz : compress_gzip.Writer (H := codec) :=
  {| compress_gzip.level := compress_gzip.DefaultCompression;
     compress_gzip.wroteHeader := false;
     compress_gzip.closed := false;
     compress_gzip.err := None;
     compress_gzip.compressor := tt : compress_gzip.flate (Codec := codec);
     compress_gzip.digest := [] |}.

(** The handler of the repository's tests: writes one string. *)
Definition gzipTestString := "Foobar Wibble Content".
Definition testHTTPContent : http.HandlerFunc :=
  fun _ => http.CallWrite (b gzipTestString) http.Return.

Definition request (hs : list (string * string)) : http.Request :=
  {| http.Method := "GET"; http.URL := "http://localhost/foobar";
     http.reqHeader := foldl (fun h kv => http.Set_ h kv.1 kv.2) ∅ hs |}.

(** A request that accepts gzip, and the fresh writers [ServeHTTP] builds
    for it over an empty recorder. *)
Definition acceptsGzip : http.Request := request [("Accept-Encoding", "gzip")].

Definition freshPart001 : Part001.gzipResponseWriter (CD := codec) :=
  Part001.newGrw Part001.Default gz http.NewRecorder acceptsGzip.

Definition freshGzipGo : GzipGo.gzipResponseWriter (CD := codec) :=
  GzipGo.newGrw GzipGo.Default gz http.NewRecorder acceptsGzip.

End Toy.

(* ===================================================================== *)
(** ** Invariants used in the proofs                                      *)
(* ===================================================================== *)

Module Inv.

(** The codec writer in mid-stream: not closed, no write has failed, and
    what the sink holds beyond [body0] is the header and the deflate output
    of the chunks written so far ([body] is the sink's body). *)
Definition Streaming `{CD : compress_gzip.Codec} (lvl : Z)
  (z : compress_gzip.Writer) (body body0 : bytes) (chunks : list bytes) : Prop :=
  compress_gzip.closed z = false /\
  compress_gzip.err z = None /\
  compress_gzip.level z = lvl /\
  compress_gzip.digest z = concat chunks /\
  if compress_gzip.wroteHeader z
  then exists out,
         compress_gzip.flate_writes (compress_gzip.flate_NewWriter lvl) chunks
           = (compress_gzip.compressor z, out) /\
         body = body0 ++ compress_gzip.gzip_header lvl ++ out
  else chunks = [] /\
       compress_gzip.compressor z = compress_gzip.flate_NewWriter lvl /\
       body = body0.

(** The codec writer after the sink has refused its header: the header is
    all the sink holds beyond [body0], and the writer keeps the error. *)
Definition Refused `{CD : compress_gzip.Codec} (lvl : Z)
  (z : compress_gzip.Writer) (body body0 : bytes) : Prop :=
  compress_gzip.closed z = false /\
  compress_gzip.level z = lvl /\
  compress_gzip.err z <> None /\
  body = body0 ++ compress_gzip.gzip_header lvl.

(** The codec writer against the sink [s] it writes to, when [acc] is what
    was handed to it so far: fresh; or streaming, into a sink that is
    committed to a status that allows a body; or refused, by a sink that is
    committed to a status that allows none. *)
Definition Encoding `{CD : compress_gzip.Codec} (lvl : Z)
  (z : compress_gzip.Writer) (s : http.Sink) (body0 acc : bytes) : Prop :=
  if compress_gzip.wroteHeader z then
    http.committed s <> None /\
    if http.takesBody s
    then exists chunks,
           concat chunks = acc /\ Streaming lvl z (http.Body s) body0 chunks
    else Refused lvl z (http.Body s) body0
  else acc = [] /\ Streaming lvl z (http.Body s) body0 [].

(** A run read as the moves of a decision machine: [st] is the status of a
    writer, [u] the undecided status, [trigger] the calls that decide, [cur]
    the status before the first call. From [u] a trigger leaves [u] and any
    other call stays; from any other status nothing moves. *)
Fixpoint Machine {W S} (st : W -> S) (u : S) (trigger : http.Call -> bool)
  (cur : S) (tr : list (http.Call * W)) : Prop :=
  match tr with
  | [] => True
  | (c, w) :: rest =>
      (cur = u -> if trigger c then st w <> u else st w = u) /\
      (cur <> u -> st w = cur) /\
      Machine st u trigger (st w) rest
  end.

(** What one call must do to the status for a run to follow the machine. *)
Definition Step {W S} (st : W -> S) (u : S) (trigger : http.Call -> bool)
  (c : http.Call) (w w' : W) : Prop :=
  (st w = u -> if trigger c then st w' <> u else st w' = u) /\
  (st w <> u -> st w' = st w).

Definition count (b : bool) : nat := if b then 1%nat else 0%nat.

Definition isSome {A} (o : option A) : bool :=
  match o with Some _ => true | None => false end.

Section WithPlatform.
Context `{SN : http.ContentSniffer} `{CD : compress_gzip.Codec}.

(** part_001: the log of a writer the downstream handler is still using,
    as its status determines it. *)
Definition P1_LogOK (grw : Part001.gzipResponseWriter) : Prop :=
  let log := Part001.grw_log grw in
  let decided :=
    negb (Part001.status_eqb (Part001.grw_status grw) Part001.COMPRESSION_CHECK) in
  let enabled :=
    Part001.status_eqb (Part001.grw_status grw) Part001.COMPRESSION_ENABLED in
  occurrences PredicateCalled log
    = count (decided && isSome (Part001.grw_allowCompression grw)) /\
  occurrences (HeaderChanged (http.HDel Part001.headerContentLength)) log
    = count enabled /\
  occurrences (HeaderChanged
      (http.HSet Part001.headerContentEncoding Part001.encodingGzip)) log
    = count enabled /\
  occurrences (HeaderChanged
      (http.HSet Part001.headerVary Part001.headerAcceptEncoding)) log
    = count enabled /\
  occurrences CodecClosed log = 0%nat /\
  compress_gzip.closed (Part001.grw_w grw) = false.

(** part_001: the sink's body against the bytes [acc] the downstream
    handler has written so far. While enabled every write goes to the
    codec writer. *)
Definition P1_BodyOK (lvl : Z) (body0 : bytes)
  (grw : Part001.gzipResponseWriter) (acc : bytes) : Prop :=
  match Part001.grw_status grw with
  | Part001.COMPRESSION_CHECK =>
      acc = [] /\
      compress_gzip.wroteHeader (Part001.grw_w grw) = false /\
      Streaming lvl (Part001.grw_w grw) (http.Body (Part001.sink grw)) body0 []
  | Part001.COMPRESSION_DISABLED =>
      http.Body (Part001.sink grw) = body0 ++ acc
  | Part001.COMPRESSION_ENABLED =>
      Encoding lvl (Part001.grw_w grw) (Part001.sink grw) body0 acc
  end.

(** gzip.go: the same two invariants. The Content-Length header is not
    touched while the downstream handler runs. *)
Definition GG_LogOK (grw : GzipGo.gzipResponseWriter) : Prop :=
  let log := GzipGo.grw_log grw in
  let decided :=
    negb (GzipGo.status_eqb (GzipGo.grw_status grw) GzipGo.COMPRESSION_UNDEFINED) in
  let enabled :=
    GzipGo.status_eqb (GzipGo.grw_status grw) GzipGo.COMPRESSION_ENABLED in
  occurrences PredicateCalled log
    = count (decided && isSome (GzipGo.grw_allowCompression grw)) /\
  occurrences (HeaderChanged (http.HDel GzipGo.headerContentLength)) log
    = 0%nat /\
  occurrences (HeaderChanged
      (http.HSet GzipGo.headerContentEncoding GzipGo.encodingGzip)) log
    = count enabled /\
  occurrences (HeaderChanged
      (http.HSet GzipGo.headerVary GzipGo.headerAcceptEncoding)) log
    = count enabled /\
  occurrences CodecClosed log = 0%nat /\
  compress_gzip.closed (GzipGo.grw_w grw) = false.

Definition GG_BodyOK (lvl : Z) (body0 : bytes)
  (grw : GzipGo.gzipResponseWriter) (acc : bytes) : Prop :=
  match GzipGo.grw_status grw with
  | GzipGo.COMPRESSION_UNDEFINED =>
      acc = [] /\
      compress_gzip.wroteHeader (GzipGo.grw_w grw) = false /\
      Streaming lvl (GzipGo.grw_w grw) (http.Body (GzipGo.sink grw)) body0 []
  | GzipGo.COMPRESSION_DISABLED =>
      http.Body (GzipGo.sink grw) = body0 ++ acc
  | GzipGo.COMPRESSION_ENABLED =>
      Encoding lvl (GzipGo.grw_w grw) (GzipGo.sink grw) body0 acc
  end.

End WithPlatform.

End Inv.

(** The pieces [Part001.Write], the transition and [Part001.ServeHTTP] are made
    of, named so that the proofs can speak of them. *)
Module P1View.
Section WithPlatform.
Context `{SN : http.ContentSniffer} `{CD : compress_gzip.Codec}.

(** The end of [Write]: to the codec writer when enabled, else to the
    wrapped writer. *)
Definition forward (b : bytes) (g : Part001.gzipResponseWriter)
  : Part001.gzipResponseWriter :=
  if Part001.status_eqb (Part001.grw_status g) Part001.COMPRESSION_ENABLED
  then Part001.codecWrite b g else Part001.plainWrite b g.

(** The start of [Write]: the Content-Type is sniffed when there is none. *)
Definition sniffed (b : bytes) (g : Part001.gzipResponseWriter)
  : Part001.gzipResponseWriter :=
  if (String.length (http.Get (Part001.Header g) Part001.headerContentType) =? 0)%nat
  then Part001.headers
         (http.HSet Part001.headerContentType (http.DetectContentType b)) g
  else g.

(** The headers the transition leaves when the predicate permits, and the
    events it logs. *)
Definition gzipHeaders (h : http.Header) : http.Header :=
  http.Set_
    (http.Set_ (http.Del h Part001.headerContentLength)
       Part001.headerContentEncoding Part001.encodingGzip)
    Part001.headerVary Part001.headerAcceptEncoding.

Definition gzipEvents : list Event :=
  [HeaderChanged (http.HDel Part001.headerContentLength);
   HeaderChanged (http.HSet Part001.headerContentEncoding Part001.encodingGzip);
   HeaderChanged (http.HSet Part001.headerVary Part001.headerAcceptEncoding)].

(** The three tests at the head of [ServeHTTP]. *)
Definition accepts (r : http.Request) : bool :=
  strings.Contains (http.Get (http.reqHeader r) Part001.headerAcceptEncoding)
    Part001.encodingGzip.

Definition upgrades (r : http.Request) : bool :=
  (0 <? String.length (http.Get (http.reqHeader r) Part001.headerSecWebSocketKey))%nat.

Definition encoded (w : http.Sink) : bool :=
  String.eqb (http.Get (http.HeaderMap w) Part001.headerContentEncoding)
    Part001.encodingGzip.

End WithPlatform.
End P1View.

(** The pieces [GzipGo.Write], the transition and [GzipGo.ServeHTTP] are made
    of, named so that the proofs can speak of them. *)
Module GGView.
Section WithPlatform.
Context `{SN : http.ContentSniffer} `{CD : compress_gzip.Codec}.

(** The end of [Write]: to the codec writer when enabled, else to the
    wrapped writer. *)
Definition forward (b : bytes) (g : GzipGo.gzipResponseWriter)
  : GzipGo.gzipResponseWriter :=
  if GzipGo.status_eqb (GzipGo.grw_status g) GzipGo.COMPRESSION_ENABLED
  then GzipGo.codecWrite b g else GzipGo.plainWrite b g.

(** The start of [Write]: the Content-Type is sniffed when there is none. *)
Definition sniffed (b : bytes) (g : GzipGo.gzipResponseWriter)
  : GzipGo.gzipResponseWriter :=
  if (String.length (http.Get (GzipGo.Header g) GzipGo.headerContentType) =? 0)%nat
  then GzipGo.headers
         (http.HSet GzipGo.headerContentType (http.DetectContentType b)) g
  else g.

(** The headers the transition leaves when the predicate permits, and the
    events it logs. *)
Definition gzipHeaders (h : http.Header) : http.Header :=
  http.Set_
    (http.Set_ h GzipGo.headerContentEncoding GzipGo.encodingGzip)
    GzipGo.headerVary GzipGo.headerAcceptEncoding.

Definition gzipEvents : list Event :=
  [HeaderChanged (http.HSet GzipGo.headerContentEncoding GzipGo.encodingGzip);
   HeaderChanged (http.HSet GzipGo.headerVary GzipGo.headerAcceptEncoding)].

(** What the decision reads and what it leaves: the status, the header
    map, the log, the callback and the request. *)
Definition control (g : GzipGo.gzipResponseWriter) :=
  (GzipGo.grw_status g, GzipGo.Header g, GzipGo.grw_log g,
   GzipGo.grw_allowCompression g, GzipGo.grw_r g).

(** The three tests at the head of [ServeHTTP]. *)
Definition accepts (r : http.Request) : bool :=
  strings.Contains (http.Get (http.reqHeader r) GzipGo.headerAcceptEncoding)
    GzipGo.encodingGzip.

Definition upgrades (r : http.Request) : bool :=
  (0 <? String.length (http.Get (http.reqHeader r) GzipGo.headerSecWebSocketKey))%nat.

Definition encoded (w : http.Sink) : bool :=
  String.eqb (http.Get (http.HeaderMap w) GzipGo.headerContentEncoding)
    GzipGo.encodingGzip.

End WithPlatform.
End GGView.

(* ===================================================================== *)
(** ** Further notions: predicates, handlers, what was sent               *)
(* ===================================================================== *)

Module Extra.

(** A callback slot ([nil] or a function) that lets everything through,
    and one that holds a function refusing everything. *)
Definition alwaysPermits
  (fn : option (http.Header -> http.Request -> bool)) : Prop :=
  match fn with
  | None => True
  | Some f => forall hd r, f hd r = true
  end.

Definition alwaysRefuses
  (fn : option (http.Header -> http.Request -> bool)) : Prop :=
  match fn with
  | None => False
  | Some f => forall hd r, f hd r = false
  end.

(** A handler that never calls [WriteHeader] itself, whatever it reads. *)
Fixpoint noWriteHeader (p : http.Handler) : Prop :=
  match p with
  | http.Return => True
  | http.CallWrite _ k => noWriteHeader k
  | http.CallWriteHeader _ _ => False
  | http.CallHeader _ k => noWriteHeader k
  | http.ReadHeader k => forall h, noWriteHeader (k h)
  end.

(** The headers a client needs to decode a compressed body, in what was
    sent with the status line. *)
Definition announcesGzip (hs : http.Header) : Prop :=
  http.Get hs "Content-Encoding" = "gzip" /\
  http.Values hs "Vary" = ["Accept-Encoding"].

Section WithPlatform.
Context `{SN : http.ContentSniffer} `{CD : compress_gzip.Codec}.

(** part_001: what the sink has sent, as the status determines it: nothing
    while undecided; once enabled, a status line whose headers announce
    gzip and carry no Content-Length. *)
Definition P1_SentOK (grw : Part001.gzipResponseWriter) : Prop :=
  match Part001.grw_status grw with
  | Part001.COMPRESSION_CHECK => http.committed (Part001.sink grw) = None
  | Part001.COMPRESSION_DISABLED => http.committed (Part001.sink grw) <> None
  | Part001.COMPRESSION_ENABLED =>
      exists code hs,
        http.committed (Part001.sink grw) = Some (code, hs) /\
        announcesGzip hs /\
        http.Get hs "Content-Length" = ""
  end.

(** gzip.go, for handlers that leave the header commit to the first
    write: nothing sent while undecided; once enabled, status 200 with
    headers that announce gzip. *)
Definition GG_SentOK (grw : GzipGo.gzipResponseWriter) : Prop :=
  match GzipGo.grw_status grw with
  | GzipGo.COMPRESSION_UNDEFINED => http.committed (GzipGo.sink grw) = None
  | GzipGo.COMPRESSION_DISABLED => http.committed (GzipGo.sink grw) <> None
  | GzipGo.COMPRESSION_ENABLED =>
      exists hs,
        http.committed (GzipGo.sink grw) = Some (http.StatusOK, hs) /\
        announcesGzip hs
  end.

End WithPlatform.

End Extra.

(** Concrete handlers and writers to run the further properties on. *)
Module ToyExtra.

(** The callback of the repository's test that refuses. *)
Definition refuse : http.Header -> http.Request -> bool := fun _ _ => false.

Definition refusingPart001 : Part001.handler :=
  Part001.New compress_gzip.DefaultCompression (Some refuse).

(** Fresh writers whose header map the handler has already written to. *)
Definition typedPart001 : Part001.gzipResponseWriter (CD := Toy.codec) :=
  Part001.HeaderUpd
    (http.applyHeaderOp (http.HSet "Content-Type" "text/plain"))
    Toy.freshPart001.

Definition sizedGzipGo : GzipGo.gzipResponseWriter (CD := Toy.codec) :=
  GzipGo.HeaderUpd
    (http.applyHeaderOp (http.HSet "Content-Length" "21"))
    Toy.freshGzipGo.

End ToyExtra.

(* ===================================================================== *)
(** * Facts about the library functions                                   *)
(* ===================================================================== *)

Module StringsFacts.

Lemma HasPrefix_spec s p :
  strings.HasPrefix s p = true <-> exists t, s = String.append p t.
Proof.
  revert s. induction p as [|c p IH]; intros [|d s]; cbn.
  - split; [intros _; by exists "" | done].
  - split; [intros _; by exists (String d s) | done].
  - split; [done | intros [t Ht]; discriminate Ht].
  - rewrite andb_true_iff, IH, Ascii.eqb_eq. split.
    + intros [-> [t ->]]. by exists t.
    + intros [t [= -> ->]]. eauto.
Qed.

(** [strings.Contains] is the substring test. *)
Lemma Contains_spec s sub :
  strings.Contains s sub = true <->
  exists a b, s = String.append a (String.append sub b).
Proof.
  induction s as [|d s IH]; cbn [strings.Contains].
  - rewrite orb_false_r, HasPrefix_spec. split.
    + intros [t Ht]. by exists "", t.
    + intros ([|c a] & b & Hab); [by exists b | discriminate Hab].
  - rewrite orb_true_iff, HasPrefix_spec, IH. split.
    + intros [[t Ht]|(a & b & ->)].
      * by exists "", t.
      * by exists (String d a), b.
    + intros ([|c a] & b & Hab); cbn in Hab.
      * left. by exists b.
      * right. injection Hab as -> ->. by exists a, b.
Qed.

Example Contains_list : strings.Contains "deflate, gzip;q=0.8" "gzip" = true.
Proof. reflexivity. Qed.

Example Contains_absent : strings.Contains "deflate, br" "gzip" = false.
Proof. reflexivity. Qed.

End StringsFacts.

Module KeyFacts.

Example canonical_lower :
  http.CanonicalMIMEHeaderKey "accept-encoding" = "Accept-Encoding".
Proof. reflexivity. Qed.

Example canonical_websocket :
  http.CanonicalMIMEHeaderKey "Sec-WebSocket-Key" = "Sec-Websocket-Key".
Proof. reflexivity. Qed.

Example canonical_not_a_token :
  http.CanonicalMIMEHeaderKey "content type" = "content type".
Proof. reflexivity. Qed.

End KeyFacts.

(* ===================================================================== *)
(** * Facts about the collaborators                                       *)
(* ===================================================================== *)

#[global] Arguments http.sinkWrite : simpl never.
#[global] Arguments http.sinkWriteHeader : simpl never.
#[global] Arguments http.sinkHeaderUpd : simpl never.
#[global] Arguments http.sinkWriteResult : simpl never.
#[global] Arguments http.takesBody : simpl never.
#[global] Arguments http.bodyAllowedForStatus : simpl never.
#[global] Arguments compress_gzip.emit : simpl never.
#[global] Arguments compress_gzip.Write : simpl never.
#[global] Arguments compress_gzip.Close : simpl never.
#[global] Arguments http.CanonicalMIMEHeaderKey : simpl never.
#[global] Arguments negroni.Write : simpl never.
#[global] Arguments negroni.WriteHeader : simpl never.

(** Two header names that canonicalise to different keys. *)
Ltac keys_differ :=
  let H := fresh in intros H; vm_compute in H; discriminate H.

Module HttpFacts.

(** ** Strings *)

Lemma length_pos (s : string) :
  (0 <? String.length s)%nat = true <-> s <> "".
Proof. destruct s; cbn; split; done. Qed.

Lemma length_zero (s : string) :
  (String.length s =? 0)%nat = true <-> s = "".
Proof. destruct s; cbn; split; done. Qed.

(** ** Headers *)

Lemma Get_Set_same (h : http.Header) k v : http.Get (http.Set_ h k v) k = v.
Proof. unfold http.Get, http.Set_. by rewrite lookup_insert_eq. Qed.

Lemma Get_Set_other (h : http.Header) k k' v :
  http.CanonicalMIMEHeaderKey k ≠ http.CanonicalMIMEHeaderKey k' ->
  http.Get (http.Set_ h k v) k' = http.Get h k'.
Proof. intros Hne. unfold http.Get, http.Set_. by rewrite lookup_insert_ne. Qed.

Lemma Get_Del_same (h : http.Header) k : http.Get (http.Del h k) k = "".
Proof. unfold http.Get, http.Del. by rewrite lookup_delete_eq. Qed.

Lemma Get_Del_other (h : http.Header) k k' :
  http.CanonicalMIMEHeaderKey k ≠ http.CanonicalMIMEHeaderKey k' ->
  http.Get (http.Del h k) k' = http.Get h k'.
Proof. intros Hne. unfold http.Get, http.Del. by rewrite lookup_delete_ne. Qed.

Lemma Values_Set_same (h : http.Header) k v :
  http.Values (http.Set_ h k v) k = [v].
Proof. unfold http.Values, http.Set_. by rewrite lookup_insert_eq. Qed.

Lemma Values_Set_other (h : http.Header) k k' v :
  http.CanonicalMIMEHeaderKey k ≠ http.CanonicalMIMEHeaderKey k' ->
  http.Values (http.Set_ h k v) k' = http.Values h k'.
Proof. intros Hne. unfold http.Values, http.Set_. by rewrite lookup_insert_ne. Qed.

(** ** The sink *)

Lemma Body_sinkWriteHeader code s :
  http.Body (http.sinkWriteHeader code s) = http.Body s.
Proof. unfold http.sinkWriteHeader. by destruct (http.committed s). Qed.

Lemma HeaderMap_sinkWriteHeader code s :
  http.HeaderMap (http.sinkWriteHeader code s) = http.HeaderMap s.
Proof. unfold http.sinkWriteHeader. by destruct (http.committed s). Qed.

Lemma Body_sinkWrite b s : http.Body (http.sinkWrite b s) = http.Body s ++ b.
Proof. unfold http.sinkWrite, http.sinkWriteHeader. by destruct (http.committed s). Qed.

Lemma HeaderMap_sinkWrite b s :
  http.HeaderMap (http.sinkWrite b s) = http.HeaderMap s.
Proof. unfold http.sinkWrite, http.sinkWriteHeader. by destruct (http.committed s). Qed.

Lemma committed_sinkWriteHeader code s :
  http.committed (http.sinkWriteHeader code s) =
  match http.committed s with
  | Some c => Some c
  | None => Some (code, http.HeaderMap s)
  end.
Proof. unfold http.sinkWriteHeader. by destruct (http.committed s) eqn:E. Qed.

Lemma committed_sinkWrite b s :
  http.committed (http.sinkWrite b s) =
  match http.committed s with
  | Some c => Some c
  | None => Some (http.StatusOK, http.HeaderMap s)
  end.
Proof.
  unfold http.sinkWrite, http.sinkWriteHeader.
  by destruct (http.committed s) eqn:E.
Qed.

Lemma Body_sinkHeaderUpd f s :
  http.Body (http.sinkHeaderUpd f s) = http.Body s.
Proof. done. Qed.

Lemma committed_sinkHeaderUpd f s :
  http.committed (http.sinkHeaderUpd f s) = http.committed s.
Proof. done. Qed.

Lemma HeaderMap_sinkHeaderUpd f s :
  http.HeaderMap (http.sinkHeaderUpd f s) = f (http.HeaderMap s).
Proof. done. Qed.

(** Once a status is committed, a later [WriteHeader] is ignored. *)
Lemma sinkWriteHeader_committed code s :
  http.committed s <> None -> http.sinkWriteHeader code s = s.
Proof. unfold http.sinkWriteHeader. by destruct (http.committed s). Qed.

Lemma sinkWrite_committed_Some b s : http.committed (http.sinkWrite b s) <> None.
Proof. rewrite committed_sinkWrite. by destruct (http.committed s). Qed.

(** A write does not change whether the sink accepts a body, and is
    answered accordingly. *)
Lemma takesBody_sinkWrite b s :
  http.takesBody (http.sinkWrite b s) = http.takesBody s.
Proof.
  unfold http.takesBody. rewrite committed_sinkWrite.
  by destruct (http.committed s).
Qed.

Lemma takesBody_sinkHeaderUpd f s :
  http.takesBody (http.sinkHeaderUpd f s) = http.takesBody s.
Proof. done. Qed.

Lemma takesBody_uncommitted s : http.committed s = None -> http.takesBody s = true.
Proof. intros E. unfold http.takesBody. by rewrite E. Qed.

Lemma takesBody_sinkWriteHeader code s :
  http.takesBody (http.sinkWriteHeader code s) =
  match http.committed s with
  | Some _ => http.takesBody s
  | None => http.bodyAllowedForStatus code
  end.
Proof.
  unfold http.takesBody. rewrite committed_sinkWriteHeader.
  by destruct (http.committed s).
Qed.

Lemma sinkWriteResult_eq b s :
  http.sinkWriteResult b s =
  if http.takesBody s then (Z.of_nat (length b), None)
  else (0, Some http.ErrBodyNotAllowed).
Proof. unfold http.sinkWriteResult. by rewrite takesBody_sinkWrite. Qed.

(** ** negroni's writer *)

Lemma negroni_WriteHeader_Body code rw :
  http.Body (negroni.ResponseWriter (negroni.WriteHeader code rw))
  = http.Body (negroni.ResponseWriter rw).
Proof. apply Body_sinkWriteHeader. Qed.

Lemma negroni_WriteHeader_Header code rw :
  negroni.Header (negroni.WriteHeader code rw) = negroni.Header rw.
Proof. apply HeaderMap_sinkWriteHeader. Qed.

Lemma negroni_Write_Body b rw :
  http.Body (negroni.ResponseWriter (negroni.Write b rw))
  = http.Body (negroni.ResponseWriter rw) ++ b.
Proof.
  unfold negroni.Write. cbn. rewrite Body_sinkWrite.
  destruct (negroni.Written rw); [done|]. by rewrite negroni_WriteHeader_Body.
Qed.

Lemma negroni_Write_Header b rw :
  negroni.Header (negroni.Write b rw) = negroni.Header rw.
Proof.
  unfold negroni.Write, negroni.Header. cbn. rewrite HeaderMap_sinkWrite.
  destruct (negroni.Written rw); [done|]. apply negroni_WriteHeader_Header.
Qed.

Lemma takesBody_sinkWriteHeader_OK s :
  http.takesBody (http.sinkWriteHeader http.StatusOK s) = http.takesBody s.
Proof.
  rewrite takesBody_sinkWriteHeader. unfold http.takesBody.
  by destruct (http.committed s).
Qed.

Lemma negroni_WriteHeader_takesBody code rw :
  http.takesBody (negroni.ResponseWriter (negroni.WriteHeader code rw))
  = match http.committed (negroni.ResponseWriter rw) with
    | Some _ => http.takesBody (negroni.ResponseWriter rw)
    | None => http.bodyAllowedForStatus code
    end.
Proof. apply takesBody_sinkWriteHeader. Qed.

Lemma negroni_Write_takesBody b rw :
  http.takesBody (negroni.ResponseWriter (negroni.Write b rw))
  = http.takesBody (negroni.ResponseWriter rw).
Proof.
  unfold negroni.Write. cbn. rewrite takesBody_sinkWrite.
  destruct (negroni.Written rw); [done|].
  unfold negroni.WriteHeader. cbn. apply takesBody_sinkWriteHeader_OK.
Qed.

(** ** Running handlers *)

(** An invariant that relates the writer to the bytes written so far holds
    at the end of a run when every call of the interface keeps it. *)
Lemma exec_invariant {W} `{http.ResponseWriter W} (I : W -> bytes -> Prop) :
  (forall w acc b, I w acc -> I (http.rwWrite b w) (acc ++ b)) ->
  (forall w acc code, I w acc -> I (http.rwWriteHeader code w) acc) ->
  (forall w acc f, I w acc -> I (http.rwHeaderUpd f w) acc) ->
  forall p w acc, I w acc -> I (http.exec p w) (acc ++ http.written p w).
Proof.
  intros HW HH HU p.
  induction p as [|b k IH|code k IH|o k IH|k IH]; intros w acc Hw; cbn.
  - by rewrite app_nil_r.
  - rewrite app_assoc. apply IH, HW, Hw.
  - apply IH, HH, Hw.
  - apply IH, HU, Hw.
  - by apply IH.
Qed.

(** The same for an invariant of the writer alone. *)
Lemma exec_preserves {W} `{http.ResponseWriter W} (I : W -> Prop) :
  (forall w b, I w -> I (http.rwWrite b w)) ->
  (forall w code, I w -> I (http.rwWriteHeader code w)) ->
  (forall w f, I w -> I (http.rwHeaderUpd f w)) ->
  forall p w, I w -> I (http.exec p w).
Proof.
  intros HW HH HU p w Hw.
  apply (exec_invariant (fun w _ => I w)) with (acc := []); auto.
Qed.

(** Against the sink itself, the body grows by what the handler writes. *)
Lemma sink_exec_Body p (s : http.Sink) :
  http.Body (http.exec p s) = http.Body s ++ http.written p s.
Proof.
  apply (exec_invariant (fun w acc => http.Body w = http.Body s ++ acc))
    with (acc := []).
  - intros w acc b Hw. change (http.rwWrite b w) with (http.sinkWrite b w).
    rewrite Body_sinkWrite, Hw. by rewrite app_assoc.
  - intros w acc code Hw.
    change (http.rwWriteHeader code w) with (http.sinkWriteHeader code w).
    by rewrite Body_sinkWriteHeader.
  - intros w acc f Hw. exact Hw.
  - by rewrite app_nil_r.
Qed.

Lemma last_cons_default {A} (x : A) l d : List.last (x :: l) d = List.last l x.
Proof.
  revert x d. induction l as [|y l IH]; intros x d; [done|].
  change (List.last (y :: l) d = List.last (y :: l) x).
  by rewrite !IH.
Qed.

(** The final state of a run is the state after its last call. *)
Lemma exec_run {W} `{http.ResponseWriter W} p (w : W) :
  http.exec p w = List.last (map snd (http.run p w)) w.
Proof.
  revert w. induction p as [|b k IH|code k IH|o k IH|k IH]; intros w;
    cbn [http.exec http.run]; try done; cbv zeta; rewrite map_cons, last_cons_default; apply IH.
Qed.

End HttpFacts.

Module GzipFacts.
Section WithCodec.
Context `{CD : compress_gzip.Codec}.

Lemma flate_writes_snoc c chunks p :
  compress_gzip.flate_writes c (chunks ++ [p]) =
  let (c1, out) := compress_gzip.flate_writes c chunks in
  let (c2, o) := compress_gzip.flate_Write c1 p in
  (c2, out ++ o).
Proof.
  revert c. induction chunks as [|q chunks IH]; intros c; cbn.
  - destruct (compress_gzip.flate_Write c p) as [c2 o]. by rewrite app_nil_r.
  - destruct (compress_gzip.flate_Write c q) as [c1 o1]. rewrite IH.
    destruct (compress_gzip.flate_writes c1 chunks) as [c2 o2].
    destruct (compress_gzip.flate_Write c2 p) as [c3 o3].
    by rewrite app_assoc.
Qed.

(** ** What the compressor hands to the sink *)

Lemma Body_emit out s :
  http.Body (compress_gzip.emit out s).1 = http.Body s ++ out.
Proof.
  destruct out as [|x out]; unfold compress_gzip.emit; cbn [fst].
  - by rewrite app_nil_r.
  - apply HttpFacts.Body_sinkWrite.
Qed.

Lemma HeaderMap_emit out s :
  http.HeaderMap (compress_gzip.emit out s).1 = http.HeaderMap s.
Proof.
  destruct out as [|x out]; unfold compress_gzip.emit; cbn [fst]; [done|].
  apply HttpFacts.HeaderMap_sinkWrite.
Qed.

Lemma takesBody_emit out s :
  http.takesBody (compress_gzip.emit out s).1 = http.takesBody s.
Proof.
  destruct out as [|x out]; unfold compress_gzip.emit; cbn [fst]; [done|].
  apply HttpFacts.takesBody_sinkWrite.
Qed.

Lemma committed_emit out s :
  http.committed s <> None ->
  http.committed (compress_gzip.emit out s).1 = http.committed s.
Proof.
  intros Hc. destruct out as [|x out]; unfold compress_gzip.emit; cbn [fst]; [done|].
  rewrite HttpFacts.committed_sinkWrite. by destruct (http.committed s).
Qed.

(** A sink that accepts a body answers the compressor with no error. *)
Lemma emit_accepted out s :
  http.takesBody s = true -> (compress_gzip.emit out s).2 = None.
Proof.
  intros Ht. destruct out as [|x out]; unfold compress_gzip.emit; cbn [snd]; [done|].
  by rewrite HttpFacts.sinkWriteResult_eq, Ht.
Qed.

(** ** Making a writer *)

Lemma NewWriterLevel_valid lvl :
  compress_gzip.validLevel lvl = true ->
  exists z, compress_gzip.NewWriterLevel lvl = inl z.
Proof.
  unfold compress_gzip.validLevel, compress_gzip.NewWriterLevel.
  destruct (_ || _); [done|]. eauto.
Qed.

Lemma NewWriterLevel_invalid lvl :
  compress_gzip.validLevel lvl = false ->
  compress_gzip.NewWriterLevel lvl = inr (compress_gzip.InvalidLevel lvl).
Proof.
  unfold compress_gzip.validLevel, compress_gzip.NewWriterLevel.
  by destruct (_ || _).
Qed.

(** A writer that was just made has streamed nothing, at a valid level. *)
Lemma Streaming_new lvl z body :
  compress_gzip.NewWriterLevel lvl = inl z ->
  compress_gzip.validLevel lvl = true /\ Inv.Streaming lvl z body body [].
Proof.
  unfold compress_gzip.validLevel, compress_gzip.NewWriterLevel.
  destruct (_ || _); [done|]. intros [= <-]. split; [done|].
  by repeat split.
Qed.

Lemma NewWriterLevel_fresh lvl z :
  compress_gzip.NewWriterLevel lvl = inl z ->
  compress_gzip.wroteHeader z = false /\ compress_gzip.err z = None.
Proof.
  unfold compress_gzip.NewWriterLevel.
  destruct (_ || _); [done|]. by intros [= <-].
Qed.

(** ** Writes *)

(** Once a write has failed the writer writes no more. *)
Lemma Write_failed p z s :
  compress_gzip.err z <> None -> compress_gzip.Write p (z, s) = (z, s).
Proof. intros He. unfold compress_gzip.Write. by destruct (compress_gzip.err z). Qed.

Lemma Close_failed z s :
  compress_gzip.err z <> None -> compress_gzip.Close (z, s) = (z, s).
Proof. intros He. unfold compress_gzip.Close. by destruct (compress_gzip.err z). Qed.

(** A write into a sink that accepts a body adds its chunk to the stream
    and leaves the headers alone. *)
Lemma Streaming_Write lvl z s body0 chunks p z' s' :
  Inv.Streaming lvl z (http.Body s) body0 chunks ->
  http.takesBody s = true ->
  compress_gzip.Write p (z, s) = (z', s') ->
  Inv.Streaming lvl z' (http.Body s') body0 (chunks ++ [p]) /\
  compress_gzip.wroteHeader z' = true /\
  http.HeaderMap s' = http.HeaderMap s /\
  http.takesBody s' = true /\
  (compress_gzip.wroteHeader z = false \/ http.committed s <> None ->
   http.committed s' <> None).
Proof.
  intros (Hcl & He & Hlv & Hdg & Hst) Ht HW. unfold compress_gzip.Write in HW.
  rewrite He in HW.
  destruct (compress_gzip.wroteHeader z) eqn:Ewh.
  - rewrite He in HW.
    destruct (compress_gzip.flate_Write (compress_gzip.compressor z) p)
      as [c o] eqn:Ew.
    pose proof (Body_emit o s) as HB. pose proof (HeaderMap_emit o s) as HH.
    pose proof (takesBody_emit o s) as HT. pose proof (emit_accepted o s Ht) as HE.
    pose proof (committed_emit o s) as HC.
    destruct (compress_gzip.emit o s) as [s2 e]. cbn in HB, HH, HT, HE, HC.
    injection HW as <- <-. destruct Hst as (out & Hout & Hbody).
    split; [|split_and!].
    + unfold Inv.Streaming. cbn. split_and!; [done|done|done| |].
      * rewrite concat_app, Hdg. cbn. by rewrite app_nil_r.
      * exists (out ++ o). rewrite flate_writes_snoc, Hout, Ew.
        split; [done|]. rewrite HB, Hbody. by rewrite <- !app_assoc.
    + done.
    + done.
    + congruence.
    + intros [|Hc]; [done|]. by rewrite HC.
  - cbn [compress_gzip.err compress_gzip.compressor compress_gzip.level
         compress_gzip.closed compress_gzip.digest] in HW.
    rewrite HttpFacts.sinkWriteResult_eq, Ht in HW. cbn [snd] in HW.
    destruct (compress_gzip.flate_Write (compress_gzip.compressor z) p)
      as [c o] eqn:Ew.
    set (s1 := http.sinkWrite (compress_gzip.gzip_header (compress_gzip.level z)) s)
      in HW.
    assert (http.takesBody s1 = true) as Ht1
      by (subst s1; by rewrite HttpFacts.takesBody_sinkWrite).
    assert (http.committed s1 <> None) as Hc1
      by apply HttpFacts.sinkWrite_committed_Some.
    pose proof (Body_emit o s1) as HB. pose proof (HeaderMap_emit o s1) as HH.
    pose proof (takesBody_emit o s1) as HT. pose proof (emit_accepted o s1 Ht1) as HE.
    pose proof (committed_emit o s1 Hc1) as HC.
    destruct (compress_gzip.emit o s1) as [s2 e]. cbn in HB, HH, HT, HE, HC.
    injection HW as <- <-. destruct Hst as (-> & Hc & Hbody).
    subst s1. rewrite HttpFacts.Body_sinkWrite in HB.
    rewrite HttpFacts.HeaderMap_sinkWrite in HH.
    split; [|split_and!].
    + unfold Inv.Streaming. cbn. split_and!; [done|done|done| |].
      * rewrite Hdg. cbn. by rewrite app_nil_r.
      * exists o. split.
        -- rewrite <- Hc, Ew. cbn. by rewrite app_nil_r.
        -- rewrite HB, Hbody, Hlv. by rewrite <- app_assoc.
    + done.
    + done.
    + congruence.
    + intros _. by rewrite HC.
Qed.

(** A first write into a sink that accepts no body leaves the header there
    and the error in the writer. *)
Lemma Streaming_Write_refused lvl z s body0 p z' s' :
  Inv.Streaming lvl z (http.Body s) body0 [] ->
  compress_gzip.wroteHeader z = false ->
  http.takesBody s = false ->
  compress_gzip.Write p (z, s) = (z', s') ->
  Inv.Refused lvl z' (http.Body s') body0 /\
  compress_gzip.wroteHeader z' = true /\
  http.HeaderMap s' = http.HeaderMap s /\
  http.takesBody s' = false /\
  http.committed s' <> None.
Proof.
  intros (Hcl & He & Hlv & Hdg & Hst) Ewh Ht HW. unfold compress_gzip.Write in HW.
  rewrite He, Ewh in HW.
  cbn [compress_gzip.err] in HW.
  rewrite HttpFacts.sinkWriteResult_eq, Ht in HW. cbn [snd] in HW.
  injection HW as <- <-. unfold Inv.Refused. cbn.
  rewrite Ewh in Hst. destruct Hst as (_ & _ & Hbody).
  rewrite HttpFacts.Body_sinkWrite, HttpFacts.HeaderMap_sinkWrite,
    HttpFacts.takesBody_sinkWrite, Hbody, Hlv.
  split_and!; try done. apply HttpFacts.sinkWrite_committed_Some.
Qed.

(** Every write keeps the writer in step with its sink. *)
Lemma Encoding_Write lvl z s body0 acc p z' s' :
  Inv.Encoding lvl z s body0 acc ->
  compress_gzip.Write p (z, s) = (z', s') ->
  Inv.Encoding lvl z' s' body0 (acc ++ p) /\
  compress_gzip.wroteHeader z' = true.
Proof.
  unfold Inv.Encoding. destruct (compress_gzip.wroteHeader z) eqn:Ewh.
  - intros [Hc Hst] HW. destruct (http.takesBody s) eqn:Ht.
    + destruct Hst as (chunks & <- & Hst).
      destruct (Streaming_Write _ _ _ _ _ _ _ _ Hst Ht HW)
        as (H1 & H2 & _ & H4 & H5).
      rewrite H2, H4. split; [|done]. split; [auto|].
      exists (chunks ++ [p]). split; [|done].
      rewrite concat_app. cbn. by rewrite app_nil_r.
    + pose proof Hst as (_ & _ & He & _).
      rewrite Write_failed in HW by done. injection HW as <- <-.
      by rewrite Ewh, Ht.
  - intros [-> Hst] HW. destruct (http.takesBody s) eqn:Ht.
    + destruct (Streaming_Write _ _ _ _ _ _ _ _ Hst Ht HW)
        as (H1 & H2 & _ & H4 & H5).
      rewrite H2, H4. split; [|done]. split; [auto|].
      exists [p]. split; [|done]. cbn. by rewrite app_nil_r.
    + destruct (Streaming_Write_refused _ _ _ _ _ _ _ Hst Ewh Ht HW)
        as (H1 & H2 & _ & H4 & H5).
      by rewrite H2, H4.
Qed.

(** Unconditionally, the codec writer never touches the header map, and
    only [Close] closes. *)
Lemma Write_HeaderMap p z s :
  http.HeaderMap (compress_gzip.Write p (z, s)).2 = http.HeaderMap s.
Proof.
  unfold compress_gzip.Write.
  destruct (compress_gzip.err z); [done|].
  destruct (compress_gzip.wroteHeader z).
  - destruct (compress_gzip.err z); [done|].
    destruct (compress_gzip.flate_Write _ _) as [c o].
    pose proof (HeaderMap_emit o s) as HH.
    by destruct (compress_gzip.emit o s).
  - cbn [compress_gzip.err compress_gzip.compressor].
    destruct (http.sinkWriteResult _ _).2.
    + apply HttpFacts.HeaderMap_sinkWrite.
    + destruct (compress_gzip.flate_Write _ _) as [c o].
      pose proof (HeaderMap_emit o
        (http.sinkWrite (compress_gzip.gzip_header (compress_gzip.level z)) s)) as HH.
      destruct (compress_gzip.emit o _). cbn in *.
      by rewrite HH, HttpFacts.HeaderMap_sinkWrite.
Qed.

Lemma Write_closed p z s :
  compress_gzip.closed (compress_gzip.Write p (z, s)).1 = compress_gzip.closed z.
Proof.
  unfold compress_gzip.Write.
  destruct (compress_gzip.err z); [done|].
  destruct (compress_gzip.wroteHeader z).
  - destruct (compress_gzip.err z); [done|].
    destruct (compress_gzip.flate_Write _ _) as [c o].
    by destruct (compress_gzip.emit o s).
  - cbn [compress_gzip.err compress_gzip.compressor].
    destruct (http.sinkWriteResult _ _).2; [done|].
    destruct (compress_gzip.flate_Write _ _) as [c o].
    by destruct (compress_gzip.emit o _).
Qed.

(** What was committed stays committed. *)
Lemma Write_committed p z s :
  http.committed s <> None ->
  http.committed (compress_gzip.Write p (z, s)).2 = http.committed s.
Proof.
  intros Hc. unfold compress_gzip.Write.
  assert (forall b, http.committed (http.sinkWrite b s) = http.committed s) as Hw.
  { intros b. rewrite HttpFacts.committed_sinkWrite.
    by destruct (http.committed s). }
  destruct (compress_gzip.err z); [done|].
  destruct (compress_gzip.wroteHeader z).
  - destruct (compress_gzip.err z); [done|].
    destruct (compress_gzip.flate_Write _ _) as [c o].
    pose proof (committed_emit o s Hc) as HH.
    by destruct (compress_gzip.emit o s).
  - cbn [compress_gzip.err compress_gzip.compressor].
    destruct (http.sinkWriteResult _ _).2; [apply Hw|].
    destruct (compress_gzip.flate_Write _ _) as [c o].
    pose proof (committed_emit o
      (http.sinkWrite (compress_gzip.gzip_header (compress_gzip.level z)) s)) as HH.
    destruct (compress_gzip.emit o _). cbn in *.
    rewrite HH, Hw; [done|]. by rewrite Hw.
Qed.

(** Whether the sink accepts a body is not changed by what the codec
    writer writes to it. *)
Lemma Write_takesBody p z s :
  http.takesBody (compress_gzip.Write p (z, s)).2 = http.takesBody s.
Proof.
  unfold compress_gzip.Write.
  destruct (compress_gzip.err z); [done|].
  destruct (compress_gzip.wroteHeader z).
  - destruct (compress_gzip.err z); [done|].
    destruct (compress_gzip.flate_Write _ _) as [c o].
    pose proof (takesBody_emit o s) as HH.
    by destruct (compress_gzip.emit o s).
  - cbn [compress_gzip.err compress_gzip.compressor].
    destruct (http.sinkWriteResult _ _).2.
    + apply HttpFacts.takesBody_sinkWrite.
    + destruct (compress_gzip.flate_Write _ _) as [c o].
      pose proof (takesBody_emit o
        (http.sinkWrite (compress_gzip.gzip_header (compress_gzip.level z)) s)) as HH.
      destruct (compress_gzip.emit o _). cbn in *.
      by rewrite HH, HttpFacts.takesBody_sinkWrite.
Qed.

(** What the handler does to the sink through the other layers keeps the
    writer in step: a header mutation, and a status commit, which a sink
    that is committed ignores. *)
Lemma Encoding_sinkHeaderUpd lvl z s body0 acc f :
  Inv.Encoding lvl z s body0 acc ->
  Inv.Encoding lvl z (http.sinkHeaderUpd f s) body0 acc.
Proof. done. Qed.

Lemma Encoding_sinkWriteHeader lvl z s body0 acc code :
  Inv.Encoding lvl z s body0 acc ->
  Inv.Encoding lvl z (http.sinkWriteHeader code s) body0 acc.
Proof.
  unfold Inv.Encoding. destruct (compress_gzip.wroteHeader z).
  - intros [Hc H]. by rewrite HttpFacts.sinkWriteHeader_committed.
  - by rewrite HttpFacts.Body_sinkWriteHeader.
Qed.

(** ** Closing *)

Lemma Close_HeaderMap z s :
  http.HeaderMap (compress_gzip.Close (z, s)).2 = http.HeaderMap s.
Proof.
  unfold compress_gzip.Close.
  destruct (compress_gzip.err z); [done|].
  destruct (compress_gzip.closed z); [done|].
  cbn [compress_gzip.wroteHeader].
  set (z0 := compress_gzip.mkWriter _ _ _ _ _ _ _).
  assert (exists z1 s1,
    (if compress_gzip.wroteHeader z then (z0, s)
     else compress_gzip.Write [] (z0, s)) = (z1, s1) /\
    http.HeaderMap s1 = http.HeaderMap s) as (z1 & s1 & -> & H1).
  { destruct (compress_gzip.wroteHeader z); [by eauto|].
    pose proof (Write_HeaderMap [] z0 s) as HW.
    destruct (compress_gzip.Write [] (z0, s)) as [z1 s1]. eauto. }
  destruct (compress_gzip.err z1); [done|].
  pose proof (HeaderMap_emit (compress_gzip.flate_Close (compress_gzip.compressor z1)) s1)
    as HH.
  destruct (compress_gzip.emit _ s1) as [s2 [e|]]; cbn in *.
  - congruence.
  - rewrite HttpFacts.HeaderMap_sinkWrite. congruence.
Qed.

Lemma Close_takesBody z s :
  http.takesBody (compress_gzip.Close (z, s)).2 = http.takesBody s.
Proof.
  unfold compress_gzip.Close.
  destruct (compress_gzip.err z); [done|].
  destruct (compress_gzip.closed z); [done|].
  cbn [compress_gzip.wroteHeader].
  set (z0 := compress_gzip.mkWriter _ _ _ _ _ _ _).
  assert (exists z1 s1,
    (if compress_gzip.wroteHeader z then (z0, s)
     else compress_gzip.Write [] (z0, s)) = (z1, s1) /\
    http.takesBody s1 = http.takesBody s) as (z1 & s1 & -> & H1).
  { destruct (compress_gzip.wroteHeader z); [by eauto|].
    pose proof (Write_takesBody [] z0 s) as HW.
    destruct (compress_gzip.Write [] (z0, s)) as [z1 s1]. eauto. }
  destruct (compress_gzip.err z1); [done|].
  pose proof (takesBody_emit (compress_gzip.flate_Close (compress_gzip.compressor z1)) s1)
    as HH.
  destruct (compress_gzip.emit _ s1) as [s2 [e|]]; cbn in *.
  - congruence.
  - rewrite HttpFacts.takesBody_sinkWrite. congruence.
Qed.

Lemma Close_committed z s :
  http.committed s <> None ->
  http.committed (compress_gzip.Close (z, s)).2 = http.committed s.
Proof.
  intros Hc. unfold compress_gzip.Close.
  destruct (compress_gzip.err z); [done|].
  destruct (compress_gzip.closed z); [done|].
  cbn [compress_gzip.wroteHeader].
  set (z0 := compress_gzip.mkWriter _ _ _ _ _ _ _).
  assert (exists z1 s1,
    (if compress_gzip.wroteHeader z then (z0, s)
     else compress_gzip.Write [] (z0, s)) = (z1, s1) /\
    http.committed s1 = http.committed s) as (z1 & s1 & -> & H1).
  { destruct (compress_gzip.wroteHeader z); [by eauto|].
    pose proof (Write_committed [] z0 s Hc) as HW.
    destruct (compress_gzip.Write [] (z0, s)) as [z1 s1]. eauto. }
  destruct (compress_gzip.err z1); [done|].
  assert (http.committed s1 <> None) as Hc1 by congruence.
  pose proof (committed_emit
                (compress_gzip.flate_Close (compress_gzip.compressor z1)) s1 Hc1)
    as HH.
  destruct (compress_gzip.emit _ s1) as [s2 [e|]]; cbn in *.
  - congruence.
  - rewrite HttpFacts.committed_sinkWrite, HH, H1.
    by destruct (http.committed s).
Qed.

(** The first write of a fresh writer sends the status line, if nothing
    has: the gzip header is written to the sink at once. *)
Lemma Write_commits p z s :
  compress_gzip.wroteHeader z = false ->
  compress_gzip.err z = None ->
  http.committed s = None ->
  http.committed (compress_gzip.Write p (z, s)).2
  = Some (http.StatusOK, http.HeaderMap s).
Proof.
  intros Hw He E. unfold compress_gzip.Write. rewrite He, Hw.
  cbn [compress_gzip.err compress_gzip.compressor].
  set (s1 := http.sinkWrite (compress_gzip.gzip_header (compress_gzip.level z)) s).
  assert (http.committed s1 = Some (http.StatusOK, http.HeaderMap s)) as E1
    by (subst s1; by rewrite HttpFacts.committed_sinkWrite, E).
  destruct (http.sinkWriteResult _ _).2; [done|].
  destruct (compress_gzip.flate_Write _ _) as [c o].
  pose proof (committed_emit o s1) as HH.
  destruct (compress_gzip.emit o s1). cbn in *. rewrite HH; [done|]. by rewrite E1.
Qed.

(** Closing a writer whose sink accepts a body completes the stream: the
    sink holds one whole gzip stream of chunks whose concatenation is the
    data written, and what the close has added ends with the compressor's
    last output and the trailer. *)
Lemma Encoding_Close lvl z s body0 acc z' s' :
  Inv.Encoding lvl z s body0 acc ->
  compress_gzip.closed z = false ->
  http.takesBody s = true ->
  compress_gzip.Close (z, s) = (z', s') ->
  exists chunks c out front,
    concat chunks = acc /\
    compress_gzip.flate_writes (compress_gzip.flate_NewWriter lvl) chunks
      = (c, out) /\
    http.Body s' = body0 ++ compress_gzip.gzip_stream lvl chunks /\
    http.Body s'
      = http.Body s ++ front
        ++ compress_gzip.flate_Close c ++ compress_gzip.gzip_trailer acc /\
    compress_gzip.closed z' = true /\
    compress_gzip.err z' = None /\
    http.HeaderMap s' = http.HeaderMap s.
Proof.
  intros Henc Hcl Ht HC. unfold Inv.Encoding in Henc.
  destruct (compress_gzip.wroteHeader z) eqn:Ewh;
    unfold compress_gzip.Close in HC.
  - (* the header is out: the rest of the deflate output and the trailer *)
    rewrite Ht in Henc.
    destruct Henc as (_ & chunks & Hcat & _ & He & Hlv & Hdg & Hst).
    rewrite Ewh in Hst. destruct Hst as (out & Hout & Hbody).
    rewrite He, Hcl in HC. cbn in HC. rewrite Ewh in HC. cbn in HC.
    set (fc := compress_gzip.flate_Close (compress_gzip.compressor z)) in *.
    pose proof (Body_emit fc s) as HB. pose proof (HeaderMap_emit fc s) as HH.
    pose proof (takesBody_emit fc s) as HT.
    pose proof (emit_accepted fc s Ht) as HE.
    destruct (compress_gzip.emit fc s) as [s2 e]. cbn in HB, HH, HT, HE.
    subst e. rewrite HttpFacts.sinkWriteResult_eq, HT, Ht in HC.
    injection HC as <- <-.
    exists chunks, (compress_gzip.compressor z), out, [].
    rewrite HttpFacts.Body_sinkWrite, HttpFacts.HeaderMap_sinkWrite, HB, HH.
    unfold compress_gzip.gzip_stream. rewrite Hout, Hdg, Hcat, Hbody.
    split_and!; try done.
    + by rewrite <- !app_assoc.
    + by rewrite <- !app_assoc.
  - (* nothing was written: the header first, then a whole empty stream *)
    destruct Henc as (-> & _ & He & Hlv & Hdg & Hst).
    rewrite Ewh in Hst. destruct Hst as (_ & Hc & Hbody).
    rewrite He, Hcl in HC. cbn in HC. rewrite Ewh in HC.
    unfold compress_gzip.Write in HC. cbn in HC.
    rewrite HttpFacts.sinkWriteResult_eq, Ht in HC. cbn [snd] in HC.
    set (s1 := http.sinkWrite (compress_gzip.gzip_header (compress_gzip.level z)) s)
      in HC.
    assert (http.takesBody s1 = true) as Ht1
      by (subst s1; by rewrite HttpFacts.takesBody_sinkWrite).
    destruct (compress_gzip.flate_Write (compress_gzip.compressor z) [])
      as [c o] eqn:Ew.
    pose proof (Body_emit o s1) as HB. pose proof (HeaderMap_emit o s1) as HH.
    pose proof (takesBody_emit o s1) as HT.
    pose proof (emit_accepted o s1 Ht1) as HE.
    destruct (compress_gzip.emit o s1) as [s2 e]. cbn in HB, HH, HT, HE.
    subst e. cbn in HC.
    set (fc := compress_gzip.flate_Close c) in *.
    assert (http.takesBody s2 = true) as Ht2 by congruence.
    pose proof (Body_emit fc s2) as HB'. pose proof (HeaderMap_emit fc s2) as HH'.
    pose proof (takesBody_emit fc s2) as HT'.
    pose proof (emit_accepted fc s2 Ht2) as HE'.
    destruct (compress_gzip.emit fc s2) as [s3 e]. cbn in HB', HH', HT', HE'.
    subst e. rewrite HttpFacts.sinkWriteResult_eq, HT', Ht2 in HC.
    injection HC as <- <-.
    exists [[]], c, o, (compress_gzip.gzip_header lvl ++ o).
    rewrite HttpFacts.Body_sinkWrite, HttpFacts.HeaderMap_sinkWrite, HB', HH', HB, HH.
    subst s1. rewrite HttpFacts.Body_sinkWrite, HttpFacts.HeaderMap_sinkWrite.
    unfold compress_gzip.gzip_stream. cbn [compress_gzip.flate_writes].
    rewrite <- Hc, Ew, Hdg, Hbody, Hlv. cbn. rewrite !app_nil_r.
    split_and!; try done.
    + by rewrite <- !app_assoc.
    + by rewrite <- !app_assoc.
Qed.

(** Closing a writer whose sink accepts no body: the header is all the
    sink holds of the stream, with no trailer; the writer keeps the error,
    and is marked closed only when the close itself was refused. *)
Lemma Encoding_Close_refused lvl z s body0 acc z' s' :
  Inv.Encoding lvl z s body0 acc ->
  compress_gzip.closed z = false ->
  http.takesBody s = false ->
  compress_gzip.Close (z, s) = (z', s') ->
  http.Body s' = body0 ++ compress_gzip.gzip_header lvl /\
  compress_gzip.err z' <> None /\
  compress_gzip.closed z' = negb (compress_gzip.wroteHeader z) /\
  http.HeaderMap s' = http.HeaderMap s.
Proof.
  intros Henc Hcl Ht HC. unfold Inv.Encoding in Henc.
  destruct (compress_gzip.wroteHeader z) eqn:Ewh.
  - rewrite Ht in Henc. destruct Henc as (_ & _ & _ & He & Hbody).
    rewrite Close_failed in HC by done. injection HC as <- <-.
    by rewrite Hcl.
  - destruct Henc as (_ & _ & He & Hlv & _ & Hst).
    rewrite Ewh in Hst. destruct Hst as (_ & _ & Hbody).
    unfold compress_gzip.Close in HC. rewrite He, Hcl in HC. cbn in HC.
    rewrite Ewh in HC. unfold compress_gzip.Write in HC. cbn in HC.
    rewrite HttpFacts.sinkWriteResult_eq, Ht in HC.
    cbn in HC. injection HC as <- <-. cbn.
    by rewrite HttpFacts.Body_sinkWrite, HttpFacts.HeaderMap_sinkWrite, Hbody, Hlv.
Qed.

(** A writer that failed is never marked closed by a later close. *)
Lemma Close_closed z s :
  compress_gzip.closed (compress_gzip.Close (z, s)).1
  = match compress_gzip.err z with
    | Some _ => compress_gzip.closed z
    | None => true
    end.
Proof.
  unfold compress_gzip.Close. destruct (compress_gzip.err z) eqn:He; [done|].
  destruct (compress_gzip.closed z) eqn:E; [done|].
  cbn [compress_gzip.wroteHeader].
  set (z0 := compress_gzip.mkWriter _ _ _ _ _ _ _).
  assert (exists z1 s1,
    (if compress_gzip.wroteHeader z then (z0, s)
     else compress_gzip.Write [] (z0, s)) = (z1, s1) /\
    compress_gzip.closed z1 = true) as (z1 & s1 & -> & H1).
  { destruct (compress_gzip.wroteHeader z); [by eauto|].
    pose proof (Write_closed [] z0 s) as HW.
    destruct (compress_gzip.Write [] (z0, s)) as [z1 s1]. eauto. }
  destruct (compress_gzip.err z1); [done|].
  by destruct (compress_gzip.emit _ s1) as [s2 [e|]].
Qed.

End WithCodec.
End GzipFacts.

Module MachineFacts.
Section Generic.
Context {W S : Type} `{RW : http.ResponseWriter W}.
Variables (st : W -> S) (u : S) (trigger : http.Call -> bool).

(** When every call of the interface is such a step, every run follows the
    machine. *)
Lemma run_Machine :
  (forall w b, Inv.Step st u trigger (http.CWrite b) w (http.rwWrite b w)) ->
  (forall w code, Inv.Step st u trigger (http.CWriteHeader code) w (http.rwWriteHeader code w)) ->
  (forall w o, Inv.Step st u trigger (http.CHeader o) w (http.rwHeaderUpd (http.applyHeaderOp o) w)) ->
  forall p w, Inv.Machine st u trigger (st w) (http.run p w).
Proof.
  intros HW HH HU p.
  induction p as [|b k IH|code k IH|o k IH|k IH]; intros w;
    cbn [http.run Inv.Machine]; try done; cbv zeta; cbn [Inv.Machine].
  - destruct (HW w b) as [H1 H2]. auto.
  - destruct (HH w code) as [H1 H2]. auto.
  - destruct (HU w o) as [H1 H2]. auto.
Qed.

(** Once decided, the status stays what it is. *)
Lemma Machine_decided cur tr :
  cur <> u -> Inv.Machine st u trigger cur tr ->
  Forall (fun x => st x.2 = cur) tr.
Proof.
  intros Hd. induction tr as [|[c w] tr IH]; cbn; [constructor|].
  intros (_ & H2 & H3). specialize (H2 Hd). rewrite H2 in H3.
  constructor; auto.
Qed.

(** The status is undecided exactly as long as no trigger was called. *)
Lemma Machine_undecided tr pre c w post :
  Inv.Machine st u trigger u tr ->
  tr = pre ++ (c, w) :: post ->
  (st w = u <-> Forall (fun c' => trigger c' = false) (pre.*1 ++ [c])).
Proof.
  revert tr. induction pre as [|[c1 w1] pre IH]; intros tr HM ->; cbn in HM.
  - destruct HM as (H1 & _ & _). specialize (H1 eq_refl). cbn.
    rewrite Forall_singleton. destruct (trigger c); split; auto; done.
  - destruct HM as (H1 & _ & H3). specialize (H1 eq_refl).
    cbn [fmap list_fmap app fst]. rewrite Forall_cons.
    destruct (trigger c1) eqn:Et.
    + apply Machine_decided in H3; [|done].
      rewrite Forall_app, Forall_cons in H3. destruct H3 as (_ & H3 & _).
      cbn in H3. split; [congruence|]. intros [? _]. done.
    + rewrite H1 in H3. rewrite (IH _ H3 eq_refl). tauto.
Qed.

(** And after any call that finds it decided, it is what it was. *)
Lemma Machine_later tr pre c w post :
  Inv.Machine st u trigger u tr ->
  tr = pre ++ (c, w) :: post ->
  st w <> u ->
  Forall (fun x => st x.2 = st w) post.
Proof.
  revert tr. induction pre as [|[c1 w1] pre IH]; intros tr HM -> Hd; cbn in HM.
  - destruct HM as (_ & _ & H3). by apply Machine_decided.
  - destruct HM as (H1 & _ & H3). specialize (H1 eq_refl).
    destruct (trigger c1) eqn:Et.
    + apply Machine_decided in H3; [|done].
      rewrite Forall_app, Forall_cons in H3. destruct H3 as (_ & H3 & H4).
      cbn in H3. rewrite H3. done.
    + rewrite H1 in H3. by apply (IH _ H3 eq_refl).
Qed.

End Generic.
End MachineFacts.

Module LogFacts.

Lemma occurrences_app e l1 l2 :
  occurrences e (l1 ++ l2) = (occurrences e l1 + occurrences e l2)%nat.
Proof. induction l1 as [|x l1 IH]; cbn; [done|]. rewrite IH. lia. Qed.

Lemma occurrences_snoc_same e l :
  occurrences e (l ++ [e]) = S (occurrences e l).
Proof.
  rewrite occurrences_app. cbn. rewrite bool_decide_eq_true_2 by done. lia.
Qed.

Lemma occurrences_snoc_other e x l :
  x <> e -> occurrences e (l ++ [x]) = occurrences e l.
Proof.
  intros Hne. rewrite occurrences_app. cbn.
  rewrite bool_decide_eq_false_2 by done. lia.
Qed.

End LogFacts.

(** Counting the events at the end of a log. *)
Ltac count_log :=
  repeat first
    [ rewrite LogFacts.occurrences_snoc_same
    | rewrite LogFacts.occurrences_snoc_other by discriminate ].

(** Deciding the comparisons of events that counting leaves behind. *)
Ltac decide_events :=
  repeat match goal with
  | |- context [bool_decide ?P] =>
      first [ rewrite (bool_decide_eq_true_2 P) by reflexivity
            | rewrite (bool_decide_eq_false_2 P) by discriminate ]
  end.

Module P1Facts.
Section WithPlatform.
Context `{SN : http.ContentSniffer} `{CD : compress_gzip.Codec}.

Abbreviation grw := Part001.gzipResponseWriter.

Lemma p1_status_eqb_eq a b : Part001.status_eqb a b = true <-> a = b.
Proof. destruct a, b; cbn; split; congruence. Qed.

(** *** The status moves as the decision machine says *)

Lemma p1_WriteHeader_status_decided code (g : grw) :
  Part001.grw_status g <> Part001.COMPRESSION_CHECK ->
  Part001.grw_status (Part001.WriteHeader code g) = Part001.grw_status g.
Proof.
  intros Hd. unfold Part001.WriteHeader.
  destruct (Part001.grw_status g) eqn:E; done.
Qed.

Lemma p1_WriteHeader_status_check code (g : grw) :
  Part001.grw_status g = Part001.COMPRESSION_CHECK ->
  Part001.grw_status (Part001.WriteHeader code g) =
    if (Part001.allowed g).1 then Part001.COMPRESSION_ENABLED
    else Part001.COMPRESSION_DISABLED.
Proof.
  intros E. unfold Part001.WriteHeader. rewrite E. cbn.
  destruct (Part001.allowed g) as [[] g1]; done.
Qed.

Lemma p1_Write_check b (g : grw) :
  Part001.grw_status g = Part001.COMPRESSION_CHECK ->
  Part001.Write b g = P1View.forward b (Part001.WriteHeader http.StatusOK (P1View.sniffed b g)).
Proof. intros E. unfold Part001.Write. by rewrite E. Qed.

Lemma p1_Write_decided b (g : grw) :
  Part001.grw_status g <> Part001.COMPRESSION_CHECK ->
  Part001.Write b g = P1View.forward b g.
Proof.
  intros Hd. unfold Part001.Write.
  by destruct (Part001.grw_status g) eqn:E.
Qed.

Lemma p1_forward_status b (g : grw) :
  Part001.grw_status (P1View.forward b g) = Part001.grw_status g.
Proof.
  unfold P1View.forward, Part001.codecWrite.
  destruct (Part001.status_eqb _ _); [|done].
  by destruct (compress_gzip.Write _ _).
Qed.

Lemma p1_sniffed_status b (g : grw) :
  Part001.grw_status (P1View.sniffed b g) = Part001.grw_status g.
Proof. unfold P1View.sniffed. by destruct (_ =? _)%nat. Qed.

Lemma p1_Write_status_decided b (g : grw) :
  Part001.grw_status g <> Part001.COMPRESSION_CHECK ->
  Part001.grw_status (Part001.Write b g) = Part001.grw_status g.
Proof. intros Hd. by rewrite p1_Write_decided, p1_forward_status. Qed.

Lemma p1_Write_status_check b (g : grw) :
  Part001.grw_status g = Part001.COMPRESSION_CHECK ->
  Part001.grw_status (Part001.Write b g) <> Part001.COMPRESSION_CHECK.
Proof.
  intros E. rewrite p1_Write_check, p1_forward_status by done.
  rewrite p1_WriteHeader_status_check by (by rewrite p1_sniffed_status).
  by destruct (Part001.allowed _).1.
Qed.

Lemma p1_HeaderUpd_status f (g : grw) :
  Part001.grw_status (Part001.HeaderUpd f g) = Part001.grw_status g.
Proof. done. Qed.

(** Every run of a handler against the writer follows the machine whose
    triggers are [Write] and [WriteHeader]. *)
Lemma p1_run_Machine p (g : grw) :
  Inv.Machine Part001.grw_status Part001.COMPRESSION_CHECK
    http.isWriteOrWriteHeader (Part001.grw_status g) (http.run p g).
Proof.
  apply MachineFacts.run_Machine.
  - intros w b. split.
    + apply p1_Write_status_check.
    + apply p1_Write_status_decided.
  - intros w code. split.
    + intros E. cbn [http.isWriteOrWriteHeader].
      change (http.rwWriteHeader code w) with (Part001.WriteHeader code w).
      rewrite p1_WriteHeader_status_check by done.
      by destruct (Part001.allowed w).1.
    + apply p1_WriteHeader_status_decided.
  - intros w o. by split.
Qed.

(** *** The log invariant *)

Lemma p1_LogOK_HeaderUpd f (g : grw) :
  Inv.P1_LogOK g -> Inv.P1_LogOK (Part001.HeaderUpd f g).
Proof. done. Qed.

Lemma p1_LogOK_WriteHeader code (g : grw) :
  Inv.P1_LogOK g -> Inv.P1_LogOK (Part001.WriteHeader code g).
Proof.
  unfold Inv.P1_LogOK, Part001.WriteHeader, Part001.allowed.
  intros (H1 & H2 & H3 & H4 & H5 & H6).
  destruct (Part001.grw_status g) eqn:E; cbn in *; rewrite ?E; cbn; try done.
  destruct (Part001.grw_allowCompression g) as [fn|] eqn:Ea; cbn.
  - destruct (fn _ _); cbn; rewrite ?Ea; cbn; count_log; rewrite ?H1, ?H2, ?H3, ?H4, ?H5; done.
  - rewrite ?Ea; cbn; count_log; rewrite ?H1, ?H2, ?H3, ?H4, ?H5; done.
Qed.

Lemma p1_sniffed_log_counts b (g : grw) e :
  (forall v, HeaderChanged (http.HSet Part001.headerContentType v) <> e) ->
  occurrences e (Part001.grw_log (P1View.sniffed b g)) = occurrences e (Part001.grw_log g).
Proof.
  intros He. unfold P1View.sniffed. destruct (_ =? _)%nat; [|done]. cbn.
  by rewrite LogFacts.occurrences_snoc_other.
Qed.

Lemma p1_LogOK_sniffed b (g : grw) : Inv.P1_LogOK g -> Inv.P1_LogOK (P1View.sniffed b g).
Proof.
  unfold Inv.P1_LogOK. rewrite !p1_sniffed_log_counts by done.
  rewrite p1_sniffed_status. unfold P1View.sniffed. by destruct (_ =? _)%nat.
Qed.

Lemma p1_forward_log b (g : grw) :
  Part001.grw_log (P1View.forward b g) = Part001.grw_log g.
Proof.
  unfold P1View.forward, Part001.codecWrite.
  destruct (Part001.status_eqb _ _); [|done].
  by destruct (compress_gzip.Write _ _).
Qed.

Lemma p1_forward_allow b (g : grw) :
  Part001.grw_allowCompression (P1View.forward b g) = Part001.grw_allowCompression g.
Proof.
  unfold P1View.forward, Part001.codecWrite.
  destruct (Part001.status_eqb _ _); [|done].
  by destruct (compress_gzip.Write _ _).
Qed.

Lemma p1_forward_closed b (g : grw) :
  compress_gzip.closed (Part001.grw_w (P1View.forward b g))
  = compress_gzip.closed (Part001.grw_w g).
Proof.
  unfold P1View.forward, Part001.codecWrite.
  destruct (Part001.status_eqb _ _); [|done].
  pose proof (GzipFacts.Write_closed b (Part001.grw_w g) (Part001.sink g)) as H.
  by destruct (compress_gzip.Write _ _).
Qed.

Lemma p1_forward_Header b (g : grw) :
  Part001.Header (P1View.forward b g) = Part001.Header g.
Proof.
  unfold P1View.forward, Part001.codecWrite.
  destruct (Part001.status_eqb _ _).
  - pose proof (GzipFacts.Write_HeaderMap b (Part001.grw_w g) (Part001.sink g)) as H.
    by destruct (compress_gzip.Write _ _).
  - apply HttpFacts.negroni_Write_Header.
Qed.

Lemma p1_LogOK_forward b (g : grw) : Inv.P1_LogOK g -> Inv.P1_LogOK (P1View.forward b g).
Proof.
  unfold Inv.P1_LogOK.
  by rewrite p1_forward_log, p1_forward_status, p1_forward_allow, p1_forward_closed.
Qed.

Lemma p1_LogOK_Write b (g : grw) : Inv.P1_LogOK g -> Inv.P1_LogOK (Part001.Write b g).
Proof.
  intros H. destruct (Part001.grw_status g) eqn:E.
  - rewrite p1_Write_check by done.
    by apply p1_LogOK_forward, p1_LogOK_WriteHeader, p1_LogOK_sniffed.
  - rewrite p1_Write_decided by congruence. by apply p1_LogOK_forward.
  - rewrite p1_Write_decided by congruence. by apply p1_LogOK_forward.
Qed.

(** The log invariant holds for the fresh writer and so at the end of
    every run. *)
Lemma p1_LogOK_new h gz w r :
  compress_gzip.closed gz = false -> Inv.P1_LogOK (Part001.newGrw h gz w r).
Proof. intros Hc. by repeat split. Qed.

Lemma p1_LogOK_exec p (g : grw) : Inv.P1_LogOK g -> Inv.P1_LogOK (http.exec p g).
Proof.
  apply HttpFacts.exec_preserves.
  - intros w b. apply p1_LogOK_Write.
  - intros w code. apply p1_LogOK_WriteHeader.
  - intros w f. apply p1_LogOK_HeaderUpd.
Qed.

(** *** The body invariant *)

Lemma p1_WriteHeader_w code (g : grw) :
  Part001.grw_w (Part001.WriteHeader code g) = Part001.grw_w g.
Proof.
  unfold Part001.WriteHeader, Part001.allowed.
  destruct (Part001.status_eqb _ _); [|done].
  destruct (Part001.grw_allowCompression g) as [fn|]; [|done].
  by destruct (fn _ _).
Qed.

Lemma p1_WriteHeader_Body code (g : grw) :
  http.Body (Part001.sink (Part001.WriteHeader code g)) = http.Body (Part001.sink g).
Proof.
  unfold Part001.WriteHeader, Part001.allowed, Part001.sink.
  destruct (Part001.status_eqb _ _); cbn;
    [|by rewrite HttpFacts.negroni_WriteHeader_Body].
  destruct (Part001.grw_allowCompression g) as [fn|]; [destruct (fn _ _)|];
    cbn; by rewrite HttpFacts.negroni_WriteHeader_Body.
Qed.

Lemma p1_BodyOK_HeaderUpd lvl body0 f (g : grw) acc :
  Inv.P1_BodyOK lvl body0 g acc -> Inv.P1_BodyOK lvl body0 (Part001.HeaderUpd f g) acc.
Proof. done. Qed.

Lemma p1_BodyOK_sniffed lvl body0 b (g : grw) acc :
  Inv.P1_BodyOK lvl body0 g acc -> Inv.P1_BodyOK lvl body0 (P1View.sniffed b g) acc.
Proof. unfold P1View.sniffed. by destruct (_ =? _)%nat. Qed.

(** Once decided, [WriteHeader] is the wrapped writer's. *)
Lemma p1_WriteHeader_sink_decided code (g : grw) :
  Part001.grw_status g <> Part001.COMPRESSION_CHECK ->
  Part001.sink (Part001.WriteHeader code g)
  = http.sinkWriteHeader code (Part001.sink g).
Proof.
  intros Hd. unfold Part001.WriteHeader.
  by destruct (Part001.grw_status g) eqn:E.
Qed.

Lemma p1_BodyOK_WriteHeader lvl body0 code (g : grw) acc :
  Inv.P1_BodyOK lvl body0 g acc ->
  Inv.P1_BodyOK lvl body0 (Part001.WriteHeader code g) acc.
Proof.
  unfold Inv.P1_BodyOK.
  destruct (Part001.grw_status g) eqn:E.
  - rewrite p1_WriteHeader_status_check by done.
    rewrite ?p1_WriteHeader_w, ?p1_WriteHeader_Body.
    intros (-> & Hwh & Hst). destruct (Part001.allowed g).1.
    + unfold Inv.Encoding.
      rewrite ?p1_WriteHeader_w, ?p1_WriteHeader_Body, Hwh. by split.
    + rewrite ?p1_WriteHeader_Body.
      destruct Hst as (_ & _ & _ & _ & Hst). rewrite Hwh in Hst.
      destruct Hst as (_ & _ & ->). by rewrite app_nil_r.
  - rewrite p1_WriteHeader_status_decided by congruence.
    by rewrite E, p1_WriteHeader_Body.
  - rewrite p1_WriteHeader_status_decided by congruence.
    rewrite E, p1_WriteHeader_w, p1_WriteHeader_sink_decided by congruence.
    apply GzipFacts.Encoding_sinkWriteHeader.
Qed.

Lemma p1_BodyOK_forward lvl body0 b (g : grw) acc :
  Part001.grw_status g <> Part001.COMPRESSION_CHECK ->
  Inv.P1_BodyOK lvl body0 g acc ->
  Inv.P1_BodyOK lvl body0 (P1View.forward b g) (acc ++ b).
Proof.
  intros Hd. unfold Inv.P1_BodyOK. rewrite p1_forward_status.
  unfold P1View.forward. destruct (Part001.grw_status g) eqn:E; [done| |]; cbn.
  - intros H. unfold Part001.sink in *. cbn.
    by rewrite HttpFacts.negroni_Write_Body, H, app_assoc.
  - intros Henc. unfold Part001.codecWrite.
    destruct (compress_gzip.Write b _) as [z' s'] eqn:EW.
    by destruct (GzipFacts.Encoding_Write _ _ _ _ _ _ _ _ Henc EW) as [H1 _].
Qed.

Lemma p1_BodyOK_Write lvl body0 b (g : grw) acc :
  Inv.P1_BodyOK lvl body0 g acc ->
  Inv.P1_BodyOK lvl body0 (Part001.Write b g) (acc ++ b).
Proof.
  intros H. destruct (Part001.grw_status g) eqn:E.
  - rewrite p1_Write_check by done. apply p1_BodyOK_forward.
    + rewrite p1_WriteHeader_status_check by (by rewrite p1_sniffed_status).
      by destruct (Part001.allowed _).1.
    + by apply p1_BodyOK_WriteHeader, p1_BodyOK_sniffed.
  - rewrite p1_Write_decided by congruence. apply p1_BodyOK_forward; congruence.
  - rewrite p1_Write_decided by congruence. apply p1_BodyOK_forward; congruence.
Qed.

Lemma p1_BodyOK_new h lvl gz w r :
  compress_gzip.NewWriterLevel lvl = inl gz ->
  Inv.P1_BodyOK lvl (http.Body w) (Part001.newGrw h gz w r) [].
Proof.
  intros Hn. destruct (GzipFacts.Streaming_new lvl gz (http.Body w) Hn) as [_ Hst].
  split; [done|]. split; [|done].
  unfold compress_gzip.NewWriterLevel in Hn. destruct (_ || _); [done|].
  by injection Hn as <-.
Qed.

Lemma p1_BodyOK_exec lvl body0 p (g : grw) acc :
  Inv.P1_BodyOK lvl body0 g acc ->
  Inv.P1_BodyOK lvl body0 (http.exec p g) (acc ++ http.written p g).
Proof.
  apply (HttpFacts.exec_invariant (Inv.P1_BodyOK lvl body0)).
  - intros w a b. apply p1_BodyOK_Write.
  - intros w a code. apply p1_BodyOK_WriteHeader.
  - intros w a f. apply p1_BodyOK_HeaderUpd.
Qed.

(** *** The transition *)

Lemma p1_WriteHeader_Header_check code (g : grw) :
  Part001.grw_status g = Part001.COMPRESSION_CHECK ->
  Part001.Header (Part001.WriteHeader code g) =
    if (Part001.allowed g).1 then P1View.gzipHeaders (Part001.Header g)
    else Part001.Header g.
Proof.
  intros E. unfold Part001.WriteHeader, Part001.allowed, Part001.Header.
  rewrite E. cbn [Part001.status_eqb].
  destruct (Part001.grw_allowCompression g) as [fn|]; [destruct (fn _ _)|];
    cbn; by rewrite HttpFacts.negroni_WriteHeader_Header.
Qed.

Lemma p1_WriteHeader_Header_decided code (g : grw) :
  Part001.grw_status g <> Part001.COMPRESSION_CHECK ->
  Part001.Header (Part001.WriteHeader code g) = Part001.Header g.
Proof.
  intros Hd. unfold Part001.WriteHeader, Part001.Header.
  destruct (Part001.grw_status g) eqn:E; [done| |]; cbn;
    by rewrite HttpFacts.negroni_WriteHeader_Header.
Qed.

Lemma p1_WriteHeader_log_check code (g : grw) :
  Part001.grw_status g = Part001.COMPRESSION_CHECK ->
  Part001.grw_log (Part001.WriteHeader code g) =
    Part001.grw_log g
    ++ (if Inv.isSome (Part001.grw_allowCompression g) then [PredicateCalled] else [])
    ++ (if (Part001.allowed g).1 then P1View.gzipEvents else []).
Proof.
  intros E. unfold Part001.WriteHeader, Part001.allowed.
  rewrite E. cbn [Part001.status_eqb].
  destruct (Part001.grw_allowCompression g) as [fn|]; [destruct (fn _ _)|]; cbn;
    rewrite <- ?app_assoc; cbn; by rewrite ?app_nil_r.
Qed.

Lemma p1_WriteHeader_log_decided code (g : grw) :
  Part001.grw_status g <> Part001.COMPRESSION_CHECK ->
  Part001.grw_log (Part001.WriteHeader code g) = Part001.grw_log g.
Proof.
  intros Hd. unfold Part001.WriteHeader.
  by destruct (Part001.grw_status g) eqn:E.
Qed.

(** The sink is committed by [WriteHeader], with the headers as the
    transition left them. *)
Lemma p1_WriteHeader_committed code (g : grw) :
  http.committed (Part001.sink g) = None ->
  http.committed (Part001.sink (Part001.WriteHeader code g))
  = Some (code, Part001.Header (Part001.WriteHeader code g)).
Proof.
  intros Hc. unfold Part001.WriteHeader, Part001.allowed, Part001.Header,
    Part001.sink, negroni.Header in *.
  destruct (Part001.status_eqb _ _);
    [destruct (Part001.grw_allowCompression g) as [fn|]; [destruct (fn _ _)|]|];
    cbn; unfold negroni.WriteHeader; cbn;
    rewrite HttpFacts.committed_sinkWriteHeader, HttpFacts.HeaderMap_sinkWriteHeader;
    rewrite ?HttpFacts.committed_sinkHeaderUpd; by rewrite Hc.
Qed.

Lemma p1_WriteHeader_status_not_check code (g : grw) :
  Part001.grw_status (Part001.WriteHeader code g) <> Part001.COMPRESSION_CHECK.
Proof.
  destruct (Part001.grw_status g) eqn:E.
  - rewrite p1_WriteHeader_status_check by done. by destruct (Part001.allowed g).1.
  - rewrite p1_WriteHeader_status_decided; congruence.
  - rewrite p1_WriteHeader_status_decided; congruence.
Qed.

Lemma p1_Write_status_not_check b (g : grw) :
  Part001.grw_status (Part001.Write b g) <> Part001.COMPRESSION_CHECK.
Proof.
  destruct (Part001.grw_status g) eqn:E.
  - by apply p1_Write_status_check.
  - rewrite p1_Write_status_decided; congruence.
  - rewrite p1_Write_status_decided; congruence.
Qed.

(** Once decided, neither call touches the status, the headers or the log. *)
Lemma p1_Write_inert b (g : grw) :
  Part001.grw_status g <> Part001.COMPRESSION_CHECK ->
  Part001.grw_status (Part001.Write b g) = Part001.grw_status g /\
  Part001.Header (Part001.Write b g) = Part001.Header g /\
  Part001.grw_log (Part001.Write b g) = Part001.grw_log g.
Proof.
  intros Hd. rewrite p1_Write_decided by done.
  by rewrite p1_forward_status, p1_forward_Header, p1_forward_log.
Qed.

Lemma p1_WriteHeader_inert code (g : grw) :
  Part001.grw_status g <> Part001.COMPRESSION_CHECK ->
  Part001.grw_status (Part001.WriteHeader code g) = Part001.grw_status g /\
  Part001.Header (Part001.WriteHeader code g) = Part001.Header g /\
  Part001.grw_log (Part001.WriteHeader code g) = Part001.grw_log g.
Proof.
  intros Hd.
  by rewrite p1_WriteHeader_status_decided, p1_WriteHeader_Header_decided,
    p1_WriteHeader_log_decided.
Qed.

(** What the predicate answers once the middleware has changed a header. *)
Lemma p1_allowed_headers o (g : grw) :
  (Part001.allowed (Part001.headers o g)).1 =
  match Part001.grw_allowCompression g with
  | None => true
  | Some fn => fn (http.applyHeaderOp o (Part001.Header g)) (Part001.grw_r g)
  end.
Proof.
  unfold Part001.allowed. cbn.
  by destruct (Part001.grw_allowCompression g).
Qed.

Lemma p1_sniffed_empty b (g : grw) :
  http.Get (Part001.Header g) Part001.headerContentType = "" ->
  P1View.sniffed b g =
  Part001.headers
    (http.HSet Part001.headerContentType (http.DetectContentType b)) g.
Proof. intros E. unfold P1View.sniffed. by rewrite E. Qed.

(** The compression headers leave the Content-Type alone. *)
Lemma p1_gzipHeaders_ContentType h :
  http.Get (P1View.gzipHeaders h) Part001.headerContentType
  = http.Get h Part001.headerContentType.
Proof.
  unfold P1View.gzipHeaders.
  rewrite !HttpFacts.Get_Set_other by keys_differ.
  by rewrite HttpFacts.Get_Del_other by keys_differ.
Qed.

Lemma p1_gzipHeaders_Vary h :
  http.Values (P1View.gzipHeaders h) Part001.headerVary
  = [Part001.headerAcceptEncoding].
Proof. apply HttpFacts.Values_Set_same. Qed.

Lemma p1_gzipHeaders_ContentEncoding h :
  http.Get (P1View.gzipHeaders h) Part001.headerContentEncoding
  = Part001.encodingGzip.
Proof.
  unfold P1View.gzipHeaders.
  rewrite HttpFacts.Get_Set_other by keys_differ.
  apply HttpFacts.Get_Set_same.
Qed.

Lemma p1_sniffed_allow b (g : grw) :
  Part001.grw_allowCompression (P1View.sniffed b g)
  = Part001.grw_allowCompression g.
Proof. unfold P1View.sniffed. by destruct (_ =? _)%nat. Qed.

Lemma p1_allowed_none (g : grw) :
  Part001.grw_allowCompression g = None -> (Part001.allowed g).1 = true.
Proof. intros E. unfold Part001.allowed. by rewrite E. Qed.

(** A write that takes the state from undecided to enabled leaves the
    compression headers. *)
Lemma p1_Write_enables b (g : grw) :
  Part001.grw_status g = Part001.COMPRESSION_CHECK ->
  Part001.grw_status (Part001.Write b g) = Part001.COMPRESSION_ENABLED ->
  Part001.Header (Part001.Write b g)
  = P1View.gzipHeaders (Part001.Header (P1View.sniffed b g)).
Proof.
  intros E. rewrite p1_Write_check by done.
  rewrite p1_forward_status, p1_forward_Header.
  rewrite p1_WriteHeader_status_check, p1_WriteHeader_Header_check
    by (by rewrite p1_sniffed_status).
  by destruct (Part001.allowed _).1.
Qed.

(** *** Whether the sink accepts a body *)

Lemma p1_sniffed_takesBody b (g : grw) :
  http.takesBody (Part001.sink (P1View.sniffed b g)) = http.takesBody (Part001.sink g).
Proof. unfold P1View.sniffed. by destruct (_ =? _)%nat. Qed.

Lemma p1_forward_takesBody b (g : grw) :
  http.takesBody (Part001.sink (P1View.forward b g)) = http.takesBody (Part001.sink g).
Proof.
  unfold P1View.forward, Part001.codecWrite.
  destruct (Part001.status_eqb _ _).
  - pose proof (GzipFacts.Write_takesBody b (Part001.grw_w g) (Part001.sink g)) as H.
    by destruct (compress_gzip.Write _ _).
  - apply HttpFacts.negroni_Write_takesBody.
Qed.

Lemma p1_WriteHeader_takesBody code (g : grw) :
  http.takesBody (Part001.sink (Part001.WriteHeader code g))
  = match http.committed (Part001.sink g) with
    | Some _ => http.takesBody (Part001.sink g)
    | None => http.bodyAllowedForStatus code
    end.
Proof.
  unfold Part001.WriteHeader, Part001.allowed, Part001.sink.
  destruct (Part001.status_eqb _ _);
    [destruct (Part001.grw_allowCompression g) as [fn|]; [destruct (fn _ _)|]|];
    cbn; by rewrite HttpFacts.negroni_WriteHeader_takesBody.
Qed.

(** A write commits [200] at most, and so leaves the sink as willing as it
    was. *)
Lemma p1_Write_takesBody b (g : grw) :
  http.takesBody (Part001.sink (Part001.Write b g)) = http.takesBody (Part001.sink g).
Proof.
  destruct (Part001.grw_status g) eqn:E.
  - rewrite p1_Write_check by done.
    rewrite p1_forward_takesBody, p1_WriteHeader_takesBody.
    pose proof (p1_sniffed_takesBody b g) as Hs.
    assert (http.committed (Part001.sink (P1View.sniffed b g))
            = http.committed (Part001.sink g)) as Hc
      by (unfold P1View.sniffed; by destruct (_ =? _)%nat).
    rewrite Hc, Hs. unfold http.takesBody.
    by destruct (http.committed (Part001.sink g)).
  - rewrite p1_Write_decided by congruence. apply p1_forward_takesBody.
  - rewrite p1_Write_decided by congruence. apply p1_forward_takesBody.
Qed.

(** *** The deferred function *)

Lemma p1_deferred_status (g : grw) :
  Part001.grw_status (Part001.deferred g) = Part001.grw_status g.
Proof.
  unfold Part001.deferred, Part001.codecClose.
  destruct (Part001.status_eqb _ _); [|done].
  by destruct (compress_gzip.Close _).
Qed.

Lemma p1_deferred_log (g : grw) :
  Part001.grw_log (Part001.deferred g) =
    Part001.grw_log g ++
    (if Part001.status_eqb (Part001.grw_status g) Part001.COMPRESSION_ENABLED
     then [CodecClosed] else []).
Proof.
  unfold Part001.deferred, Part001.codecClose.
  destruct (Part001.status_eqb _ _); [|by rewrite app_nil_r].
  by destruct (compress_gzip.Close _).
Qed.

Lemma p1_deferred_Header (g : grw) :
  Part001.Header (Part001.deferred g) = Part001.Header g.
Proof.
  unfold Part001.deferred, Part001.codecClose.
  destruct (Part001.status_eqb _ _); [|done].
  pose proof (GzipFacts.Close_HeaderMap (Part001.grw_w g) (Part001.sink g)) as H.
  by destruct (compress_gzip.Close _).
Qed.

(** Unless compression was enabled, the deferred function does nothing. *)
Lemma p1_deferred_idle (g : grw) :
  Part001.grw_status g <> Part001.COMPRESSION_ENABLED -> Part001.deferred g = g.
Proof.
  intros Hne. unfold Part001.deferred.
  by destruct (Part001.grw_status g).
Qed.

(** When compression was enabled and the sink accepts a body, the deferred
    function leaves one whole gzip stream of the written data in the sink;
    what it adds ends with the compressor's last output and the trailer. *)
Lemma p1_deferred_stream lvl body0 (g : grw) acc :
  Inv.P1_BodyOK lvl body0 g acc ->
  compress_gzip.closed (Part001.grw_w g) = false ->
  Part001.grw_status g = Part001.COMPRESSION_ENABLED ->
  http.takesBody (Part001.sink g) = true ->
  exists chunks c out front,
    concat chunks = acc /\
    compress_gzip.flate_writes (compress_gzip.flate_NewWriter lvl) chunks
      = (c, out) /\
    http.Body (Part001.sink (Part001.deferred g))
      = body0 ++ compress_gzip.gzip_stream lvl chunks /\
    http.Body (Part001.sink (Part001.deferred g))
      = http.Body (Part001.sink g) ++ front
        ++ compress_gzip.flate_Close c ++ compress_gzip.gzip_trailer acc /\
    compress_gzip.closed (Part001.grw_w (Part001.deferred g)) = true /\
    compress_gzip.err (Part001.grw_w (Part001.deferred g)) = None.
Proof.
  unfold Inv.P1_BodyOK, Part001.deferred, Part001.codecClose.
  intros H Hcl E Ht. rewrite E in *. cbn [Part001.status_eqb].
  destruct (compress_gzip.Close _) as [z' s'] eqn:EC.
  destruct (GzipFacts.Encoding_Close _ _ _ _ _ _ _ H Hcl Ht EC)
    as (chunks & c & out & front & H1 & H2 & H3 & H4 & H5 & H6 & _).
  by exists chunks, c, out, front.
Qed.

Lemma p1_deferred_Body lvl body0 (g : grw) acc :
  Inv.P1_BodyOK lvl body0 g acc ->
  compress_gzip.closed (Part001.grw_w g) = false ->
  Part001.grw_status g = Part001.COMPRESSION_ENABLED ->
  http.takesBody (Part001.sink g) = true ->
  exists chunks,
    concat chunks = acc /\
    http.Body (Part001.sink (Part001.deferred g))
    = body0 ++ compress_gzip.gzip_stream lvl chunks.
Proof.
  intros H Hcl E Ht.
  destruct (p1_deferred_stream _ _ _ _ H Hcl E Ht)
    as (chunks & _ & _ & _ & H1 & _ & H3 & _).
  by exists chunks.
Qed.

(** When compression was enabled and the sink accepts no body, the header
    is all that reaches the sink. *)
Lemma p1_deferred_refused lvl body0 (g : grw) acc :
  Inv.P1_BodyOK lvl body0 g acc ->
  compress_gzip.closed (Part001.grw_w g) = false ->
  Part001.grw_status g = Part001.COMPRESSION_ENABLED ->
  http.takesBody (Part001.sink g) = false ->
  http.Body (Part001.sink (Part001.deferred g))
    = body0 ++ compress_gzip.gzip_header lvl /\
  compress_gzip.err (Part001.grw_w (Part001.deferred g)) <> None /\
  compress_gzip.closed (Part001.grw_w (Part001.deferred g))
    = negb (compress_gzip.wroteHeader (Part001.grw_w g)).
Proof.
  unfold Inv.P1_BodyOK, Part001.deferred, Part001.codecClose.
  intros H Hcl E Ht. rewrite E in *. cbn [Part001.status_eqb].
  destruct (compress_gzip.Close _) as [z' s'] eqn:EC.
  by destruct (GzipFacts.Encoding_Close_refused _ _ _ _ _ _ _ H Hcl Ht EC)
    as (H1 & H2 & H3 & _).
Qed.

Lemma p1_deferred_takesBody (g : grw) :
  http.takesBody (Part001.sink (Part001.deferred g)) = http.takesBody (Part001.sink g).
Proof.
  unfold Part001.deferred, Part001.codecClose.
  destruct (Part001.status_eqb _ _); [|done].
  pose proof (GzipFacts.Close_takesBody (Part001.grw_w g) (Part001.sink g)) as H.
  by destruct (compress_gzip.Close _).
Qed.

(** *** ServeHTTP, by cases *)

Lemma p1_ServeHTTP_cases h w r next :
  Part001.ServeHTTP h w r next =
    if negb (P1View.accepts r) || P1View.upgrades r || P1View.encoded w
    then Part001.Direct (http.exec (next r) w)
    else match compress_gzip.NewWriterLevel (Part001.compressionLevel h) with
         | inr _ => Part001.Direct (http.exec (next r) w)
         | inl gz =>
             Part001.Decorated
               (Part001.deferred (http.exec (next r) (Part001.newGrw h gz w r)))
         end.
Proof.
  unfold Part001.ServeHTTP, P1View.accepts, P1View.upgrades, P1View.encoded.
  destruct (strings.Contains _ _); [|done].
  destruct (_ <? _)%nat; [done|]. by destruct (String.eqb _ _).
Qed.

End WithPlatform.
End P1Facts.

Module GGFacts.
Section WithPlatform.
Context `{SN : http.ContentSniffer} `{CD : compress_gzip.Codec}.

Abbreviation grw := GzipGo.gzipResponseWriter.

Lemma gg_status_eqb_eq a b : GzipGo.status_eqb a b = true <-> a = b.
Proof. destruct a, b; cbn; split; congruence. Qed.

(** *** [compressContent] and the status *)

Lemma gg_compressContent_snd (g : grw) :
  (GzipGo.compressContent g).2 =
  GzipGo.status_eqb (GzipGo.grw_status (GzipGo.compressContent g).1)
    GzipGo.COMPRESSION_ENABLED.
Proof. done. Qed.

Lemma gg_compressContent_decided (g : grw) :
  GzipGo.grw_status g <> GzipGo.COMPRESSION_UNDEFINED ->
  (GzipGo.compressContent g).1 = g.
Proof.
  intros Hd. unfold GzipGo.compressContent.
  by destruct (GzipGo.grw_status g) eqn:E.
Qed.

Lemma gg_compressContent_status (g : grw) :
  GzipGo.grw_status g = GzipGo.COMPRESSION_UNDEFINED ->
  GzipGo.grw_status (GzipGo.compressContent g).1 =
    if (GzipGo.allowed g).1 then GzipGo.COMPRESSION_ENABLED
    else GzipGo.COMPRESSION_DISABLED.
Proof.
  intros E. unfold GzipGo.compressContent. rewrite E. cbn.
  destruct (GzipGo.allowed g) as [[] g1]; done.
Qed.

Lemma gg_WriteHeader_status code (g : grw) :
  GzipGo.grw_status (GzipGo.WriteHeader code g) = GzipGo.grw_status g.
Proof. done. Qed.

(** [Write] is: sniff, decide if need be, forward. *)
Lemma gg_Write_view b (g : grw) :
  GzipGo.Write b g =
  GGView.forward b (GzipGo.compressContent (GGView.sniffed b g)).1.
Proof. done. Qed.

Lemma gg_forward_status b (g : grw) :
  GzipGo.grw_status (GGView.forward b g) = GzipGo.grw_status g.
Proof.
  unfold GGView.forward, GzipGo.codecWrite.
  destruct (GzipGo.status_eqb _ _); [|done].
  by destruct (compress_gzip.Write _ _).
Qed.

Lemma gg_sniffed_status b (g : grw) :
  GzipGo.grw_status (GGView.sniffed b g) = GzipGo.grw_status g.
Proof. unfold GGView.sniffed. by destruct (_ =? _)%nat. Qed.

Lemma gg_Write_status_decided b (g : grw) :
  GzipGo.grw_status g <> GzipGo.COMPRESSION_UNDEFINED ->
  GzipGo.grw_status (GzipGo.Write b g) = GzipGo.grw_status g.
Proof.
  intros Hd. rewrite gg_Write_view, gg_forward_status.
  rewrite gg_compressContent_decided by (by rewrite gg_sniffed_status).
  apply gg_sniffed_status.
Qed.

Lemma gg_Write_status_undefined b (g : grw) :
  GzipGo.grw_status g = GzipGo.COMPRESSION_UNDEFINED ->
  GzipGo.grw_status (GzipGo.Write b g) <> GzipGo.COMPRESSION_UNDEFINED.
Proof.
  intros E. rewrite gg_Write_view, gg_forward_status.
  rewrite gg_compressContent_status by (by rewrite gg_sniffed_status).
  by destruct (GzipGo.allowed _).1.
Qed.

(** Every run of a handler against the writer follows the machine whose
    only trigger is [Write]. *)
Lemma gg_run_Machine p (g : grw) :
  Inv.Machine GzipGo.grw_status GzipGo.COMPRESSION_UNDEFINED
    http.isWrite (GzipGo.grw_status g) (http.run p g).
Proof.
  apply MachineFacts.run_Machine.
  - intros w b. split.
    + apply gg_Write_status_undefined.
    + apply gg_Write_status_decided.
  - intros w code. by split.
  - intros w o. by split.
Qed.

(** *** The log invariant *)

Lemma gg_LogOK_HeaderUpd f (g : grw) :
  Inv.GG_LogOK g -> Inv.GG_LogOK (GzipGo.HeaderUpd f g).
Proof. done. Qed.

Lemma gg_LogOK_WriteHeader code (g : grw) :
  Inv.GG_LogOK g -> Inv.GG_LogOK (GzipGo.WriteHeader code g).
Proof. done. Qed.

Lemma gg_LogOK_compressContent (g : grw) :
  Inv.GG_LogOK g -> Inv.GG_LogOK (GzipGo.compressContent g).1.
Proof.
  unfold Inv.GG_LogOK, GzipGo.compressContent, GzipGo.allowed.
  intros (H1 & H2 & H3 & H4 & H5 & H6).
  destruct (GzipGo.grw_status g) eqn:E; cbn in *; rewrite ?E; cbn; try done.
  destruct (GzipGo.grw_allowCompression g) as [fn|] eqn:Ea; cbn.
  - destruct (fn _ _); cbn; rewrite ?Ea; cbn; count_log;
      rewrite ?H1, ?H2, ?H3, ?H4, ?H5; done.
  - rewrite ?Ea; cbn; count_log; rewrite ?H1, ?H2, ?H3, ?H4, ?H5; done.
Qed.

Lemma gg_sniffed_log_counts b (g : grw) e :
  (forall v, HeaderChanged (http.HSet GzipGo.headerContentType v) <> e) ->
  occurrences e (GzipGo.grw_log (GGView.sniffed b g)) = occurrences e (GzipGo.grw_log g).
Proof.
  intros He. unfold GGView.sniffed. destruct (_ =? _)%nat; [|done]. cbn.
  by rewrite LogFacts.occurrences_snoc_other.
Qed.

Lemma gg_LogOK_sniffed b (g : grw) :
  Inv.GG_LogOK g -> Inv.GG_LogOK (GGView.sniffed b g).
Proof.
  unfold Inv.GG_LogOK. rewrite !gg_sniffed_log_counts by done.
  rewrite gg_sniffed_status. unfold GGView.sniffed. by destruct (_ =? _)%nat.
Qed.

Lemma gg_forward_log b (g : grw) :
  GzipGo.grw_log (GGView.forward b g) = GzipGo.grw_log g.
Proof.
  unfold GGView.forward, GzipGo.codecWrite.
  destruct (GzipGo.status_eqb _ _); [|done].
  by destruct (compress_gzip.Write _ _).
Qed.

Lemma gg_forward_allow b (g : grw) :
  GzipGo.grw_allowCompression (GGView.forward b g) = GzipGo.grw_allowCompression g.
Proof.
  unfold GGView.forward, GzipGo.codecWrite.
  destruct (GzipGo.status_eqb _ _); [|done].
  by destruct (compress_gzip.Write _ _).
Qed.

Lemma gg_forward_closed b (g : grw) :
  compress_gzip.closed (GzipGo.grw_w (GGView.forward b g))
  = compress_gzip.closed (GzipGo.grw_w g).
Proof.
  unfold GGView.forward, GzipGo.codecWrite.
  destruct (GzipGo.status_eqb _ _); [|done].
  pose proof (GzipFacts.Write_closed b (GzipGo.grw_w g) (GzipGo.sink g)) as H.
  by destruct (compress_gzip.Write _ _).
Qed.

Lemma gg_forward_Header b (g : grw) :
  GzipGo.Header (GGView.forward b g) = GzipGo.Header g.
Proof.
  unfold GGView.forward, GzipGo.codecWrite.
  destruct (GzipGo.status_eqb _ _).
  - pose proof (GzipFacts.Write_HeaderMap b (GzipGo.grw_w g) (GzipGo.sink g)) as H.
    by destruct (compress_gzip.Write _ _).
  - apply HttpFacts.negroni_Write_Header.
Qed.

Lemma gg_LogOK_forward b (g : grw) :
  Inv.GG_LogOK g -> Inv.GG_LogOK (GGView.forward b g).
Proof.
  unfold Inv.GG_LogOK.
  by rewrite gg_forward_log, gg_forward_status, gg_forward_allow, gg_forward_closed.
Qed.

Lemma gg_LogOK_Write b (g : grw) : Inv.GG_LogOK g -> Inv.GG_LogOK (GzipGo.Write b g).
Proof.
  intros H. rewrite gg_Write_view.
  by apply gg_LogOK_forward, gg_LogOK_compressContent, gg_LogOK_sniffed.
Qed.

Lemma gg_LogOK_new h gz w r :
  compress_gzip.closed gz = false -> Inv.GG_LogOK (GzipGo.newGrw h gz w r).
Proof. intros Hc. by repeat split. Qed.

Lemma gg_LogOK_exec p (g : grw) : Inv.GG_LogOK g -> Inv.GG_LogOK (http.exec p g).
Proof.
  apply HttpFacts.exec_preserves.
  - intros w b. apply gg_LogOK_Write.
  - intros w code. apply gg_LogOK_WriteHeader.
  - intros w f. apply gg_LogOK_HeaderUpd.
Qed.

(** *** The body invariant *)

Lemma gg_compressContent_w (g : grw) :
  GzipGo.grw_w (GzipGo.compressContent g).1 = GzipGo.grw_w g.
Proof.
  unfold GzipGo.compressContent, GzipGo.allowed.
  destruct (GzipGo.status_eqb _ _); [|done].
  destruct (GzipGo.grw_allowCompression g) as [fn|]; [|done].
  by destruct (fn _ _).
Qed.

Lemma gg_compressContent_Body (g : grw) :
  http.Body (GzipGo.sink (GzipGo.compressContent g).1) = http.Body (GzipGo.sink g).
Proof.
  unfold GzipGo.compressContent, GzipGo.allowed, GzipGo.sink.
  destruct (GzipGo.status_eqb _ _); [|done].
  destruct (GzipGo.grw_allowCompression g) as [fn|]; [destruct (fn _ _)|]; done.
Qed.

Lemma gg_BodyOK_HeaderUpd lvl body0 f (g : grw) acc :
  Inv.GG_BodyOK lvl body0 g acc -> Inv.GG_BodyOK lvl body0 (GzipGo.HeaderUpd f g) acc.
Proof. done. Qed.

Lemma gg_BodyOK_WriteHeader lvl body0 code (g : grw) acc :
  Inv.GG_BodyOK lvl body0 g acc ->
  Inv.GG_BodyOK lvl body0 (GzipGo.WriteHeader code g) acc.
Proof.
  unfold Inv.GG_BodyOK, GzipGo.WriteHeader, GzipGo.sink. cbn.
  rewrite HttpFacts.negroni_WriteHeader_Body.
  destruct (GzipGo.grw_status g); try done.
  apply GzipFacts.Encoding_sinkWriteHeader.
Qed.

Lemma gg_BodyOK_sniffed lvl body0 b (g : grw) acc :
  Inv.GG_BodyOK lvl body0 g acc -> Inv.GG_BodyOK lvl body0 (GGView.sniffed b g) acc.
Proof. unfold GGView.sniffed. by destruct (_ =? _)%nat. Qed.

Lemma gg_BodyOK_compressContent lvl body0 (g : grw) acc :
  Inv.GG_BodyOK lvl body0 g acc ->
  Inv.GG_BodyOK lvl body0 (GzipGo.compressContent g).1 acc.
Proof.
  unfold Inv.GG_BodyOK.
  destruct (GzipGo.grw_status g) eqn:E.
  - rewrite gg_compressContent_status by done.
    intros (-> & Hwh & Hst). destruct (GzipGo.allowed g).1.
    + unfold Inv.Encoding.
      rewrite gg_compressContent_w, gg_compressContent_Body, Hwh. by split.
    + rewrite gg_compressContent_Body.
      destruct Hst as (_ & _ & _ & _ & Hst). rewrite Hwh in Hst.
      destruct Hst as (_ & _ & ->). by rewrite app_nil_r.
  - rewrite gg_compressContent_decided by congruence. by rewrite E.
  - rewrite gg_compressContent_decided by congruence. by rewrite E.
Qed.

Lemma gg_BodyOK_forward lvl body0 b (g : grw) acc :
  GzipGo.grw_status g <> GzipGo.COMPRESSION_UNDEFINED ->
  Inv.GG_BodyOK lvl body0 g acc ->
  Inv.GG_BodyOK lvl body0 (GGView.forward b g) (acc ++ b).
Proof.
  intros Hd. unfold Inv.GG_BodyOK. rewrite gg_forward_status.
  unfold GGView.forward. destruct (GzipGo.grw_status g) eqn:E; [done| |]; cbn.
  - intros H. unfold GzipGo.sink in *. cbn.
    by rewrite HttpFacts.negroni_Write_Body, H, app_assoc.
  - intros Henc. unfold GzipGo.codecWrite.
    destruct (compress_gzip.Write b _) as [z' s'] eqn:EW.
    by destruct (GzipFacts.Encoding_Write _ _ _ _ _ _ _ _ Henc EW) as [H1 _].
Qed.

Lemma gg_BodyOK_Write lvl body0 b (g : grw) acc :
  Inv.GG_BodyOK lvl body0 g acc ->
  Inv.GG_BodyOK lvl body0 (GzipGo.Write b g) (acc ++ b).
Proof.
  intros H. rewrite gg_Write_view. apply gg_BodyOK_forward.
  - destruct (GzipGo.grw_status g) eqn:E.
    + rewrite gg_compressContent_status by (by rewrite gg_sniffed_status).
      by destruct (GzipGo.allowed _).1.
    + rewrite gg_compressContent_decided; rewrite gg_sniffed_status; congruence.
    + rewrite gg_compressContent_decided; rewrite gg_sniffed_status; congruence.
  - by apply gg_BodyOK_compressContent, gg_BodyOK_sniffed.
Qed.

Lemma gg_BodyOK_new h lvl gz w r :
  compress_gzip.NewWriterLevel lvl = inl gz ->
  Inv.GG_BodyOK lvl (http.Body w) (GzipGo.newGrw h gz w r) [].
Proof.
  intros Hn. destruct (GzipFacts.Streaming_new lvl gz (http.Body w) Hn) as [_ Hst].
  split; [done|]. split; [|done].
  unfold compress_gzip.NewWriterLevel in Hn. destruct (_ || _); [done|].
  by injection Hn as <-.
Qed.

Lemma gg_BodyOK_exec lvl body0 p (g : grw) acc :
  Inv.GG_BodyOK lvl body0 g acc ->
  Inv.GG_BodyOK lvl body0 (http.exec p g) (acc ++ http.written p g).
Proof.
  apply (HttpFacts.exec_invariant (Inv.GG_BodyOK lvl body0)).
  - intros w a b. apply gg_BodyOK_Write.
  - intros w a code. apply gg_BodyOK_WriteHeader.
  - intros w a f. apply gg_BodyOK_HeaderUpd.
Qed.

(** *** The transition *)

Lemma gg_compressContent_Header (g : grw) :
  GzipGo.grw_status g = GzipGo.COMPRESSION_UNDEFINED ->
  GzipGo.Header (GzipGo.compressContent g).1 =
    if (GzipGo.allowed g).1 then GGView.gzipHeaders (GzipGo.Header g)
    else GzipGo.Header g.
Proof.
  intros E. unfold GzipGo.compressContent, GzipGo.allowed, GzipGo.Header.
  rewrite E. cbn [GzipGo.status_eqb].
  destruct (GzipGo.grw_allowCompression g) as [fn|]; [destruct (fn _ _)|]; done.
Qed.

Lemma gg_compressContent_log (g : grw) :
  GzipGo.grw_status g = GzipGo.COMPRESSION_UNDEFINED ->
  GzipGo.grw_log (GzipGo.compressContent g).1 =
    GzipGo.grw_log g
    ++ (if Inv.isSome (GzipGo.grw_allowCompression g) then [PredicateCalled] else [])
    ++ (if (GzipGo.allowed g).1 then GGView.gzipEvents else []).
Proof.
  intros E. unfold GzipGo.compressContent, GzipGo.allowed.
  rewrite E. cbn [GzipGo.status_eqb].
  destruct (GzipGo.grw_allowCompression g) as [fn|]; [destruct (fn _ _)|]; cbn;
    rewrite <- ?app_assoc; cbn; by rewrite ?app_nil_r.
Qed.

Lemma gg_compressContent_status_decided (g : grw) :
  GzipGo.grw_status (GzipGo.compressContent g).1 <> GzipGo.COMPRESSION_UNDEFINED.
Proof.
  destruct (GzipGo.grw_status g) eqn:E.
  - rewrite gg_compressContent_status by done. by destruct (GzipGo.allowed g).1.
  - rewrite gg_compressContent_decided; congruence.
  - rewrite gg_compressContent_decided; congruence.
Qed.

Lemma gg_Write_status_decided_after b (g : grw) :
  GzipGo.grw_status (GzipGo.Write b g) <> GzipGo.COMPRESSION_UNDEFINED.
Proof.
  rewrite gg_Write_view, gg_forward_status. apply gg_compressContent_status_decided.
Qed.

(** Calling [compressContent] again changes nothing and answers the same. *)
Lemma gg_compressContent_idempotent (g : grw) :
  GzipGo.compressContent (GzipGo.compressContent g).1 = GzipGo.compressContent g.
Proof.
  assert (forall x : grw,
            GzipGo.compressContent x =
            ((GzipGo.compressContent x).1,
             GzipGo.status_eqb (GzipGo.grw_status (GzipGo.compressContent x).1)
               GzipGo.COMPRESSION_ENABLED)) as Heta by done.
  rewrite (Heta (GzipGo.compressContent g).1).
  rewrite gg_compressContent_decided by apply gg_compressContent_status_decided.
  symmetry. apply Heta.
Qed.

Lemma gg_allowed_headers o (g : grw) :
  (GzipGo.allowed (GzipGo.headers o g)).1 =
  match GzipGo.grw_allowCompression g with
  | None => true
  | Some fn => fn (http.applyHeaderOp o (GzipGo.Header g)) (GzipGo.grw_r g)
  end.
Proof.
  unfold GzipGo.allowed. cbn.
  by destruct (GzipGo.grw_allowCompression g).
Qed.

Lemma gg_sniffed_empty b (g : grw) :
  http.Get (GzipGo.Header g) GzipGo.headerContentType = "" ->
  GGView.sniffed b g =
  GzipGo.headers
    (http.HSet GzipGo.headerContentType (http.DetectContentType b)) g.
Proof. intros E. unfold GGView.sniffed. by rewrite E. Qed.

Lemma gg_sniffed_present b (g : grw) :
  http.Get (GzipGo.Header g) GzipGo.headerContentType <> "" ->
  GGView.sniffed b g = g.
Proof.
  intros E. unfold GGView.sniffed.
  destruct (_ =? _)%nat eqn:El; [|done]. by apply HttpFacts.length_zero in El.
Qed.

Lemma gg_sniffed_ContentType b (g : grw) :
  http.DetectContentType b <> "" ->
  http.Get (GzipGo.Header (GGView.sniffed b g)) GzipGo.headerContentType <> "".
Proof.
  intros Hd. unfold GGView.sniffed. destruct (_ =? _)%nat eqn:El.
  - unfold GzipGo.Header, negroni.Header. cbn.
    rewrite HttpFacts.HeaderMap_sinkHeaderUpd. cbn.
    by rewrite HttpFacts.Get_Set_same.
  - intros E. apply HttpFacts.length_zero in E. congruence.
Qed.

Lemma gg_gzipHeaders_ContentType h :
  http.Get (GGView.gzipHeaders h) GzipGo.headerContentType
  = http.Get h GzipGo.headerContentType.
Proof.
  unfold GGView.gzipHeaders. by rewrite !HttpFacts.Get_Set_other by keys_differ.
Qed.

Lemma gg_gzipHeaders_Vary h :
  http.Values (GGView.gzipHeaders h) GzipGo.headerVary
  = [GzipGo.headerAcceptEncoding].
Proof. apply HttpFacts.Values_Set_same. Qed.

Lemma gg_gzipHeaders_ContentEncoding h :
  http.Get (GGView.gzipHeaders h) GzipGo.headerContentEncoding
  = GzipGo.encodingGzip.
Proof.
  unfold GGView.gzipHeaders.
  rewrite HttpFacts.Get_Set_other by keys_differ.
  apply HttpFacts.Get_Set_same.
Qed.

Lemma gg_gzipHeaders_ContentLength h :
  http.Get (GGView.gzipHeaders h) GzipGo.headerContentLength
  = http.Get h GzipGo.headerContentLength.
Proof.
  unfold GGView.gzipHeaders. by rewrite !HttpFacts.Get_Set_other by keys_differ.
Qed.

Lemma gg_compressContent_ContentType (g : grw) :
  http.Get (GzipGo.Header (GzipGo.compressContent g).1) GzipGo.headerContentType
  = http.Get (GzipGo.Header g) GzipGo.headerContentType.
Proof.
  destruct (GzipGo.grw_status g) eqn:E.
  - rewrite gg_compressContent_Header by done.
    destruct (GzipGo.allowed g).1; [|done]. apply gg_gzipHeaders_ContentType.
  - rewrite gg_compressContent_decided; congruence.
  - rewrite gg_compressContent_decided; congruence.
Qed.

(** After a write the Content-Type is there, if the sniffer names one. *)
Lemma gg_Write_ContentType b (g : grw) :
  http.DetectContentType b <> "" ->
  http.Get (GzipGo.Header (GzipGo.Write b g)) GzipGo.headerContentType <> "".
Proof.
  intros Hd. rewrite gg_Write_view, gg_forward_Header, gg_compressContent_ContentType.
  by apply gg_sniffed_ContentType.
Qed.

(** Once decided, a write leaves the status alone, and the headers and
    the log as the sniffing left them. *)
Lemma gg_Write_decided_view b (g : grw) :
  GzipGo.grw_status g <> GzipGo.COMPRESSION_UNDEFINED ->
  GzipGo.grw_status (GzipGo.Write b g) = GzipGo.grw_status g /\
  GzipGo.Header (GzipGo.Write b g) = GzipGo.Header (GGView.sniffed b g) /\
  GzipGo.grw_log (GzipGo.Write b g) = GzipGo.grw_log (GGView.sniffed b g).
Proof.
  intros Hd. rewrite gg_Write_view.
  rewrite gg_forward_status, gg_forward_Header, gg_forward_log.
  rewrite gg_compressContent_decided by (by rewrite gg_sniffed_status).
  by rewrite gg_sniffed_status.
Qed.

Lemma gg_sniffed_allow b (g : grw) :
  GzipGo.grw_allowCompression (GGView.sniffed b g)
  = GzipGo.grw_allowCompression g.
Proof. unfold GGView.sniffed. by destruct (_ =? _)%nat. Qed.

Lemma gg_allowed_none (g : grw) :
  GzipGo.grw_allowCompression g = None -> (GzipGo.allowed g).1 = true.
Proof. intros E. unfold GzipGo.allowed. by rewrite E. Qed.

(** A write that takes the state from undecided to enabled leaves the
    compression headers. *)
Lemma gg_Write_enables b (g : grw) :
  GzipGo.grw_status g = GzipGo.COMPRESSION_UNDEFINED ->
  GzipGo.grw_status (GzipGo.Write b g) = GzipGo.COMPRESSION_ENABLED ->
  GzipGo.Header (GzipGo.Write b g)
  = GGView.gzipHeaders (GzipGo.Header (GGView.sniffed b g)).
Proof.
  intros E. rewrite gg_Write_view.
  rewrite gg_forward_status, gg_forward_Header.
  rewrite gg_compressContent_status, gg_compressContent_Header
    by (by rewrite gg_sniffed_status).
  by destruct (GzipGo.allowed _).1.
Qed.

(** *** A header commit is no part of the decision *)

Lemma gg_WriteHeader_control code (g : grw) :
  GGView.control (GzipGo.WriteHeader code g) = GGView.control g.
Proof.
  unfold GGView.control, GzipGo.WriteHeader, GzipGo.Header. cbn.
  by rewrite HttpFacts.negroni_WriteHeader_Header.
Qed.

Lemma gg_forward_control b (g : grw) :
  GGView.control (GGView.forward b g) = GGView.control g.
Proof.
  unfold GGView.control.
  rewrite gg_forward_status, gg_forward_Header, gg_forward_log, gg_forward_allow.
  f_equal. unfold GGView.forward, GzipGo.codecWrite.
  destruct (GzipGo.status_eqb _ _); [|done].
  by destruct (compress_gzip.Write _ _).
Qed.

Lemma gg_headers_control o (g g' : grw) :
  GGView.control g = GGView.control g' ->
  GGView.control (GzipGo.headers o g) = GGView.control (GzipGo.headers o g').
Proof.
  unfold GGView.control. intros [= E1 E2 E3 E4 E5].
  unfold GzipGo.headers, GzipGo.Header, negroni.Header in *. cbn.
  rewrite !HttpFacts.HeaderMap_sinkHeaderUpd. congruence.
Qed.

Lemma gg_setStatus_control st (g g' : grw) :
  GGView.control g = GGView.control g' ->
  GGView.control (GzipGo.setStatus st g) = GGView.control (GzipGo.setStatus st g').
Proof.
  unfold GGView.control. intros [= E1 E2 E3 E4 E5]. cbn.
  change (GzipGo.Header (GzipGo.setStatus st g)) with (GzipGo.Header g).
  change (GzipGo.Header (GzipGo.setStatus st g')) with (GzipGo.Header g').
  congruence.
Qed.

Lemma gg_sniffed_control b (g g' : grw) :
  GGView.control g = GGView.control g' ->
  GGView.control (GGView.sniffed b g) = GGView.control (GGView.sniffed b g').
Proof.
  intros E. pose proof E as [= E1 E2 E3 E4 E5]. unfold GGView.sniffed.
  rewrite E2. destruct (_ =? _)%nat; [|done]. by apply gg_headers_control.
Qed.

Lemma gg_compressContent_control (g g' : grw) :
  GGView.control g = GGView.control g' ->
  GGView.control (GzipGo.compressContent g).1
  = GGView.control (GzipGo.compressContent g').1.
Proof.
  intros E. pose proof E as [= E1 E2 E3 E4 E5].
  unfold GzipGo.compressContent, GzipGo.allowed. cbn [fst].
  rewrite E1, E2, E4, E5. destruct (GzipGo.status_eqb _ _); [|done].
  assert (GGView.control (GzipGo.record PredicateCalled g)
          = GGView.control (GzipGo.record PredicateCalled g')) as Er.
  { unfold GGView.control. cbn.
    change (GzipGo.Header (GzipGo.record PredicateCalled g)) with (GzipGo.Header g).
    change (GzipGo.Header (GzipGo.record PredicateCalled g')) with (GzipGo.Header g').
    congruence. }
  destruct (GzipGo.grw_allowCompression g') as [fn|]; [destruct (fn _ _)|].
  - by apply gg_headers_control, gg_headers_control, gg_setStatus_control.
  - by apply gg_setStatus_control.
  - by apply gg_headers_control, gg_headers_control, gg_setStatus_control.
Qed.

Lemma gg_control_eq (g g' : grw) :
  GGView.control g = GGView.control g' ->
  GzipGo.grw_status g = GzipGo.grw_status g' /\
  GzipGo.Header g = GzipGo.Header g' /\
  GzipGo.grw_log g = GzipGo.grw_log g'.
Proof.
  intros E. split_and!.
  - exact (f_equal (fun t => t.1.1.1.1) E).
  - exact (f_equal (fun t => t.1.1.1.2) E).
  - exact (f_equal (fun t => t.1.1.2) E).
Qed.

(** The write that follows a header commit decides as it would have
    without the commit. *)
Lemma gg_Write_after_WriteHeader code b (g : grw) :
  GGView.control (GzipGo.Write b (GzipGo.WriteHeader code g))
  = GGView.control (GzipGo.Write b g).
Proof.
  rewrite !gg_Write_view, !gg_forward_control.
  apply gg_compressContent_control, gg_sniffed_control, gg_WriteHeader_control.
Qed.

(** *** Whether the sink accepts a body *)

Lemma gg_sniffed_takesBody b (g : grw) :
  http.takesBody (GzipGo.sink (GGView.sniffed b g)) = http.takesBody (GzipGo.sink g).
Proof. unfold GGView.sniffed. by destruct (_ =? _)%nat. Qed.

Lemma gg_forward_takesBody b (g : grw) :
  http.takesBody (GzipGo.sink (GGView.forward b g)) = http.takesBody (GzipGo.sink g).
Proof.
  unfold GGView.forward, GzipGo.codecWrite.
  destruct (GzipGo.status_eqb _ _).
  - pose proof (GzipFacts.Write_takesBody b (GzipGo.grw_w g) (GzipGo.sink g)) as H.
    by destruct (compress_gzip.Write _ _).
  - apply HttpFacts.negroni_Write_takesBody.
Qed.

Lemma gg_compressContent_takesBody (g : grw) :
  http.takesBody (GzipGo.sink (GzipGo.compressContent g).1)
  = http.takesBody (GzipGo.sink g).
Proof.
  unfold GzipGo.compressContent, GzipGo.allowed, GzipGo.sink.
  destruct (GzipGo.status_eqb _ _); [|done].
  destruct (GzipGo.grw_allowCompression g) as [fn|]; [destruct (fn _ _)|]; done.
Qed.

Lemma gg_WriteHeader_takesBody code (g : grw) :
  http.takesBody (GzipGo.sink (GzipGo.WriteHeader code g))
  = match http.committed (GzipGo.sink g) with
    | Some _ => http.takesBody (GzipGo.sink g)
    | None => http.bodyAllowedForStatus code
    end.
Proof. apply HttpFacts.negroni_WriteHeader_takesBody. Qed.

(** A write commits [200] at most, and so leaves the sink as willing as it
    was. *)
Lemma gg_Write_takesBody b (g : grw) :
  http.takesBody (GzipGo.sink (GzipGo.Write b g)) = http.takesBody (GzipGo.sink g).
Proof.
  rewrite gg_Write_view.
  by rewrite gg_forward_takesBody, gg_compressContent_takesBody,
    gg_sniffed_takesBody.
Qed.

(** *** The deferred function *)

Lemma gg_deferred_status (g : grw) :
  GzipGo.grw_status (GzipGo.deferred g) = GzipGo.grw_status g.
Proof.
  unfold GzipGo.deferred, GzipGo.codecClose.
  destruct (GzipGo.status_eqb _ _); [|done].
  by destruct (compress_gzip.Close _).
Qed.

Lemma gg_deferred_log (g : grw) :
  GzipGo.grw_log (GzipGo.deferred g) =
    GzipGo.grw_log g ++
    (if GzipGo.status_eqb (GzipGo.grw_status g) GzipGo.COMPRESSION_ENABLED
     then [CodecClosed; HeaderChanged (http.HDel GzipGo.headerContentLength)]
     else []).
Proof.
  unfold GzipGo.deferred, GzipGo.codecClose.
  destruct (GzipGo.status_eqb _ _); [|by rewrite app_nil_r].
  destruct (compress_gzip.Close _). cbn. by rewrite <- app_assoc.
Qed.

Lemma gg_deferred_Header (g : grw) :
  GzipGo.Header (GzipGo.deferred g) =
    if GzipGo.status_eqb (GzipGo.grw_status g) GzipGo.COMPRESSION_ENABLED
    then http.Del (GzipGo.Header g) GzipGo.headerContentLength
    else GzipGo.Header g.
Proof.
  unfold GzipGo.deferred, GzipGo.codecClose.
  destruct (GzipGo.status_eqb _ _); [|done].
  pose proof (GzipFacts.Close_HeaderMap (GzipGo.grw_w g) (GzipGo.sink g)) as H.
  destruct (compress_gzip.Close _). unfold GzipGo.Header, negroni.Header. cbn in *.
  by rewrite HttpFacts.HeaderMap_sinkHeaderUpd, H.
Qed.

(** Unless compression was enabled, the deferred function does nothing. *)
Lemma gg_deferred_idle (g : grw) :
  GzipGo.grw_status g <> GzipGo.COMPRESSION_ENABLED -> GzipGo.deferred g = g.
Proof.
  intros Hne. unfold GzipGo.deferred.
  by destruct (GzipGo.grw_status g).
Qed.

(** When compression was enabled and the sink accepts a body, the deferred
    function leaves one whole gzip stream of the written data in the sink;
    what it adds ends with the compressor's last output and the trailer. *)
Lemma gg_deferred_stream lvl body0 (g : grw) acc :
  Inv.GG_BodyOK lvl body0 g acc ->
  compress_gzip.closed (GzipGo.grw_w g) = false ->
  GzipGo.grw_status g = GzipGo.COMPRESSION_ENABLED ->
  http.takesBody (GzipGo.sink g) = true ->
  exists chunks c out front,
    concat chunks = acc /\
    compress_gzip.flate_writes (compress_gzip.flate_NewWriter lvl) chunks
      = (c, out) /\
    http.Body (GzipGo.sink (GzipGo.deferred g))
      = body0 ++ compress_gzip.gzip_stream lvl chunks /\
    http.Body (GzipGo.sink (GzipGo.deferred g))
      = http.Body (GzipGo.sink g) ++ front
        ++ compress_gzip.flate_Close c ++ compress_gzip.gzip_trailer acc /\
    compress_gzip.closed (GzipGo.grw_w (GzipGo.deferred g)) = true /\
    compress_gzip.err (GzipGo.grw_w (GzipGo.deferred g)) = None.
Proof.
  unfold Inv.GG_BodyOK, GzipGo.deferred, GzipGo.codecClose.
  intros H Hcl E Ht. rewrite E in *. cbn [GzipGo.status_eqb].
  destruct (compress_gzip.Close _) as [z' s'] eqn:EC.
  destruct (GzipFacts.Encoding_Close _ _ _ _ _ _ _ H Hcl Ht EC)
    as (chunks & c & out & front & H1 & H2 & H3 & H4 & H5 & H6 & _).
  by exists chunks, c, out, front.
Qed.

Lemma gg_deferred_Body lvl body0 (g : grw) acc :
  Inv.GG_BodyOK lvl body0 g acc ->
  compress_gzip.closed (GzipGo.grw_w g) = false ->
  GzipGo.grw_status g = GzipGo.COMPRESSION_ENABLED ->
  http.takesBody (GzipGo.sink g) = true ->
  exists chunks,
    concat chunks = acc /\
    http.Body (GzipGo.sink (GzipGo.deferred g))
    = body0 ++ compress_gzip.gzip_stream lvl chunks.
Proof.
  intros H Hcl E Ht.
  destruct (gg_deferred_stream _ _ _ _ H Hcl E Ht)
    as (chunks & _ & _ & _ & H1 & _ & H3 & _).
  by exists chunks.
Qed.

(** When compression was enabled and the sink accepts no body, the header
    is all that reaches the sink. *)
Lemma gg_deferred_refused lvl body0 (g : grw) acc :
  Inv.GG_BodyOK lvl body0 g acc ->
  compress_gzip.closed (GzipGo.grw_w g) = false ->
  GzipGo.grw_status g = GzipGo.COMPRESSION_ENABLED ->
  http.takesBody (GzipGo.sink g) = false ->
  http.Body (GzipGo.sink (GzipGo.deferred g))
    = body0 ++ compress_gzip.gzip_header lvl /\
  compress_gzip.err (GzipGo.grw_w (GzipGo.deferred g)) <> None /\
  compress_gzip.closed (GzipGo.grw_w (GzipGo.deferred g))
    = negb (compress_gzip.wroteHeader (GzipGo.grw_w g)).
Proof.
  unfold Inv.GG_BodyOK, GzipGo.deferred, GzipGo.codecClose.
  intros H Hcl E Ht. rewrite E in *. cbn [GzipGo.status_eqb].
  destruct (compress_gzip.Close _) as [z' s'] eqn:EC.
  by destruct (GzipFacts.Encoding_Close_refused _ _ _ _ _ _ _ H Hcl Ht EC)
    as (H1 & H2 & H3 & _).
Qed.

Lemma gg_deferred_takesBody (g : grw) :
  http.takesBody (GzipGo.sink (GzipGo.deferred g)) = http.takesBody (GzipGo.sink g).
Proof.
  unfold GzipGo.deferred, GzipGo.codecClose.
  destruct (GzipGo.status_eqb _ _); [|done].
  pose proof (GzipFacts.Close_takesBody (GzipGo.grw_w g) (GzipGo.sink g)) as H.
  by destruct (compress_gzip.Close _).
Qed.

(** *** ServeHTTP, by cases *)

Lemma gg_ServeHTTP_cases h w r next :
  GzipGo.ServeHTTP h w r next =
    if negb (GGView.accepts r) || GGView.upgrades r || GGView.encoded w
    then GzipGo.Direct (http.exec (next r) w)
    else match compress_gzip.NewWriterLevel (GzipGo.compressionLevel h) with
         | inr _ => GzipGo.Direct (http.exec (next r) w)
         | inl gz =>
             GzipGo.Decorated
               (GzipGo.deferred (http.exec (next r) (GzipGo.newGrw h gz w r)))
         end.
Proof.
  unfold GzipGo.ServeHTTP, GGView.accepts, GGView.upgrades, GGView.encoded.
  destruct (strings.Contains _ _); [|done].
  destruct (_ <? _)%nat; [done|]. by destruct (String.eqb _ _).
Qed.

End WithPlatform.
End GGFacts.

(* ===================================================================== *)
(** * The claims                                                          *)
(* ===================================================================== *)

Module ToyFacts.

Lemma flate_writes_toy chunks :
  compress_gzip.flate_writes (H := Toy.codec) tt chunks = (tt, concat chunks).
Proof.
  induction chunks as [|p ps IH]; [done|].
  cbn [compress_gzip.flate_writes]. cbn. cbn in IH. by rewrite IH.
Qed.

(** The storing codec honours the contract of a codec. *)
Lemma codec_sound : compress_gzip.CodecSound Toy.codec.
Proof.
  intros level chunks _. unfold compress_gzip.gzip_stream.
  rewrite flate_writes_toy. cbn. rewrite !app_nil_r.
  unfold Toy.endMark. rewrite rev_app_distr. cbn. by rewrite rev_involutive.
Qed.

(** A stream of the storing codec: the magic bytes, the data, the end
    mark. *)
Lemma gzip_stream_toy level chunks :
  compress_gzip.gzip_stream (H := Toy.codec) level chunks
  = Toy.magic ++ concat chunks ++ Toy.endMark.
Proof.
  unfold compress_gzip.gzip_stream. rewrite flate_writes_toy. cbn.
  by rewrite !app_nil_r.
Qed.

Lemma NewWriterLevel_default :
  compress_gzip.NewWriterLevel (H := Toy.codec) compress_gzip.DefaultCompression
  = inl Toy.gz.
Proof. reflexivity. Qed.

End ToyFacts.

(** C1 (as amended). The decision state of a fresh writer is undecided
    ([COMPRESSION_CHECK], [COMPRESSION_UNDEFINED]). During any run of a
    downstream handler it is undecided after a call exactly when no trigger
    has been called so far, and once it is decided every later state has the
    same status: it moves once, at the first trigger, to enabled or disabled,
    and never again. In part_001 the triggers are [WriteHeader] and [Write];
    in gzip/gzip.go the only trigger is [Write]. *)
Theorem C1_decided_once_at_first_trigger
  `{SN : http.ContentSniffer} `{CD : compress_gzip.Codec} :
  (forall (h : Part001.handler) gz w r (p : http.Handler),
     let g0 := Part001.newGrw h gz w r in
     Part001.grw_status g0 = Part001.COMPRESSION_CHECK /\
     forall pre c g post,
       http.run p g0 = pre ++ (c, g) :: post ->
       (Part001.grw_status g = Part001.COMPRESSION_CHECK <->
        Forall (fun c' => http.isWriteOrWriteHeader c' = false) (pre.*1 ++ [c])) /\
       (Part001.grw_status g <> Part001.COMPRESSION_CHECK ->
        Forall (fun x => Part001.grw_status x.2 = Part001.grw_status g) post))
  /\
  (forall (h : GzipGo.handler) gz w r (p : http.Handler),
     let g0 := GzipGo.newGrw h gz w r in
     GzipGo.grw_status g0 = GzipGo.COMPRESSION_UNDEFINED /\
     forall pre c g post,
       http.run p g0 = pre ++ (c, g) :: post ->
       (GzipGo.grw_status g = GzipGo.COMPRESSION_UNDEFINED <->
        Forall (fun c' => http.isWrite c' = false) (pre.*1 ++ [c])) /\
       (GzipGo.grw_status g <> GzipGo.COMPRESSION_UNDEFINED ->
        Forall (fun x => GzipGo.grw_status x.2 = GzipGo.grw_status g) post)).
Proof.
  split.
  - intros h gz w r p g0. split; [done|]. intros pre c g post Hrun.
    pose proof (P1Facts.p1_run_Machine p g0) as HM.
    change (Part001.grw_status g0) with Part001.COMPRESSION_CHECK in HM.
    split.
    + eapply MachineFacts.Machine_undecided; eauto.
    + intros Hd. eapply MachineFacts.Machine_later; eauto.
  - intros h gz w r p g0. split; [done|]. intros pre c g post Hrun.
    pose proof (GGFacts.gg_run_Machine p g0) as HM.
    change (GzipGo.grw_status g0) with GzipGo.COMPRESSION_UNDEFINED in HM.
    split.
    + eapply MachineFacts.Machine_undecided; eauto.
    + intros Hd. eapply MachineFacts.Machine_later; eauto.
Qed.


(** C2 (as amended). In part_001 the transition, taken in [WriteHeader],
    removes Content-Length, sets Content-Encoding to gzip and Vary to
    Accept-Encoding when the predicate permits, and mutates no header when
    it refuses; in a whole response cycle each of the three mutations is
    made once when the cycle ends enabled and not at all otherwise. In
    gzip/gzip.go the transition, taken in [compressContent], sets
    Content-Encoding and Vary only, and mutates nothing when the predicate
    refuses; the Content-Length header is removed by the deferred function
    of [ServeHTTP], after the downstream handler has returned; over a cycle
    each of the three mutations is made once when the cycle ends enabled and
    not at all otherwise. *)
Theorem C2_compression_headers_set_once
  `{SN : http.ContentSniffer} `{CD : compress_gzip.Codec} :
  (forall (g : Part001.gzipResponseWriter) code,
     Part001.grw_status g = Part001.COMPRESSION_CHECK ->
     let g' := Part001.WriteHeader code g in
     if (Part001.allowed g).1
     then Part001.grw_status g' = Part001.COMPRESSION_ENABLED /\
          Part001.Header g' =
            http.Set_
              (http.Set_ (http.Del (Part001.Header g) Part001.headerContentLength)
                 Part001.headerContentEncoding Part001.encodingGzip)
              Part001.headerVary Part001.headerAcceptEncoding
     else Part001.grw_status g' = Part001.COMPRESSION_DISABLED /\
          Part001.Header g' = Part001.Header g)
  /\
  (forall (h : Part001.handler) w r next g,
     Part001.ServeHTTP h w r next = Part001.Decorated g ->
     let n := if Part001.status_eqb (Part001.grw_status g) Part001.COMPRESSION_ENABLED
              then 1%nat else 0%nat in
     occurrences (HeaderChanged (http.HDel Part001.headerContentLength))
       (Part001.grw_log g) = n /\
     occurrences (HeaderChanged
         (http.HSet Part001.headerContentEncoding Part001.encodingGzip))
       (Part001.grw_log g) = n /\
     occurrences (HeaderChanged
         (http.HSet Part001.headerVary Part001.headerAcceptEncoding))
       (Part001.grw_log g) = n)
  /\
  (forall (g : GzipGo.gzipResponseWriter),
     GzipGo.grw_status g = GzipGo.COMPRESSION_UNDEFINED ->
     let g' := (GzipGo.compressContent g).1 in
     if (GzipGo.allowed g).1
     then GzipGo.grw_status g' = GzipGo.COMPRESSION_ENABLED /\
          GzipGo.Header g' =
            http.Set_
              (http.Set_ (GzipGo.Header g)
                 GzipGo.headerContentEncoding GzipGo.encodingGzip)
              GzipGo.headerVary GzipGo.headerAcceptEncoding
     else GzipGo.grw_status g' = GzipGo.COMPRESSION_DISABLED /\
          GzipGo.Header g' = GzipGo.Header g)
  /\
  (forall (g : GzipGo.gzipResponseWriter),
     GzipGo.Header (GzipGo.deferred g) =
       if GzipGo.status_eqb (GzipGo.grw_status g) GzipGo.COMPRESSION_ENABLED
       then http.Del (GzipGo.Header g) GzipGo.headerContentLength
       else GzipGo.Header g)
  /\
  (forall (h : GzipGo.handler) w r next g,
     GzipGo.ServeHTTP h w r next = GzipGo.Decorated g ->
     let n := if GzipGo.status_eqb (GzipGo.grw_status g) GzipGo.COMPRESSION_ENABLED
              then 1%nat else 0%nat in
     occurrences (HeaderChanged (http.HDel GzipGo.headerContentLength))
       (GzipGo.grw_log g) = n /\
     occurrences (HeaderChanged
         (http.HSet GzipGo.headerContentEncoding GzipGo.encodingGzip))
       (GzipGo.grw_log g) = n /\
     occurrences (HeaderChanged
         (http.HSet GzipGo.headerVary GzipGo.headerAcceptEncoding))
       (GzipGo.grw_log g) = n).
Proof.
  split_and!.
  - intros g code E g'. subst g'.
    rewrite P1Facts.p1_WriteHeader_status_check,
      P1Facts.p1_WriteHeader_Header_check by done.
    by destruct (Part001.allowed g).1.
  - intros h w r next g. rewrite P1Facts.p1_ServeHTTP_cases.
    destruct (_ || _); [done|].
    destruct (compress_gzip.NewWriterLevel _) as [gz|] eqn:En; [|done].
    intros [= <-]. cbv zeta.
    rewrite P1Facts.p1_deferred_log, P1Facts.p1_deferred_status.
    destruct (GzipFacts.Streaming_new _ _ [] En) as (_ & Hc & _).
    pose proof (P1Facts.p1_LogOK_exec (next r) _
                  (P1Facts.p1_LogOK_new h gz w r Hc)) as (_ & H2 & H3 & H4 & _).
    rewrite !LogFacts.occurrences_app, H2, H3, H4.
    destruct (Part001.status_eqb _ _); cbn; auto.
  - intros g E g'. subst g'.
    rewrite GGFacts.gg_compressContent_status,
      GGFacts.gg_compressContent_Header by done.
    by destruct (GzipGo.allowed g).1.
  - apply GGFacts.gg_deferred_Header.
  - intros h w r next g. rewrite GGFacts.gg_ServeHTTP_cases.
    destruct (_ || _); [done|].
    destruct (compress_gzip.NewWriterLevel _) as [gz|] eqn:En; [|done].
    intros [= <-]. cbv zeta.
    rewrite GGFacts.gg_deferred_log, GGFacts.gg_deferred_status.
    destruct (GzipFacts.Streaming_new _ _ [] En) as (_ & Hc & _).
    pose proof (GGFacts.gg_LogOK_exec (next r) _
                  (GGFacts.gg_LogOK_new h gz w r Hc)) as (_ & H2 & H3 & H4 & _).
    rewrite !LogFacts.occurrences_app, H2, H3, H4.
    destruct (GzipGo.status_eqb _ _); cbn; auto.
Qed.

(** C3 (as amended). With a codec that honours its contract: when a
    request accepts gzip and carries no Sec-WebSocket-Key, and the cycle
    ends with compression enabled, and the status that was committed
    allows a body, what [ServeHTTP] has added to the sink's body is a gzip
    stream that decodes to exactly the bytes the downstream handler wrote.
    Under a status that allows none (1xx, 204, 304) the sink refuses the
    codec writer's first write, and the gzip header is all the sink has
    got, whatever the handler wrote. When the request does not accept gzip,
    [ServeHTTP] is the downstream handler run on the sink itself (so no
    header is added), and the body grows by exactly the bytes written. Both
    revisions. *)
Theorem C3_body_round_trip
  `{SN : http.ContentSniffer} `{CD : compress_gzip.Codec}
  (sound : compress_gzip.CodecSound CD) :
  (forall (h : Part001.handler) w r next g,
     strings.Contains (http.Get (http.reqHeader r) Part001.headerAcceptEncoding)
       Part001.encodingGzip = true ->
     http.Get (http.reqHeader r) Part001.headerSecWebSocketKey = "" ->
     Part001.ServeHTTP h w r next = Part001.Decorated g ->
     Part001.grw_status g = Part001.COMPRESSION_ENABLED ->
     exists gz,
       compress_gzip.NewWriterLevel (Part001.compressionLevel h) = inl gz /\
       (http.takesBody (Part001.sink g) = true ->
        exists z,
          http.Body (Part001.sink g) = http.Body w ++ z /\
          compress_gzip.gunzip z
            = Some (http.written (next r) (Part001.newGrw h gz w r))) /\
       (http.takesBody (Part001.sink g) = false ->
        http.Body (Part001.sink g)
          = http.Body w ++ compress_gzip.gzip_header (Part001.compressionLevel h)))
  /\
  (forall (h : GzipGo.handler) w r next g,
     strings.Contains (http.Get (http.reqHeader r) GzipGo.headerAcceptEncoding)
       GzipGo.encodingGzip = true ->
     http.Get (http.reqHeader r) GzipGo.headerSecWebSocketKey = "" ->
     GzipGo.ServeHTTP h w r next = GzipGo.Decorated g ->
     GzipGo.grw_status g = GzipGo.COMPRESSION_ENABLED ->
     exists gz,
       compress_gzip.NewWriterLevel (GzipGo.compressionLevel h) = inl gz /\
       (http.takesBody (GzipGo.sink g) = true ->
        exists z,
          http.Body (GzipGo.sink g) = http.Body w ++ z /\
          compress_gzip.gunzip z
            = Some (http.written (next r) (GzipGo.newGrw h gz w r))) /\
       (http.takesBody (GzipGo.sink g) = false ->
        http.Body (GzipGo.sink g)
          = http.Body w ++ compress_gzip.gzip_header (GzipGo.compressionLevel h)))
  /\
  (forall (h1 : Part001.handler) (h2 : GzipGo.handler) w r next,
     strings.Contains (http.Get (http.reqHeader r) Part001.headerAcceptEncoding)
       Part001.encodingGzip = false ->
     Part001.ServeHTTP h1 w r next = Part001.Direct (http.exec (next r) w) /\
     GzipGo.ServeHTTP h2 w r next = GzipGo.Direct (http.exec (next r) w) /\
     http.Body (http.exec (next r) w) = http.Body w ++ http.written (next r) w).
Proof.
  split_and!.
  - intros h w r next g _ _. rewrite P1Facts.p1_ServeHTTP_cases.
    destruct (_ || _); [done|].
    destruct (compress_gzip.NewWriterLevel _) as [gz|] eqn:En; [|done].
    intros [= <-] Est. rewrite P1Facts.p1_deferred_status in Est.
    rewrite P1Facts.p1_deferred_takesBody.
    destruct (GzipFacts.Streaming_new _ _ [] En) as (Hvalid & Hc & _).
    pose proof (P1Facts.p1_BodyOK_exec _ _ (next r) _ _
                  (P1Facts.p1_BodyOK_new h _ gz w r En)) as HB.
    pose proof (P1Facts.p1_LogOK_exec (next r) _
                  (P1Facts.p1_LogOK_new h gz w r Hc)) as (_ & _ & _ & _ & _ & Hcl).
    exists gz. split_and!; [done| |].
    + intros Ht.
      destruct (P1Facts.p1_deferred_Body _ _ _ _ HB Hcl Est Ht)
        as (chunks & Hcat & Hbody).
      exists (compress_gzip.gzip_stream (Part001.compressionLevel h) chunks).
      split; [done|]. by rewrite sound, Hcat.
    + intros Ht.
      by destruct (P1Facts.p1_deferred_refused _ _ _ _ HB Hcl Est Ht) as [? _].
  - intros h w r next g _ _. rewrite GGFacts.gg_ServeHTTP_cases.
    destruct (_ || _); [done|].
    destruct (compress_gzip.NewWriterLevel _) as [gz|] eqn:En; [|done].
    intros [= <-] Est. rewrite GGFacts.gg_deferred_status in Est.
    rewrite GGFacts.gg_deferred_takesBody.
    destruct (GzipFacts.Streaming_new _ _ [] En) as (Hvalid & Hc & _).
    pose proof (GGFacts.gg_BodyOK_exec _ _ (next r) _ _
                  (GGFacts.gg_BodyOK_new h _ gz w r En)) as HB.
    pose proof (GGFacts.gg_LogOK_exec (next r) _
                  (GGFacts.gg_LogOK_new h gz w r Hc)) as (_ & _ & _ & _ & _ & Hcl).
    exists gz. split_and!; [done| |].
    + intros Ht.
      destruct (GGFacts.gg_deferred_Body _ _ _ _ HB Hcl Est Ht)
        as (chunks & Hcat & Hbody).
      exists (compress_gzip.gzip_stream (GzipGo.compressionLevel h) chunks).
      split; [done|]. by rewrite sound, Hcat.
    + intros Ht.
      by destruct (GGFacts.gg_deferred_refused _ _ _ _ HB Hcl Est Ht) as [? _].
  - intros h1 h2 w r next Hacc. split_and!.
    + rewrite P1Facts.p1_ServeHTTP_cases. unfold P1View.accepts. by rewrite Hacc.
    + rewrite GGFacts.gg_ServeHTTP_cases. unfold GGView.accepts.
      change GzipGo.headerAcceptEncoding with Part001.headerAcceptEncoding.
      change GzipGo.encodingGzip with Part001.encodingGzip. by rewrite Hacc.
    + apply HttpFacts.sink_exec_Body.
Qed.

(** C4 (as amended). While the downstream handler runs the codec writer
    is never closed; when it has returned, [Close] is called once if the
    status is enabled and not at all if it is disabled or still undecided:
    the deferred function then leaves the writer and the sink as they are.
    When the status that was committed allows a body, the call finalizes
    the writer and the sink gets the rest of the stream, which ends with
    the compressor's last output and the trailer over the bytes the handler
    wrote, so that the sink holds one whole gzip stream. Under a status that
    allows none the call emits no trailer: the gzip header is all the sink
    has got, the writer keeps the error, and it is marked closed only if
    the header was still owed when [Close] was called. A cycle that was not
    decorated has no codec writer. Both revisions. *)
Theorem C4_close_once_iff_enabled
  `{SN : http.ContentSniffer} `{CD : compress_gzip.Codec} :
  (forall (h : Part001.handler) gz w r (next : http.HandlerFunc),
     compress_gzip.NewWriterLevel (Part001.compressionLevel h) = inl gz ->
     let g := http.exec (next r) (Part001.newGrw h gz w r) in
     let g' := Part001.deferred g in
     let data := http.written (next r) (Part001.newGrw h gz w r) in
     let lvl := Part001.compressionLevel h in
     let enabled :=
       Part001.status_eqb (Part001.grw_status g) Part001.COMPRESSION_ENABLED in
     occurrences CodecClosed (Part001.grw_log g) = 0%nat /\
     compress_gzip.closed (Part001.grw_w g) = false /\
     occurrences CodecClosed (Part001.grw_log g')
       = (if enabled then 1%nat else 0%nat) /\
     Part001.grw_status g' = Part001.grw_status g /\
     (enabled = false -> g' = g) /\
     (enabled = true -> http.takesBody (Part001.sink g) = true ->
      compress_gzip.closed (Part001.grw_w g') = true /\
      compress_gzip.err (Part001.grw_w g') = None /\
      exists chunks c out front,
        concat chunks = data /\
        compress_gzip.flate_writes (compress_gzip.flate_NewWriter lvl) chunks
          = (c, out) /\
        http.Body (Part001.sink g')
          = http.Body w ++ compress_gzip.gzip_stream lvl chunks /\
        http.Body (Part001.sink g')
          = http.Body (Part001.sink g) ++ front
            ++ compress_gzip.flate_Close c ++ compress_gzip.gzip_trailer data) /\
     (enabled = true -> http.takesBody (Part001.sink g) = false ->
      http.Body (Part001.sink g')
        = http.Body w ++ compress_gzip.gzip_header lvl /\
      compress_gzip.err (Part001.grw_w g') <> None /\
      compress_gzip.closed (Part001.grw_w g')
        = negb (compress_gzip.wroteHeader (Part001.grw_w g))))
  /\
  (forall (h : GzipGo.handler) gz w r (next : http.HandlerFunc),
     compress_gzip.NewWriterLevel (GzipGo.compressionLevel h) = inl gz ->
     let g := http.exec (next r) (GzipGo.newGrw h gz w r) in
     let g' := GzipGo.deferred g in
     let data := http.written (next r) (GzipGo.newGrw h gz w r) in
     let lvl := GzipGo.compressionLevel h in
     let enabled :=
       GzipGo.status_eqb (GzipGo.grw_status g) GzipGo.COMPRESSION_ENABLED in
     occurrences CodecClosed (GzipGo.grw_log g) = 0%nat /\
     compress_gzip.closed (GzipGo.grw_w g) = false /\
     occurrences CodecClosed (GzipGo.grw_log g')
       = (if enabled then 1%nat else 0%nat) /\
     GzipGo.grw_status g' = GzipGo.grw_status g /\
     (enabled = false -> g' = g) /\
     (enabled = true -> http.takesBody (GzipGo.sink g) = true ->
      compress_gzip.closed (GzipGo.grw_w g') = true /\
      compress_gzip.err (GzipGo.grw_w g') = None /\
      exists chunks c out front,
        concat chunks = data /\
        compress_gzip.flate_writes (compress_gzip.flate_NewWriter lvl) chunks
          = (c, out) /\
        http.Body (GzipGo.sink g')
          = http.Body w ++ compress_gzip.gzip_stream lvl chunks /\
        http.Body (GzipGo.sink g')
          = http.Body (GzipGo.sink g) ++ front
            ++ compress_gzip.flate_Close c ++ compress_gzip.gzip_trailer data) /\
     (enabled = true -> http.takesBody (GzipGo.sink g) = false ->
      http.Body (GzipGo.sink g')
        = http.Body w ++ compress_gzip.gzip_header lvl /\
      compress_gzip.err (GzipGo.grw_w g') <> None /\
      compress_gzip.closed (GzipGo.grw_w g')
        = negb (compress_gzip.wroteHeader (GzipGo.grw_w g))))
  /\
  (forall (h1 : Part001.handler) (h2 : GzipGo.handler) w r next,
     (forall g, Part001.ServeHTTP h1 w r next = Part001.Decorated g ->
        exists gz,
          compress_gzip.NewWriterLevel (Part001.compressionLevel h1) = inl gz /\
          g = Part001.deferred (http.exec (next r) (Part001.newGrw h1 gz w r))) /\
     (forall g, GzipGo.ServeHTTP h2 w r next = GzipGo.Decorated g ->
        exists gz,
          compress_gzip.NewWriterLevel (GzipGo.compressionLevel h2) = inl gz /\
          g = GzipGo.deferred (http.exec (next r) (GzipGo.newGrw h2 gz w r)))).
Proof.
  split_and!.
  - intros h gz w r next En g g' data lvl enabled.
    destruct (GzipFacts.Streaming_new _ _ [] En) as (_ & Hc & _).
    pose proof (P1Facts.p1_LogOK_exec (next r) _
                  (P1Facts.p1_LogOK_new h gz w r Hc))
      as (_ & _ & _ & _ & H5 & H6).
    pose proof (P1Facts.p1_BodyOK_exec _ _ (next r) _ _
                  (P1Facts.p1_BodyOK_new h _ gz w r En)) as HB.
    fold g in H5, H6, HB. cbn [app] in HB. fold data lvl in HB.
    split_and!; try done.
    + subst g'. rewrite P1Facts.p1_deferred_log, LogFacts.occurrences_app, H5.
      subst enabled. by destruct (Part001.status_eqb _ _).
    + apply P1Facts.p1_deferred_status.
    + intros He. apply P1Facts.p1_deferred_idle. intros E.
      subst enabled. by rewrite E in He.
    + intros He Ht. apply P1Facts.p1_status_eqb_eq in He.
      destruct (P1Facts.p1_deferred_stream _ _ _ _ HB H6 He Ht)
        as (chunks & c & out & front & H1 & H2 & H3 & H4 & H7 & H8).
      split_and!; [done|done|]. by exists chunks, c, out, front.
    + intros He Ht. apply P1Facts.p1_status_eqb_eq in He.
      exact (P1Facts.p1_deferred_refused _ _ _ _ HB H6 He Ht).
  - intros h gz w r next En g g' data lvl enabled.
    destruct (GzipFacts.Streaming_new _ _ [] En) as (_ & Hc & _).
    pose proof (GGFacts.gg_LogOK_exec (next r) _
                  (GGFacts.gg_LogOK_new h gz w r Hc))
      as (_ & _ & _ & _ & H5 & H6).
    pose proof (GGFacts.gg_BodyOK_exec _ _ (next r) _ _
                  (GGFacts.gg_BodyOK_new h _ gz w r En)) as HB.
    fold g in H5, H6, HB. cbn [app] in HB. fold data lvl in HB.
    split_and!; try done.
    + subst g'. rewrite GGFacts.gg_deferred_log, LogFacts.occurrences_app, H5.
      subst enabled. by destruct (GzipGo.status_eqb _ _).
    + apply GGFacts.gg_deferred_status.
    + intros He. apply GGFacts.gg_deferred_idle. intros E.
      subst enabled. by rewrite E in He.
    + intros He Ht. apply GGFacts.gg_status_eqb_eq in He.
      destruct (GGFacts.gg_deferred_stream _ _ _ _ HB H6 He Ht)
        as (chunks & c & out & front & H1 & H2 & H3 & H4 & H7 & H8).
      split_and!; [done|done|]. by exists chunks, c, out, front.
    + intros He Ht. apply GGFacts.gg_status_eqb_eq in He.
      exact (GGFacts.gg_deferred_refused _ _ _ _ HB H6 He Ht).
  - intros h1 h2 w r next. split.
    + intros g. rewrite P1Facts.p1_ServeHTTP_cases.
      destruct (_ || _); [done|].
      destruct (compress_gzip.NewWriterLevel _) as [gz|]; [|done].
      intros [= <-]. by exists gz.
    + intros g. rewrite GGFacts.gg_ServeHTTP_cases.
      destruct (_ || _); [done|].
      destruct (compress_gzip.NewWriterLevel _) as [gz|]; [|done].
      intros [= <-]. by exists gz.
Qed.

(** C5. When the request's Accept-Encoding does not contain gzip, or the
    request carries a Sec-WebSocket-Key, or the response's Content-Encoding
    is already gzip, [ServeHTTP] is the next handler run on the response
    sink itself: nothing decorates it, no header is changed by the
    middleware, and the body grows by exactly the bytes the handler writes.
    Both revisions. *)
Theorem C5_ineligible_requests_pass_through
  `{SN : http.ContentSniffer} `{CD : compress_gzip.Codec}
  (h1 : Part001.handler) (h2 : GzipGo.handler)
  (w : http.Sink) (r : http.Request) (next : http.HandlerFunc) :
  strings.Contains (http.Get (http.reqHeader r) Part001.headerAcceptEncoding)
    Part001.encodingGzip = false \/
  http.Get (http.reqHeader r) Part001.headerSecWebSocketKey <> "" \/
  http.Get (http.HeaderMap w) Part001.headerContentEncoding = Part001.encodingGzip ->
  Part001.ServeHTTP h1 w r next = Part001.Direct (http.exec (next r) w) /\
  GzipGo.ServeHTTP h2 w r next = GzipGo.Direct (http.exec (next r) w) /\
  http.Body (http.exec (next r) w) = http.Body w ++ http.written (next r) w.
Proof.
  intros Hin.
  assert (negb (P1View.accepts r) || P1View.upgrades r || P1View.encoded w = true)
    as Hcond.
  { unfold P1View.accepts, P1View.upgrades, P1View.encoded.
    destruct Hin as [Ha|[Hu|He]].
    - by rewrite Ha.
    - apply HttpFacts.length_pos in Hu. rewrite Hu. by rewrite orb_true_r.
    - apply String.eqb_eq in He. rewrite He. by rewrite orb_true_r. }
  split_and!.
  - by rewrite P1Facts.p1_ServeHTTP_cases, Hcond.
  - rewrite GGFacts.gg_ServeHTTP_cases.
    change (negb (GGView.accepts r) || GGView.upgrades r || GGView.encoded w)
      with (negb (P1View.accepts r) || P1View.upgrades r || P1View.encoded w).
    by rewrite Hcond.
  - apply HttpFacts.sink_exec_Body.
Qed.

(** C6. A handler made with a compression level outside the codec's range
    is made without complaint; at each request the construction of the
    codec writer fails and [ServeHTTP] is the next handler run on the
    response sink itself, whose body grows by exactly the bytes the handler
    writes. Both revisions. *)
Theorem C6_invalid_level_falls_back
  `{SN : http.ContentSniffer} `{CD : compress_gzip.Codec}
  (level : Z) (fn1 : option Part001.AllowCompressionFunc)
  (fn2 : option GzipGo.AllowCompressionFunc)
  (w : http.Sink) (r : http.Request) (next : http.HandlerFunc) :
  level < compress_gzip.HuffmanOnly \/ compress_gzip.BestCompression < level ->
  compress_gzip.NewWriterLevel level = inr (compress_gzip.InvalidLevel level) /\
  Part001.ServeHTTP (Part001.New level fn1) w r next
    = Part001.Direct (http.exec (next r) w) /\
  GzipGo.ServeHTTP (GzipGo.New level fn2) w r next
    = GzipGo.Direct (http.exec (next r) w) /\
  http.Body (http.exec (next r) w) = http.Body w ++ http.written (next r) w.
Proof.
  intros Hbad.
  assert (compress_gzip.NewWriterLevel level
          = inr (compress_gzip.InvalidLevel level)) as En.
  { apply GzipFacts.NewWriterLevel_invalid. unfold compress_gzip.validLevel.
    destruct Hbad as [Hlo|Hhi].
    - apply Z.ltb_lt in Hlo. by rewrite Hlo.
    - apply Z.ltb_lt in Hhi. rewrite Hhi. by rewrite orb_true_r. }
  split_and!; [done| | |].
  - rewrite P1Facts.p1_ServeHTTP_cases. cbn [Part001.New Part001.compressionLevel].
    rewrite En. by destruct (_ || _).
  - rewrite GGFacts.gg_ServeHTTP_cases. cbn [GzipGo.New GzipGo.compressionLevel].
    rewrite En. by destruct (_ || _).
  - apply HttpFacts.sink_exec_Body.
Qed.

(** C7 (as amended). The transition is taken at most once. In part_001,
    after a header commit or a write, a following write or header commit
    leaves the status, the header map and the log of the middleware's
    actions as they are: no second call of the predicate, no second round
    of header mutations. In gzip/gzip.go a header commit is no invocation
    of the transition: it leaves the status, the header map and the log as
    they are, and the write that follows it decides exactly as it would
    have without the commit (so it does change the status and the headers
    when it is the first write). There a second [compressContent] changes
    nothing and answers the same, and a second write leaves the status
    alone, calls no predicate and mutates no compression header (and no
    header at all when the sniffer named a type at the first write). Over a
    whole cycle, in both revisions, the predicate is called at most once
    and each compression header is mutated at most once. *)
Theorem C7_transition_taken_at_most_once
  `{SN : http.ContentSniffer} `{CD : compress_gzip.Codec} :
  (forall (g : Part001.gzipResponseWriter) code b,
     let g1 := Part001.WriteHeader code g in
     let g2 := Part001.Write b g1 in
     Part001.grw_status g2 = Part001.grw_status g1 /\
     Part001.Header g2 = Part001.Header g1 /\
     Part001.grw_log g2 = Part001.grw_log g1)
  /\
  (forall (g : Part001.gzipResponseWriter) b1 b2,
     let g1 := Part001.Write b1 g in
     let g2 := Part001.Write b2 g1 in
     Part001.grw_status g2 = Part001.grw_status g1 /\
     Part001.Header g2 = Part001.Header g1 /\
     Part001.grw_log g2 = Part001.grw_log g1)
  /\
  (forall (g : Part001.gzipResponseWriter) code1 code2,
     let g1 := Part001.WriteHeader code1 g in
     let g2 := Part001.WriteHeader code2 g1 in
     Part001.grw_status g2 = Part001.grw_status g1 /\
     Part001.Header g2 = Part001.Header g1 /\
     Part001.grw_log g2 = Part001.grw_log g1)
  /\
  (forall (h : Part001.handler) w r next g,
     Part001.ServeHTTP h w r next = Part001.Decorated g ->
     (occurrences PredicateCalled (Part001.grw_log g) <= 1)%nat /\
     (occurrences (HeaderChanged (http.HDel Part001.headerContentLength))
        (Part001.grw_log g) <= 1)%nat /\
     (occurrences (HeaderChanged
          (http.HSet Part001.headerContentEncoding Part001.encodingGzip))
        (Part001.grw_log g) <= 1)%nat /\
     (occurrences (HeaderChanged
          (http.HSet Part001.headerVary Part001.headerAcceptEncoding))
        (Part001.grw_log g) <= 1)%nat)
  /\
  (forall (g : GzipGo.gzipResponseWriter) code b,
     let g1 := GzipGo.WriteHeader code g in
     let g2 := GzipGo.Write b g1 in
     (GzipGo.grw_status g1 = GzipGo.grw_status g /\
      GzipGo.Header g1 = GzipGo.Header g /\
      GzipGo.grw_log g1 = GzipGo.grw_log g) /\
     (GzipGo.grw_status g2 = GzipGo.grw_status (GzipGo.Write b g) /\
      GzipGo.Header g2 = GzipGo.Header (GzipGo.Write b g) /\
      GzipGo.grw_log g2 = GzipGo.grw_log (GzipGo.Write b g)) /\
     (GzipGo.grw_status g = GzipGo.COMPRESSION_UNDEFINED ->
      GzipGo.grw_status g2 <> GzipGo.grw_status g1))
  /\
  (forall (g : GzipGo.gzipResponseWriter),
     GzipGo.compressContent (GzipGo.compressContent g).1
     = GzipGo.compressContent g)
  /\
  (forall (g : GzipGo.gzipResponseWriter) b1 b2,
     let g1 := GzipGo.Write b1 g in
     let g2 := GzipGo.Write b2 g1 in
     GzipGo.grw_status g2 = GzipGo.grw_status g1 /\
     occurrences PredicateCalled (GzipGo.grw_log g2)
       = occurrences PredicateCalled (GzipGo.grw_log g1) /\
     occurrences (HeaderChanged
         (http.HSet GzipGo.headerContentEncoding GzipGo.encodingGzip))
       (GzipGo.grw_log g2)
       = occurrences (HeaderChanged
           (http.HSet GzipGo.headerContentEncoding GzipGo.encodingGzip))
         (GzipGo.grw_log g1) /\
     occurrences (HeaderChanged
         (http.HSet GzipGo.headerVary GzipGo.headerAcceptEncoding))
       (GzipGo.grw_log g2)
       = occurrences (HeaderChanged
           (http.HSet GzipGo.headerVary GzipGo.headerAcceptEncoding))
         (GzipGo.grw_log g1) /\
     (http.DetectContentType b1 <> "" ->
      GzipGo.Header g2 = GzipGo.Header g1 /\
      GzipGo.grw_log g2 = GzipGo.grw_log g1))
  /\
  (forall (h : GzipGo.handler) w r next g,
     GzipGo.ServeHTTP h w r next = GzipGo.Decorated g ->
     (occurrences PredicateCalled (GzipGo.grw_log g) <= 1)%nat /\
     (occurrences (HeaderChanged (http.HDel GzipGo.headerContentLength))
        (GzipGo.grw_log g) <= 1)%nat /\
     (occurrences (HeaderChanged
          (http.HSet GzipGo.headerContentEncoding GzipGo.encodingGzip))
        (GzipGo.grw_log g) <= 1)%nat /\
     (occurrences (HeaderChanged
          (http.HSet GzipGo.headerVary GzipGo.headerAcceptEncoding))
        (GzipGo.grw_log g) <= 1)%nat).
Proof.
  split_and!.
  - intros g code b g1 g2. apply P1Facts.p1_Write_inert.
    apply P1Facts.p1_WriteHeader_status_not_check.
  - intros g b1 b2 g1 g2. apply P1Facts.p1_Write_inert.
    apply P1Facts.p1_Write_status_not_check.
  - intros g code1 code2 g1 g2. apply P1Facts.p1_WriteHeader_inert.
    apply P1Facts.p1_WriteHeader_status_not_check.
  - intros h w r next g. rewrite P1Facts.p1_ServeHTTP_cases.
    destruct (_ || _); [done|].
    destruct (compress_gzip.NewWriterLevel _) as [gz|] eqn:En; [|done].
    intros [= <-]. rewrite P1Facts.p1_deferred_log.
    destruct (GzipFacts.Streaming_new _ _ [] En) as (_ & Hc & _).
    pose proof (P1Facts.p1_LogOK_exec (next r) _
                  (P1Facts.p1_LogOK_new h gz w r Hc)) as (H1 & H2 & H3 & H4 & _).
    rewrite !LogFacts.occurrences_app, H1, H2, H3, H4. unfold Inv.count.
    destruct (Part001.grw_status _), (Inv.isSome _); cbn; decide_events; lia.
  - intros g code b g1 g2.
    destruct (GGFacts.gg_control_eq _ _ (GGFacts.gg_WriteHeader_control code g))
      as (E1 & E2 & E3).
    destruct (GGFacts.gg_control_eq _ _
                (GGFacts.gg_Write_after_WriteHeader code b g)) as (F1 & F2 & F3).
    split_and!; try done.
    intros E. subst g1 g2. rewrite E1, F1, E.
    by apply GGFacts.gg_Write_status_undefined.
  - apply GGFacts.gg_compressContent_idempotent.
  - intros g b1 b2 g1 g2.
    pose proof (GGFacts.gg_Write_status_decided_after b1 g) as Hd. fold g1 in Hd.
    destruct (GGFacts.gg_Write_decided_view b2 g1 Hd) as (Hs & Hh & Hl).
    fold g2 in Hs, Hh, Hl. rewrite Hl, Hh.
    rewrite !GGFacts.gg_sniffed_log_counts by done.
    split_and!; try done.
    intros Hct. rewrite GGFacts.gg_sniffed_present; [done|].
    by apply GGFacts.gg_Write_ContentType.
  - intros h w r next g. rewrite GGFacts.gg_ServeHTTP_cases.
    destruct (_ || _); [done|].
    destruct (compress_gzip.NewWriterLevel _) as [gz|] eqn:En; [|done].
    intros [= <-]. rewrite GGFacts.gg_deferred_log.
    destruct (GzipFacts.Streaming_new _ _ [] En) as (_ & Hc & _).
    pose proof (GGFacts.gg_LogOK_exec (next r) _
                  (GGFacts.gg_LogOK_new h gz w r Hc)) as (H1 & H2 & H3 & H4 & _).
    rewrite !LogFacts.occurrences_app, H1, H2, H3, H4. unfold Inv.count.
    destruct (GzipGo.grw_status _), (Inv.isSome _); cbn; decide_events; lia.
Qed.

(** C8. A write that finds the state undecided and no Content-Type sets
    the Content-Type to what the sniffer detects in the chunk being written
    (the uncompressed bytes), then takes the transition, whether or not a
    header commit was ever made: the predicate sees the headers with the
    sniffed type in them, the compression headers are mutated after it, and
    the sniffed type is still there when the write returns. Both
    revisions. *)
Theorem C8_first_write_sniffs_then_decides
  `{SN : http.ContentSniffer} `{CD : compress_gzip.Codec} :
  (forall (g : Part001.gzipResponseWriter) b,
     Part001.grw_status g = Part001.COMPRESSION_CHECK ->
     http.Get (Part001.Header g) Part001.headerContentType = "" ->
     let ct := http.DetectContentType b in
     let h' := http.Set_ (Part001.Header g) Part001.headerContentType ct in
     let permitted :=
       match Part001.grw_allowCompression g with
       | None => true
       | Some fn => fn h' (Part001.grw_r g)
       end in
     let g' := Part001.Write b g in
     http.Get (Part001.Header g') Part001.headerContentType = ct /\
     Part001.grw_status g' =
       (if permitted then Part001.COMPRESSION_ENABLED
        else Part001.COMPRESSION_DISABLED) /\
     Part001.Header g' =
       (if permitted
        then http.Set_
               (http.Set_ (http.Del h' Part001.headerContentLength)
                  Part001.headerContentEncoding Part001.encodingGzip)
               Part001.headerVary Part001.headerAcceptEncoding
        else h') /\
     Part001.grw_log g' =
       Part001.grw_log g
       ++ [HeaderChanged (http.HSet Part001.headerContentType ct)]
       ++ (if Inv.isSome (Part001.grw_allowCompression g)
           then [PredicateCalled] else [])
       ++ (if permitted
           then [HeaderChanged (http.HDel Part001.headerContentLength);
                 HeaderChanged
                   (http.HSet Part001.headerContentEncoding Part001.encodingGzip);
                 HeaderChanged
                   (http.HSet Part001.headerVary Part001.headerAcceptEncoding)]
           else []))
  /\
  (forall (g : GzipGo.gzipResponseWriter) b,
     GzipGo.grw_status g = GzipGo.COMPRESSION_UNDEFINED ->
     http.Get (GzipGo.Header g) GzipGo.headerContentType = "" ->
     let ct := http.DetectContentType b in
     let h' := http.Set_ (GzipGo.Header g) GzipGo.headerContentType ct in
     let permitted :=
       match GzipGo.grw_allowCompression g with
       | None => true
       | Some fn => fn h' (GzipGo.grw_r g)
       end in
     let g' := GzipGo.Write b g in
     http.Get (GzipGo.Header g') GzipGo.headerContentType = ct /\
     GzipGo.grw_status g' =
       (if permitted then GzipGo.COMPRESSION_ENABLED
        else GzipGo.COMPRESSION_DISABLED) /\
     GzipGo.Header g' =
       (if permitted
        then http.Set_
               (http.Set_ h'
                  GzipGo.headerContentEncoding GzipGo.encodingGzip)
               GzipGo.headerVary GzipGo.headerAcceptEncoding
        else h') /\
     GzipGo.grw_log g' =
       GzipGo.grw_log g
       ++ [HeaderChanged (http.HSet GzipGo.headerContentType ct)]
       ++ (if Inv.isSome (GzipGo.grw_allowCompression g)
           then [PredicateCalled] else [])
       ++ (if permitted
           then [HeaderChanged
                   (http.HSet GzipGo.headerContentEncoding GzipGo.encodingGzip);
                 HeaderChanged
                   (http.HSet GzipGo.headerVary GzipGo.headerAcceptEncoding)]
           else [])).
Proof.
  split.
  - intros g b E Hct ct h' permitted g'. subst g'.
    set (g1 := Part001.headers (http.HSet Part001.headerContentType ct) g).
    assert (Part001.grw_status g1 = Part001.COMPRESSION_CHECK) as E1 by done.
    assert ((Part001.allowed g1).1 = permitted) as Hp
      by exact (P1Facts.p1_allowed_headers _ g).
    rewrite P1Facts.p1_Write_check by done.
    rewrite P1Facts.p1_forward_status, P1Facts.p1_forward_Header,
      P1Facts.p1_forward_log.
    rewrite P1Facts.p1_sniffed_empty by done. fold ct g1.
    rewrite P1Facts.p1_WriteHeader_status_check,
      P1Facts.p1_WriteHeader_Header_check,
      P1Facts.p1_WriteHeader_log_check by done.
    rewrite Hp. change (Part001.Header g1) with h'.
    change (Part001.grw_log g1)
      with (Part001.grw_log g
            ++ [HeaderChanged (http.HSet Part001.headerContentType ct)]).
    change (Part001.grw_allowCompression g1)
      with (Part001.grw_allowCompression g).
    split_and!.
    + destruct permitted.
      * rewrite P1Facts.p1_gzipHeaders_ContentType. apply HttpFacts.Get_Set_same.
      * apply HttpFacts.Get_Set_same.
    + done.
    + done.
    + rewrite <- app_assoc.
      by destruct (Part001.grw_allowCompression g).
  - intros g b E Hct ct h' permitted g'. subst g'.
    set (g1 := GzipGo.headers (http.HSet GzipGo.headerContentType ct) g).
    assert (GzipGo.grw_status g1 = GzipGo.COMPRESSION_UNDEFINED) as E1 by done.
    assert ((GzipGo.allowed g1).1 = permitted) as Hp
      by exact (GGFacts.gg_allowed_headers _ g).
    rewrite GGFacts.gg_Write_view.
    rewrite GGFacts.gg_forward_status, GGFacts.gg_forward_Header,
      GGFacts.gg_forward_log.
    rewrite GGFacts.gg_sniffed_empty by done. fold ct g1.
    rewrite GGFacts.gg_compressContent_status,
      GGFacts.gg_compressContent_Header,
      GGFacts.gg_compressContent_log by done.
    rewrite Hp. change (GzipGo.Header g1) with h'.
    change (GzipGo.grw_log g1)
      with (GzipGo.grw_log g
            ++ [HeaderChanged (http.HSet GzipGo.headerContentType ct)]).
    change (GzipGo.grw_allowCompression g1)
      with (GzipGo.grw_allowCompression g).
    split_and!.
    + destruct permitted.
      * rewrite GGFacts.gg_gzipHeaders_ContentType. apply HttpFacts.Get_Set_same.
      * apply HttpFacts.Get_Set_same.
    + done.
    + done.
    + rewrite <- app_assoc.
      by destruct (GzipGo.grw_allowCompression g).
Qed.

(** C9. When the transition enables compression, the Vary header is
    [Set], not added to: whatever values downstream code had put under
    Vary, the header's values are then exactly Accept-Encoding. This holds
    for the transition itself and for the write that takes it. Both
    revisions. *)
Theorem C9_vary_is_replaced
  `{SN : http.ContentSniffer} `{CD : compress_gzip.Codec} :
  (forall (g : Part001.gzipResponseWriter) code,
     Part001.grw_status g = Part001.COMPRESSION_CHECK ->
     (Part001.allowed g).1 = true ->
     http.Values (Part001.Header (Part001.WriteHeader code g)) Part001.headerVary
     = [Part001.headerAcceptEncoding])
  /\
  (forall (g : Part001.gzipResponseWriter) b,
     Part001.grw_status g = Part001.COMPRESSION_CHECK ->
     Part001.grw_status (Part001.Write b g) = Part001.COMPRESSION_ENABLED ->
     http.Values (Part001.Header (Part001.Write b g)) Part001.headerVary
     = [Part001.headerAcceptEncoding])
  /\
  (forall (g : GzipGo.gzipResponseWriter),
     GzipGo.grw_status g = GzipGo.COMPRESSION_UNDEFINED ->
     (GzipGo.allowed g).1 = true ->
     http.Values (GzipGo.Header (GzipGo.compressContent g).1) GzipGo.headerVary
     = [GzipGo.headerAcceptEncoding])
  /\
  (forall (g : GzipGo.gzipResponseWriter) b,
     GzipGo.grw_status g = GzipGo.COMPRESSION_UNDEFINED ->
     GzipGo.grw_status (GzipGo.Write b g) = GzipGo.COMPRESSION_ENABLED ->
     http.Values (GzipGo.Header (GzipGo.Write b g)) GzipGo.headerVary
     = [GzipGo.headerAcceptEncoding]).
Proof.
  split_and!.
  - intros g code E Hp.
    rewrite P1Facts.p1_WriteHeader_Header_check, Hp by done.
    apply P1Facts.p1_gzipHeaders_Vary.
  - intros g b E He. rewrite P1Facts.p1_Write_enables by done.
    apply P1Facts.p1_gzipHeaders_Vary.
  - intros g E Hp.
    rewrite GGFacts.gg_compressContent_Header, Hp by done.
    apply GGFacts.gg_gzipHeaders_Vary.
  - intros g b E He. rewrite GGFacts.gg_Write_enables by done.
    apply GGFacts.gg_gzipHeaders_Vary.
Qed.

(** C10. For a request that accepts gzip and carries no Sec-WebSocket-Key,
    and a valid level: [ServeHTTP] skips when the first value of the
    response's Content-Encoding is exactly gzip, and with any other value
    it decorates the writer. Then, with no predicate, a handler that writes
    ends the cycle enabled: the sink, unless it is committed to a status
    that allows no body, holds a gzip stream of what was written (already
    encoded or not) and the Content-Encoding has become gzip. Both
    revisions. *)
Theorem C10_skip_only_on_exactly_gzip
  `{SN : http.ContentSniffer} `{CD : compress_gzip.Codec} :
  (forall (h : Part001.handler) gz w r next,
     strings.Contains (http.Get (http.reqHeader r) Part001.headerAcceptEncoding)
       Part001.encodingGzip = true ->
     http.Get (http.reqHeader r) Part001.headerSecWebSocketKey = "" ->
     compress_gzip.NewWriterLevel (Part001.compressionLevel h) = inl gz ->
     (http.Get (http.HeaderMap w) Part001.headerContentEncoding
        = Part001.encodingGzip ->
      Part001.ServeHTTP h w r next = Part001.Direct (http.exec (next r) w)) /\
     (http.Get (http.HeaderMap w) Part001.headerContentEncoding
        <> Part001.encodingGzip ->
      Part001.ServeHTTP h w r next =
        Part001.Decorated
          (Part001.deferred (http.exec (next r) (Part001.newGrw h gz w r)))))
  /\
  (forall (h : Part001.handler) gz w r b,
     strings.Contains (http.Get (http.reqHeader r) Part001.headerAcceptEncoding)
       Part001.encodingGzip = true ->
     http.Get (http.reqHeader r) Part001.headerSecWebSocketKey = "" ->
     compress_gzip.NewWriterLevel (Part001.compressionLevel h) = inl gz ->
     Part001.allowCompression h = None ->
     http.Get (http.HeaderMap w) Part001.headerContentEncoding
       <> Part001.encodingGzip ->
     http.takesBody w = true ->
     exists g chunks,
       Part001.ServeHTTP h w r (fun _ => http.CallWrite b http.Return)
         = Part001.Decorated g /\
       Part001.grw_status g = Part001.COMPRESSION_ENABLED /\
       http.Get (Part001.Header g) Part001.headerContentEncoding
         = Part001.encodingGzip /\
       concat chunks = b /\
       http.Body (Part001.sink g)
         = http.Body w
           ++ compress_gzip.gzip_stream (Part001.compressionLevel h) chunks)
  /\
  (forall (h : GzipGo.handler) gz w r next,
     strings.Contains (http.Get (http.reqHeader r) GzipGo.headerAcceptEncoding)
       GzipGo.encodingGzip = true ->
     http.Get (http.reqHeader r) GzipGo.headerSecWebSocketKey = "" ->
     compress_gzip.NewWriterLevel (GzipGo.compressionLevel h) = inl gz ->
     (http.Get (http.HeaderMap w) GzipGo.headerContentEncoding
        = GzipGo.encodingGzip ->
      GzipGo.ServeHTTP h w r next = GzipGo.Direct (http.exec (next r) w)) /\
     (http.Get (http.HeaderMap w) GzipGo.headerContentEncoding
        <> GzipGo.encodingGzip ->
      GzipGo.ServeHTTP h w r next =
        GzipGo.Decorated
          (GzipGo.deferred (http.exec (next r) (GzipGo.newGrw h gz w r)))))
  /\
  (forall (h : GzipGo.handler) gz w r b,
     strings.Contains (http.Get (http.reqHeader r) GzipGo.headerAcceptEncoding)
       GzipGo.encodingGzip = true ->
     http.Get (http.reqHeader r) GzipGo.headerSecWebSocketKey = "" ->
     compress_gzip.NewWriterLevel (GzipGo.compressionLevel h) = inl gz ->
     GzipGo.allowCompression h = None ->
     http.Get (http.HeaderMap w) GzipGo.headerContentEncoding
       <> GzipGo.encodingGzip ->
     http.takesBody w = true ->
     exists g chunks,
       GzipGo.ServeHTTP h w r (fun _ => http.CallWrite b http.Return)
         = GzipGo.Decorated g /\
       GzipGo.grw_status g = GzipGo.COMPRESSION_ENABLED /\
       http.Get (GzipGo.Header g) GzipGo.headerContentEncoding
         = GzipGo.encodingGzip /\
       concat chunks = b /\
       http.Body (GzipGo.sink g)
         = http.Body w
           ++ compress_gzip.gzip_stream (GzipGo.compressionLevel h) chunks).
Proof.
  assert (forall (h : Part001.handler) gz w r next,
    strings.Contains (http.Get (http.reqHeader r) Part001.headerAcceptEncoding)
      Part001.encodingGzip = true ->
    http.Get (http.reqHeader r) Part001.headerSecWebSocketKey = "" ->
    compress_gzip.NewWriterLevel (Part001.compressionLevel h) = inl gz ->
    http.Get (http.HeaderMap w) Part001.headerContentEncoding
      <> Part001.encodingGzip ->
    Part001.ServeHTTP h w r next =
      Part001.Decorated
        (Part001.deferred (http.exec (next r) (Part001.newGrw h gz w r))))
    as Hwrap1.
  { intros h gz w r next Ha Hu En He. rewrite P1Facts.p1_ServeHTTP_cases.
    unfold P1View.accepts, P1View.upgrades, P1View.encoded.
    apply String.eqb_neq in He. by rewrite Ha, Hu, He, En. }
  assert (forall (h : GzipGo.handler) gz w r next,
    strings.Contains (http.Get (http.reqHeader r) GzipGo.headerAcceptEncoding)
      GzipGo.encodingGzip = true ->
    http.Get (http.reqHeader r) GzipGo.headerSecWebSocketKey = "" ->
    compress_gzip.NewWriterLevel (GzipGo.compressionLevel h) = inl gz ->
    http.Get (http.HeaderMap w) GzipGo.headerContentEncoding
      <> GzipGo.encodingGzip ->
    GzipGo.ServeHTTP h w r next =
      GzipGo.Decorated
        (GzipGo.deferred (http.exec (next r) (GzipGo.newGrw h gz w r))))
    as Hwrap2.
  { intros h gz w r next Ha Hu En He. rewrite GGFacts.gg_ServeHTTP_cases.
    unfold GGView.accepts, GGView.upgrades, GGView.encoded.
    apply String.eqb_neq in He. by rewrite Ha, Hu, He, En. }
  split_and!.
  - intros h gz w r next Ha Hu En. split; [|by apply Hwrap1].
    intros He. rewrite P1Facts.p1_ServeHTTP_cases.
    unfold P1View.encoded. apply String.eqb_eq in He. rewrite He.
    by rewrite orb_true_r.
  - intros h gz w r b Ha Hu En Hnone He Ht.
    rewrite (Hwrap1 h gz w r _ Ha Hu En He). cbn [http.exec].
    change (http.rwWrite b (Part001.newGrw h gz w r))
      with (Part001.Write b (Part001.newGrw h gz w r)).
    set (g0 := Part001.newGrw h gz w r).
    assert (Part001.grw_status (Part001.Write b g0)
            = Part001.COMPRESSION_ENABLED) as Hen.
    { rewrite P1Facts.p1_Write_check, P1Facts.p1_forward_status by done.
      rewrite P1Facts.p1_WriteHeader_status_check
        by (by rewrite P1Facts.p1_sniffed_status).
      rewrite P1Facts.p1_allowed_none; [done|].
      by rewrite P1Facts.p1_sniffed_allow. }
    pose proof (P1Facts.p1_BodyOK_Write _ _ b _ _
                  (P1Facts.p1_BodyOK_new h _ gz w r En)) as HB.
    destruct (GzipFacts.Streaming_new _ _ [] En) as (_ & Hc & _).
    pose proof (P1Facts.p1_LogOK_Write b _ (P1Facts.p1_LogOK_new h gz w r Hc))
      as (_ & _ & _ & _ & _ & Hcl).
    assert (http.takesBody (Part001.sink (Part001.Write b g0)) = true) as Ht'
      by (by rewrite P1Facts.p1_Write_takesBody).
    destruct (P1Facts.p1_deferred_Body _ _ _ _ HB Hcl Hen Ht')
      as (chunks & Hcat & Hbody).
    exists (Part001.deferred (Part001.Write b g0)), chunks.
    split_and!; try done.
    + by rewrite P1Facts.p1_deferred_status.
    + rewrite P1Facts.p1_deferred_Header, P1Facts.p1_Write_enables by done.
      apply P1Facts.p1_gzipHeaders_ContentEncoding.
  - intros h gz w r next Ha Hu En. split; [|by apply Hwrap2].
    intros He. rewrite GGFacts.gg_ServeHTTP_cases.
    unfold GGView.encoded. apply String.eqb_eq in He. rewrite He.
    by rewrite orb_true_r.
  - intros h gz w r b Ha Hu En Hnone He Ht.
    rewrite (Hwrap2 h gz w r _ Ha Hu En He). cbn [http.exec].
    change (http.rwWrite b (GzipGo.newGrw h gz w r))
      with (GzipGo.Write b (GzipGo.newGrw h gz w r)).
    set (g0 := GzipGo.newGrw h gz w r).
    assert (GzipGo.grw_status (GzipGo.Write b g0)
            = GzipGo.COMPRESSION_ENABLED) as Hen.
    { rewrite GGFacts.gg_Write_view, GGFacts.gg_forward_status.
      rewrite GGFacts.gg_compressContent_status
        by (by rewrite GGFacts.gg_sniffed_status).
      rewrite GGFacts.gg_allowed_none; [done|].
      by rewrite GGFacts.gg_sniffed_allow. }
    pose proof (GGFacts.gg_BodyOK_Write _ _ b _ _
                  (GGFacts.gg_BodyOK_new h _ gz w r En)) as HB.
    destruct (GzipFacts.Streaming_new _ _ [] En) as (_ & Hc & _).
    pose proof (GGFacts.gg_LogOK_Write b _ (GGFacts.gg_LogOK_new h gz w r Hc))
      as (_ & _ & _ & _ & _ & Hcl).
    assert (http.takesBody (GzipGo.sink (GzipGo.Write b g0)) = true) as Ht'
      by (by rewrite GGFacts.gg_Write_takesBody).
    destruct (GGFacts.gg_deferred_Body _ _ _ _ HB Hcl Hen Ht')
      as (chunks & Hcat & Hbody).
    exists (GzipGo.deferred (GzipGo.Write b g0)), chunks.
    split_and!; try done.
    + by rewrite GGFacts.gg_deferred_status.
    + rewrite GGFacts.gg_deferred_Header, Hen. cbn [GzipGo.status_eqb].
      rewrite HttpFacts.Get_Del_other by keys_differ.
      rewrite GGFacts.gg_Write_enables by done.
      apply GGFacts.gg_gzipHeaders_ContentEncoding.
Qed.

(* ===================================================================== *)
(** * The claims at work on a concrete platform                           *)
(* ===================================================================== *)

Section Concrete.
#[local] Existing Instance Toy.sniffer.
#[local] Existing Instance Toy.codec.

(** C1 as stated fails on gzip/gzip.go: an explicit header commit, the
    first call of the downstream handler, leaves the state undecided (and
    the status line is sent); the write that follows decides, too late for
    the Content-Encoding it sets to be among the headers that were sent. *)
Lemma C1_counterexample_header_commit_does_not_decide :
  let g0 := GzipGo.newGrw GzipGo.Default Toy.gz
              http.NewRecorder (Toy.request [("Accept-Encoding", "gzip")]) in
  let g1 := GzipGo.WriteHeader 404 g0 in
  let g2 := GzipGo.Write (Toy.b "not found") g1 in
  http.run (http.CallWriteHeader 404 (http.CallWrite (Toy.b "not found") http.Return)) g0
    = [(http.CWriteHeader 404, g1); (http.CWrite (Toy.b "not found"), g2)] /\
  GzipGo.grw_status g1 = GzipGo.COMPRESSION_UNDEFINED /\
  fst <$> http.committed (GzipGo.sink g1) = Some 404 /\
  GzipGo.grw_status g2 = GzipGo.COMPRESSION_ENABLED /\
  http.Get (GzipGo.Header g2) "Content-Encoding" = "gzip" /\
  (fun c => http.Get c.2 "Content-Encoding") <$> http.committed (GzipGo.sink g2)
    = Some "".
Proof. repeat split. Qed.

(** C2 as stated fails on gzip/gzip.go: the downstream handler sets a
    Content-Length and writes; when the write returns the transition has
    been taken (the state is enabled, Content-Encoding is gzip) and the
    Content-Length is still there, in the header map and in the headers
    that were sent with the status line. It goes only when the deferred
    function runs. *)
Lemma C2_counterexample_content_length_survives_transition :
  let g0 := GzipGo.newGrw GzipGo.Default Toy.gz
              http.NewRecorder (Toy.request [("Accept-Encoding", "gzip")]) in
  let g1 := http.exec
              (http.CallHeader (http.HSet "Content-Length" "21")
                 (http.CallWrite (Toy.b Toy.gzipTestString) http.Return)) g0 in
  GzipGo.grw_status g1 = GzipGo.COMPRESSION_ENABLED /\
  http.Get (GzipGo.Header g1) "Content-Encoding" = "gzip" /\
  http.Get (GzipGo.Header g1) "Content-Length" = "21" /\
  (fun c => http.Get c.2 "Content-Length") <$> http.committed (GzipGo.sink g1)
    = Some "21" /\
  http.Get (GzipGo.Header (GzipGo.deferred g1)) "Content-Length" = "".
Proof. repeat split. Qed.

(** C3 as stated fails on both revisions: here part_001, with a handler
    that answers 304 Not Modified and writes nothing. The request accepts
    gzip and carries no Sec-WebSocket-Key, the commit enables compression,
    and the deferred [Close] sends the gzip header, which the recorder
    records and refuses. What the sink holds is no gzip stream: it does
    not decode to the nothing that the handler wrote. *)
Lemma C3_counterexample_not_modified :
  let next : http.HandlerFunc := fun _ => http.CallWriteHeader 304 http.Return in
  let g := Part001.deferred (http.exec (next Toy.acceptsGzip) Toy.freshPart001) in
  strings.Contains
    (http.Get (http.reqHeader Toy.acceptsGzip) Part001.headerAcceptEncoding)
    Part001.encodingGzip = true /\
  http.Get (http.reqHeader Toy.acceptsGzip) Part001.headerSecWebSocketKey = "" /\
  Part001.ServeHTTP Part001.Default http.NewRecorder Toy.acceptsGzip next
    = Part001.Decorated g /\
  Part001.grw_status g = Part001.COMPRESSION_ENABLED /\
  http.written (next Toy.acceptsGzip) Toy.freshPart001 = [] /\
  fst <$> http.committed (Part001.sink g) = Some 304 /\
  http.Body (Part001.sink g)
    = compress_gzip.gzip_header compress_gzip.DefaultCompression /\
  compress_gzip.gunzip (http.Body (Part001.sink g)) = None.
Proof. repeat split. Qed.

(** C3 at work: the test of the repository, on both revisions. The
    request accepts gzip, the handler writes the test string, the cycle
    ends enabled under status 200, and the recorder holds a stream that
    decodes to the test string. *)
Lemma C3_witness_test_string_round_trips :
  let req := Toy.request [("Accept-Encoding", "gzip")] in
  let g1 := Part001.deferred
              (http.exec (Toy.testHTTPContent req)
                 (Part001.newGrw Part001.Default Toy.gz http.NewRecorder req)) in
  let g2 := GzipGo.deferred
              (http.exec (Toy.testHTTPContent req)
                 (GzipGo.newGrw GzipGo.Default Toy.gz http.NewRecorder req)) in
  compress_gzip.CodecSound Toy.codec /\
  (Part001.ServeHTTP Part001.Default http.NewRecorder req Toy.testHTTPContent
     = Part001.Decorated g1 /\
   Part001.grw_status g1 = Part001.COMPRESSION_ENABLED /\
   http.takesBody (Part001.sink g1) = true /\
   exists z,
     http.Body (Part001.sink g1) = http.Body http.NewRecorder ++ z /\
     compress_gzip.gunzip z
       = Some (http.written (Toy.testHTTPContent req)
                 (Part001.newGrw Part001.Default Toy.gz http.NewRecorder req))) /\
  (GzipGo.ServeHTTP GzipGo.Default http.NewRecorder req Toy.testHTTPContent
     = GzipGo.Decorated g2 /\
   GzipGo.grw_status g2 = GzipGo.COMPRESSION_ENABLED /\
   http.takesBody (GzipGo.sink g2) = true /\
   exists z,
     http.Body (GzipGo.sink g2) = http.Body http.NewRecorder ++ z /\
     compress_gzip.gunzip z
       = Some (http.written (Toy.testHTTPContent req)
                 (GzipGo.newGrw GzipGo.Default Toy.gz http.NewRecorder req))).
Proof.
  intros req g1 g2.
  assert (Part001.ServeHTTP Part001.Default http.NewRecorder req Toy.testHTTPContent
          = Part001.Decorated g1) as Hs1 by (vm_compute; reflexivity).
  assert (Part001.grw_status g1 = Part001.COMPRESSION_ENABLED) as He1
    by (vm_compute; reflexivity).
  assert (http.takesBody (Part001.sink g1) = true) as Ht1
    by (vm_compute; reflexivity).
  assert (GzipGo.ServeHTTP GzipGo.Default http.NewRecorder req Toy.testHTTPContent
          = GzipGo.Decorated g2) as Hs2 by (vm_compute; reflexivity).
  assert (GzipGo.grw_status g2 = GzipGo.COMPRESSION_ENABLED) as He2
    by (vm_compute; reflexivity).
  assert (http.takesBody (GzipGo.sink g2) = true) as Ht2
    by (vm_compute; reflexivity).
  destruct (C3_body_round_trip ToyFacts.codec_sound) as (H1 & H2 & _).
  split; [exact ToyFacts.codec_sound|]. split.
  - split; [exact Hs1|]. split; [exact He1|]. split; [exact Ht1|].
    destruct (H1 Part001.Default http.NewRecorder req Toy.testHTTPContent g1)
      as (gz & En & Hacc & _);
      [vm_compute; reflexivity | vm_compute; reflexivity | exact Hs1 | exact He1 |].
    assert (inl gz = inl Toy.gz :> compress_gzip.Writer + compress_gzip.error) as E
      by (rewrite <- En; reflexivity).
    injection E as ->. exact (Hacc Ht1).
  - split; [exact Hs2|]. split; [exact He2|]. split; [exact Ht2|].
    destruct (H2 GzipGo.Default http.NewRecorder req Toy.testHTTPContent g2)
      as (gz & En & Hacc & _);
      [vm_compute; reflexivity | vm_compute; reflexivity | exact Hs2 | exact He2 |].
    assert (inl gz = inl Toy.gz :> compress_gzip.Writer + compress_gzip.error) as E
      by (rewrite <- En; reflexivity).
    injection E as ->. exact (Hacc Ht2).
Defined.

(** C5 at work: a WebSocket handshake that accepts gzip is passed
    through, as in the test of the repository. *)
Lemma C5_witness_websocket_passes_through :
  let req := Toy.request [("Accept-Encoding", "gzip"); ("Sec-WebSocket-Key", "Test")] in
  (strings.Contains (http.Get (http.reqHeader req) Part001.headerAcceptEncoding)
     Part001.encodingGzip = false \/
   http.Get (http.reqHeader req) Part001.headerSecWebSocketKey <> "" \/
   http.Get (http.HeaderMap http.NewRecorder) Part001.headerContentEncoding
     = Part001.encodingGzip) /\
  Part001.ServeHTTP Part001.Default http.NewRecorder req Toy.testHTTPContent
    = Part001.Direct (http.exec (Toy.testHTTPContent req) http.NewRecorder) /\
  GzipGo.ServeHTTP GzipGo.Default http.NewRecorder req Toy.testHTTPContent
    = GzipGo.Direct (http.exec (Toy.testHTTPContent req) http.NewRecorder) /\
  http.Body (http.exec (Toy.testHTTPContent req) http.NewRecorder)
    = http.Body http.NewRecorder
      ++ http.written (Toy.testHTTPContent req) http.NewRecorder.
Proof.
  intros req.
  assert (http.Get (http.reqHeader req) Part001.headerSecWebSocketKey <> "") as Hu.
  { vm_compute. discriminate. }
  split; [right; left; exact Hu|].
  apply (C5_ineligible_requests_pass_through Part001.Default GzipGo.Default
           http.NewRecorder req Toy.testHTTPContent).
  right; left; exact Hu.
Defined.

(** C6 at work: level 11, as in the test of the repository. *)
Lemma C6_witness_level_eleven :
  let req := Toy.request [("Accept-Encoding", "gzip")] in
  (11 < compress_gzip.HuffmanOnly \/ compress_gzip.BestCompression < 11) /\
  compress_gzip.NewWriterLevel 11 = inr (compress_gzip.InvalidLevel 11) /\
  Part001.ServeHTTP (Part001.New 11 None) http.NewRecorder req Toy.testHTTPContent
    = Part001.Direct (http.exec (Toy.testHTTPContent req) http.NewRecorder) /\
  GzipGo.ServeHTTP (GzipGo.New 11 None) http.NewRecorder req Toy.testHTTPContent
    = GzipGo.Direct (http.exec (Toy.testHTTPContent req) http.NewRecorder) /\
  http.Body (http.exec (Toy.testHTTPContent req) http.NewRecorder)
    = http.Body http.NewRecorder
      ++ http.written (Toy.testHTTPContent req) http.NewRecorder.
Proof.
  intros req.
  assert (11 < compress_gzip.HuffmanOnly \/ compress_gzip.BestCompression < 11) as Hbad.
  { right. reflexivity. }
  split; [exact Hbad|].
  exact (C6_invalid_level_falls_back 11 None None http.NewRecorder req
           Toy.testHTTPContent Hbad).
Defined.

(** C1 at work on part_001: a header mutation, a header commit, a write.
    The commit decides; the write finds the state decided and leaves it. *)
Lemma C1_witness_commit_then_write :
  let g1 := Part001.HeaderUpd (http.applyHeaderOp (http.HSet "X-Test" "1")) Toy.freshPart001 in
  let g2 := Part001.WriteHeader 200 g1 in
  let g3 := Part001.Write (Toy.b Toy.gzipTestString) g2 in
  let p := http.CallHeader (http.HSet "X-Test" "1")
             (http.CallWriteHeader 200
                (http.CallWrite (Toy.b Toy.gzipTestString) http.Return)) in
  http.run p Toy.freshPart001
    = [(http.CHeader (http.HSet "X-Test" "1"), g1)]
      ++ (http.CWriteHeader 200, g2)
         :: [(http.CWrite (Toy.b Toy.gzipTestString), g3)] /\
  (Part001.grw_status g2 = Part001.COMPRESSION_CHECK <->
   Forall (fun c' => http.isWriteOrWriteHeader c' = false)
     ([(http.CHeader (http.HSet "X-Test" "1"), g1)].*1 ++ [http.CWriteHeader 200])) /\
  (Part001.grw_status g2 <> Part001.COMPRESSION_CHECK ->
   Forall (fun x => Part001.grw_status x.2 = Part001.grw_status g2)
     [(http.CWrite (Toy.b Toy.gzipTestString), g3)]).
Proof.
  intros g1 g2 g3 p.
  assert (http.run p Toy.freshPart001
    = [(http.CHeader (http.HSet "X-Test" "1"), g1)]
      ++ (http.CWriteHeader 200, g2)
         :: [(http.CWrite (Toy.b Toy.gzipTestString), g3)]) as Hrun
    by reflexivity.
  split; [exact Hrun|].
  destruct C1_decided_once_at_first_trigger as [H _].
  destruct (H Part001.Default Toy.gz http.NewRecorder Toy.acceptsGzip p) as [_ H2].
  exact (H2 _ _ _ _ Hrun).
Defined.

(** C2 at work on part_001: the transition of a fresh writer with no
    predicate. *)
Lemma C2_witness_transition_of_fresh_writer :
  Part001.grw_status Toy.freshPart001 = Part001.COMPRESSION_CHECK /\
  Part001.grw_status (Part001.WriteHeader 200 Toy.freshPart001) = Part001.COMPRESSION_ENABLED /\
  Part001.Header (Part001.WriteHeader 200 Toy.freshPart001) =
    http.Set_
      (http.Set_ (http.Del (Part001.Header Toy.freshPart001) Part001.headerContentLength)
         Part001.headerContentEncoding Part001.encodingGzip)
      Part001.headerVary Part001.headerAcceptEncoding.
Proof.
  split; [reflexivity|].
  destruct C2_compression_headers_set_once as [H _].
  exact (H Toy.freshPart001 200 eq_refl).
Defined.

(** C4 as stated fails on both revisions: here part_001, with handlers
    that answer 304 Not Modified. The cycle ends enabled and [Close] is
    called, once; the recorder refuses what the codec writer sends, so that
    no trailing framing is emitted: the gzip header is all there is. When
    the handler has also written, the write has already failed and [Close]
    returns at once, leaving the writer unfinalized. *)
Lemma C4_counterexample_close_emits_no_trailer :
  let p1 := http.CallWriteHeader 304 http.Return in
  let p2 := http.CallWriteHeader 304
              (http.CallWrite (Toy.b Toy.gzipTestString) http.Return) in
  let g1 := Part001.deferred (http.exec p1 Toy.freshPart001) in
  let g2 := Part001.deferred (http.exec p2 Toy.freshPart001) in
  (Part001.grw_status g1 = Part001.COMPRESSION_ENABLED /\
   occurrences CodecClosed (Part001.grw_log g1) = 1%nat /\
   http.Body (Part001.sink g1)
     = compress_gzip.gzip_header compress_gzip.DefaultCompression /\
   compress_gzip.err (Part001.grw_w g1) = Some http.ErrBodyNotAllowed) /\
  (Part001.grw_status g2 = Part001.COMPRESSION_ENABLED /\
   occurrences CodecClosed (Part001.grw_log g2) = 1%nat /\
   http.Body (Part001.sink g2)
     = compress_gzip.gzip_header compress_gzip.DefaultCompression /\
   compress_gzip.err (Part001.grw_w g2) = Some http.ErrBodyNotAllowed /\
   compress_gzip.closed (Part001.grw_w g2) = false).
Proof. repeat split. Qed.

(** C4 at work: the test handler writes, the cycle ends enabled under
    status 200, the codec writer is closed once, after the handler has
    returned, and the sink holds the whole stream: the end mark comes with
    the close. *)
Lemma C4_witness_closed_once :
  let g := http.exec (Toy.testHTTPContent Toy.acceptsGzip) Toy.freshPart001 in
  let g' := Part001.deferred g in
  compress_gzip.NewWriterLevel (Part001.compressionLevel Part001.Default)
    = inl Toy.gz /\
  Part001.grw_status g = Part001.COMPRESSION_ENABLED /\
  http.takesBody (Part001.sink g) = true /\
  occurrences CodecClosed (Part001.grw_log g) = 0%nat /\
  compress_gzip.closed (Part001.grw_w g) = false /\
  occurrences CodecClosed (Part001.grw_log g') = 1%nat /\
  compress_gzip.closed (Part001.grw_w g') = true /\
  http.Body (Part001.sink g) = Toy.magic ++ Toy.b Toy.gzipTestString /\
  http.Body (Part001.sink g')
    = Toy.magic ++ Toy.b Toy.gzipTestString ++ Toy.endMark.
Proof.
  intros g g'. split; [reflexivity|].
  assert (Part001.grw_status g = Part001.COMPRESSION_ENABLED) as Hen
    by (vm_compute; reflexivity).
  assert (http.takesBody (Part001.sink g) = true) as Ht
    by (vm_compute; reflexivity).
  split; [exact Hen|]. split; [exact Ht|].
  destruct C4_close_once_iff_enabled as [H _].
  destruct (H Part001.Default Toy.gz http.NewRecorder Toy.acceptsGzip
              Toy.testHTTPContent eq_refl) as (H1 & H2 & H3 & _ & _ & H6 & _).
  fold Toy.freshPart001 in H1, H2, H3, H6. fold g in H1, H2, H3, H6.
  fold g' in H3, H6. rewrite Hen in H3, H6.
  destruct (H6 eq_refl Ht) as (H7 & _ & chunks & c & out & front & Hcat & _ & Hb & _).
  split; [exact H1|]. split; [exact H2|]. split; [exact H3|].
  split; [exact H7|]. split; [vm_compute; reflexivity|].
  rewrite Hb, ToyFacts.gzip_stream_toy, Hcat. reflexivity.
Defined.

(** C7 as stated fails on gzip/gzip.go: a header commit followed by the
    first write. The commit is no invocation of the transition; the write
    is the one that decides, and it does not leave the state and the
    headers as they are: the status moves to enabled, the predicate is
    called, Content-Encoding and Vary are set. *)
Lemma C7_counterexample_write_after_commit_decides :
  let h := GzipGo.New compress_gzip.DefaultCompression (Some (fun _ _ => true)) in
  let g0 := GzipGo.newGrw h Toy.gz http.NewRecorder Toy.acceptsGzip in
  let g1 := GzipGo.WriteHeader 200 g0 in
  let g2 := GzipGo.Write (Toy.b Toy.gzipTestString) g1 in
  GzipGo.grw_status g1 = GzipGo.COMPRESSION_UNDEFINED /\
  GzipGo.grw_log g1 = [] /\
  GzipGo.grw_status g2 = GzipGo.COMPRESSION_ENABLED /\
  http.Get (GzipGo.Header g1) "Content-Encoding" = "" /\
  http.Get (GzipGo.Header g2) "Content-Encoding" = "gzip" /\
  http.Values (GzipGo.Header g1) "Vary" = [] /\
  http.Values (GzipGo.Header g2) "Vary" = ["Accept-Encoding"] /\
  occurrences PredicateCalled (GzipGo.grw_log g2) = 1%nat.
Proof. repeat split. Qed.

(** C7 at work on gzip/gzip.go: two writes; the sniffer named a type at
    the first, the second changes neither status, headers nor log. *)
Lemma C7_witness_second_write_inert :
  let g1 := GzipGo.Write (Toy.b "Foobar ") Toy.freshGzipGo in
  let g2 := GzipGo.Write (Toy.b "Wibble") g1 in
  http.DetectContentType (Toy.b "Foobar ") <> "" /\
  GzipGo.Header g2 = GzipGo.Header g1 /\
  GzipGo.grw_log g2 = GzipGo.grw_log g1.
Proof.
  intros g1 g2.
  assert (http.DetectContentType (Toy.b "Foobar ") <> "") as Hct by discriminate.
  split; [exact Hct|].
  destruct C7_transition_taken_at_most_once as (_ & _ & _ & _ & _ & _ & H & _).
  destruct (H Toy.freshGzipGo (Toy.b "Foobar ") (Toy.b "Wibble")) as (_ & _ & _ & _ & H5).
  exact (H5 Hct).
Defined.

(** C8 at work: the first write of the test handler, no Content-Type
    set. *)
Lemma C8_witness_first_write :
  let g' := Part001.Write (Toy.b Toy.gzipTestString) Toy.freshPart001 in
  Part001.grw_status Toy.freshPart001 = Part001.COMPRESSION_CHECK /\
  http.Get (Part001.Header Toy.freshPart001) Part001.headerContentType = "" /\
  http.Get (Part001.Header g') Part001.headerContentType
    = "application/octet-stream" /\
  Part001.grw_status g' = Part001.COMPRESSION_ENABLED.
Proof.
  intros g'. split; [reflexivity|]. split; [reflexivity|].
  destruct C8_first_write_sniffs_then_decides as [H _].
  destruct (H Toy.freshPart001 (Toy.b Toy.gzipTestString) eq_refl eq_refl) as (H1 & H2 & _).
  split; [exact H1|exact H2].
Defined.

(** C9 at work: downstream set Vary to Accept-Language; after the write
    that enables compression only Accept-Encoding is left. *)
Lemma C9_witness_accept_language_is_lost :
  let g := Part001.HeaderUpd
             (http.applyHeaderOp (http.HSet "Vary" "Accept-Language")) Toy.freshPart001 in
  let g' := Part001.Write (Toy.b Toy.gzipTestString) g in
  http.Values (Part001.Header g) "Vary" = ["Accept-Language"] /\
  Part001.grw_status g = Part001.COMPRESSION_CHECK /\
  Part001.grw_status g' = Part001.COMPRESSION_ENABLED /\
  http.Values (Part001.Header g') Part001.headerVary
    = [Part001.headerAcceptEncoding].
Proof.
  intros g g'. split; [reflexivity|].
  assert (Part001.grw_status g' = Part001.COMPRESSION_ENABLED) as He
    by reflexivity.
  split; [reflexivity|]. split; [exact He|].
  destruct C9_vary_is_replaced as (_ & H & _).
  exact (H g (Toy.b Toy.gzipTestString) eq_refl He).
Defined.

(** C10 at work: the response already says Content-Encoding: br; the
    writer is decorated all the same. *)
Lemma C10_witness_brotli_is_wrapped :
  let w := http.sinkHeaderUpd
             (http.applyHeaderOp (http.HSet "Content-Encoding" "br"))
             http.NewRecorder in
  strings.Contains (http.Get (http.reqHeader Toy.acceptsGzip) Part001.headerAcceptEncoding)
    Part001.encodingGzip = true /\
  http.Get (http.reqHeader Toy.acceptsGzip) Part001.headerSecWebSocketKey = "" /\
  compress_gzip.NewWriterLevel (Part001.compressionLevel Part001.Default)
    = inl Toy.gz /\
  http.Get (http.HeaderMap w) Part001.headerContentEncoding
    <> Part001.encodingGzip /\
  Part001.ServeHTTP Part001.Default w Toy.acceptsGzip Toy.testHTTPContent =
    Part001.Decorated
      (Part001.deferred
         (http.exec (Toy.testHTTPContent Toy.acceptsGzip)
            (Part001.newGrw Part001.Default Toy.gz w Toy.acceptsGzip))).
Proof.
  intros w.
  assert (http.Get (http.HeaderMap w) Part001.headerContentEncoding
          <> Part001.encodingGzip) as He.
  { vm_compute. discriminate. }
  split; [vm_compute; reflexivity|]. split; [vm_compute; reflexivity|].
  split; [reflexivity|]. split; [exact He|].
  destruct C10_skip_only_on_exactly_gzip as (H & _).
  destruct (H Part001.Default Toy.gz w Toy.acceptsGzip Toy.testHTTPContent) as [_ H2];
    [vm_compute; reflexivity | vm_compute; reflexivity | reflexivity |].
  exact (H2 He).
Defined.

End Concrete.

(* ===================================================================== *)
(** * Further facts                                                       *)
(* ===================================================================== *)

Module XFacts.

(** ** What was sent stays sent *)

Lemma x_sinkWrite_sent b s c :
  http.committed s = Some c -> http.committed (http.sinkWrite b s) = Some c.
Proof. intros E. by rewrite HttpFacts.committed_sinkWrite, E. Qed.

Lemma x_sinkWriteHeader_sent code s c :
  http.committed s = Some c -> http.committed (http.sinkWriteHeader code s) = Some c.
Proof. intros E. by rewrite HttpFacts.committed_sinkWriteHeader, E. Qed.

Lemma x_emit_sent out s c :
  http.committed s = Some c ->
  http.committed (compress_gzip.emit out s).1 = Some c.
Proof. intros E. rewrite GzipFacts.committed_emit; by rewrite E. Qed.

Lemma x_negroni_WriteHeader_sent code rw c :
  http.committed (negroni.ResponseWriter rw) = Some c ->
  http.committed (negroni.ResponseWriter (negroni.WriteHeader code rw)) = Some c.
Proof. apply x_sinkWriteHeader_sent. Qed.

(** A write through negroni's writer leaves the sink committed. *)
Lemma x_negroni_Write_commits b rw :
  http.committed (negroni.ResponseWriter (negroni.Write b rw)) =
  match http.committed (negroni.ResponseWriter rw) with
  | Some c => Some c
  | None => Some (http.StatusOK, http.HeaderMap (negroni.ResponseWriter rw))
  end.
Proof.
  unfold negroni.Write. cbn [negroni.ResponseWriter].
  rewrite HttpFacts.committed_sinkWrite.
  destruct (negroni.Written rw); [done|].
  unfold negroni.WriteHeader. cbn [negroni.ResponseWriter].
  rewrite HttpFacts.committed_sinkWriteHeader, HttpFacts.HeaderMap_sinkWriteHeader.
  by destruct (http.committed (negroni.ResponseWriter rw)).
Qed.

Section WithCodec.
Context `{CD : compress_gzip.Codec}.

Lemma x_gzWrite_sent p z s c :
  http.committed s = Some c ->
  http.committed (compress_gzip.Write p (z, s)).2 = Some c.
Proof. intros E. rewrite GzipFacts.Write_committed; by rewrite E. Qed.

(** The first write of the codec writer sends the status line, if nothing
    has: the gzip header is written to the sink at once. *)
Lemma x_gzWrite_commits p z s :
  compress_gzip.wroteHeader z = false ->
  compress_gzip.err z = None ->
  http.committed s = None ->
  http.committed (compress_gzip.Write p (z, s)).2
  = Some (http.StatusOK, http.HeaderMap s).
Proof. apply GzipFacts.Write_commits. Qed.

Lemma x_gzClose_sent z s c :
  http.committed s = Some c ->
  http.committed (compress_gzip.Close (z, s)).2 = Some c.
Proof. intros E. rewrite GzipFacts.Close_committed; by rewrite E. Qed.

End WithCodec.

(** ** Handlers that leave the header commit alone *)

Lemma x_exec_invariant_noWriteHeader {W} `{http.ResponseWriter W}
  (I : W -> bytes -> Prop) :
  (forall w acc b, I w acc -> I (http.rwWrite b w) (acc ++ b)) ->
  (forall w acc f, I w acc -> I (http.rwHeaderUpd f w) acc) ->
  forall p, Extra.noWriteHeader p ->
  forall w acc, I w acc -> I (http.exec p w) (acc ++ http.written p w).
Proof.
  intros HW HU p.
  induction p as [|b k IH|code k IH|o k IH|k IH]; intros Hp w acc Hw; cbn.
  - by rewrite app_nil_r.
  - rewrite app_assoc. by apply IH, HW.
  - destruct Hp.
  - by apply IH, HU.
  - by apply IH.
Qed.

End XFacts.

Module XP1.
Section WithPlatform.
Context `{SN : http.ContentSniffer} `{CD : compress_gzip.Codec}.

Abbreviation grw := Part001.gzipResponseWriter.

Lemma x_p1_gzipHeaders_announce h :
  Extra.announcesGzip (P1View.gzipHeaders h) /\
  http.Get (P1View.gzipHeaders h) "Content-Length" = "".
Proof.
  split; [split|].
  - apply P1Facts.p1_gzipHeaders_ContentEncoding.
  - apply P1Facts.p1_gzipHeaders_Vary.
  - unfold P1View.gzipHeaders.
    rewrite !HttpFacts.Get_Set_other by keys_differ.
    apply HttpFacts.Get_Del_same.
Qed.

Lemma x_p1_sniffed_sent b (g : grw) :
  http.committed (Part001.sink (P1View.sniffed b g))
  = http.committed (Part001.sink g).
Proof. unfold P1View.sniffed. by destruct (_ =? _)%nat. Qed.

Lemma x_p1_forward_sent b (g : grw) c :
  http.committed (Part001.sink g) = Some c ->
  http.committed (Part001.sink (P1View.forward b g)) = Some c.
Proof.
  intros E. unfold P1View.forward, Part001.codecWrite, Part001.plainWrite.
  destruct (Part001.status_eqb _ _).
  - pose proof (XFacts.x_gzWrite_sent b (Part001.grw_w g) _ _ E) as HW.
    by destruct (compress_gzip.Write _ _).
  - unfold Part001.sink in *. cbn.
    by rewrite XFacts.x_negroni_Write_commits, E.
Qed.

Lemma x_p1_WriteHeader_sent code (g : grw) c :
  Part001.grw_status g <> Part001.COMPRESSION_CHECK ->
  http.committed (Part001.sink g) = Some c ->
  http.committed (Part001.sink (Part001.WriteHeader code g)) = Some c.
Proof.
  intros Hd E. unfold Part001.WriteHeader.
  destruct (Part001.grw_status g) eqn:Es; [done| |]; cbn;
    by apply XFacts.x_negroni_WriteHeader_sent.
Qed.

Lemma x_p1_SentOK_HeaderUpd f (g : grw) :
  Extra.P1_SentOK g -> Extra.P1_SentOK (Part001.HeaderUpd f g).
Proof. done. Qed.

Lemma x_p1_SentOK_sniffed b (g : grw) :
  Extra.P1_SentOK g -> Extra.P1_SentOK (P1View.sniffed b g).
Proof. unfold P1View.sniffed. by destruct (_ =? _)%nat. Qed.

Lemma x_p1_SentOK_WriteHeader code (g : grw) :
  Extra.P1_SentOK g -> Extra.P1_SentOK (Part001.WriteHeader code g).
Proof.
  unfold Extra.P1_SentOK. destruct (Part001.grw_status g) eqn:E.
  - intros Hc. rewrite P1Facts.p1_WriteHeader_status_check by done.
    rewrite (P1Facts.p1_WriteHeader_committed code g Hc).
    rewrite P1Facts.p1_WriteHeader_Header_check by done.
    destruct (Part001.allowed g).1; [|done].
    eexists _, _. split; [done|]. apply x_p1_gzipHeaders_announce.
  - rewrite P1Facts.p1_WriteHeader_status_decided, E by congruence.
    destruct (http.committed (Part001.sink g)) as [c|] eqn:Ec; [|done].
    intros _. by rewrite (x_p1_WriteHeader_sent code g c) by congruence.
  - rewrite P1Facts.p1_WriteHeader_status_decided, E by congruence.
    intros (c & hs & Ec & Hs).
    rewrite (x_p1_WriteHeader_sent code g _) by (congruence || done). eauto.
Qed.

Lemma x_p1_SentOK_forward b (g : grw) :
  Part001.grw_status g <> Part001.COMPRESSION_CHECK ->
  Extra.P1_SentOK g -> Extra.P1_SentOK (P1View.forward b g).
Proof.
  intros Hd. unfold Extra.P1_SentOK. rewrite P1Facts.p1_forward_status.
  destruct (Part001.grw_status g) eqn:E; [done| |].
  - destruct (http.committed (Part001.sink g)) as [c|] eqn:Ec; [|done].
    intros _. by rewrite (x_p1_forward_sent b g c).
  - intros (c & hs & Ec & Hs). rewrite (x_p1_forward_sent b g _ Ec). eauto.
Qed.

Lemma x_p1_SentOK_Write b (g : grw) :
  Extra.P1_SentOK g -> Extra.P1_SentOK (Part001.Write b g).
Proof.
  intros H. destruct (Part001.grw_status g) eqn:E.
  - rewrite P1Facts.p1_Write_check by done. apply x_p1_SentOK_forward.
    + apply P1Facts.p1_WriteHeader_status_not_check.
    + by apply x_p1_SentOK_WriteHeader, x_p1_SentOK_sniffed.
  - rewrite P1Facts.p1_Write_decided by congruence.
    apply x_p1_SentOK_forward; congruence.
  - rewrite P1Facts.p1_Write_decided by congruence.
    apply x_p1_SentOK_forward; congruence.
Qed.

Lemma x_p1_SentOK_exec p (g : grw) :
  Extra.P1_SentOK g -> Extra.P1_SentOK (http.exec p g).
Proof.
  apply HttpFacts.exec_preserves.
  - intros w b. apply x_p1_SentOK_Write.
  - intros w code. apply x_p1_SentOK_WriteHeader.
  - intros w f. apply x_p1_SentOK_HeaderUpd.
Qed.

Lemma x_p1_deferred_sent (g : grw) c :
  http.committed (Part001.sink g) = Some c ->
  http.committed (Part001.sink (Part001.deferred g)) = Some c.
Proof.
  intros E. unfold Part001.deferred, Part001.codecClose.
  destruct (Part001.status_eqb _ _); [|done].
  pose proof (XFacts.x_gzClose_sent (Part001.grw_w g) _ _ E) as HC.
  by destruct (compress_gzip.Close _).
Qed.

(** *** The callback is never replaced *)

Lemma x_p1_WriteHeader_allow code (g : grw) :
  Part001.grw_allowCompression (Part001.WriteHeader code g)
  = Part001.grw_allowCompression g.
Proof.
  unfold Part001.WriteHeader, Part001.allowed.
  destruct (Part001.status_eqb _ _); [|done].
  destruct (Part001.grw_allowCompression g) as [fn|] eqn:E; [|by cbn; rewrite ?E].
  destruct (fn _ _); cbn; by rewrite ?E.
Qed.

Lemma x_p1_Write_allow b (g : grw) :
  Part001.grw_allowCompression (Part001.Write b g)
  = Part001.grw_allowCompression g.
Proof.
  destruct (Part001.grw_status g) eqn:E.
  - rewrite P1Facts.p1_Write_check by done.
    by rewrite P1Facts.p1_forward_allow, x_p1_WriteHeader_allow,
      P1Facts.p1_sniffed_allow.
  - rewrite P1Facts.p1_Write_decided by congruence. apply P1Facts.p1_forward_allow.
  - rewrite P1Facts.p1_Write_decided by congruence. apply P1Facts.p1_forward_allow.
Qed.

Lemma x_p1_allowed_permits (g : grw) :
  Extra.alwaysPermits (Part001.grw_allowCompression g) ->
  (Part001.allowed g).1 = true.
Proof.
  unfold Part001.allowed, Extra.alwaysPermits.
  destruct (Part001.grw_allowCompression g); [|done]. intros H. apply H.
Qed.

Lemma x_p1_allowed_refuses (g : grw) :
  Extra.alwaysRefuses (Part001.grw_allowCompression g) ->
  (Part001.allowed g).1 = false.
Proof.
  unfold Part001.allowed, Extra.alwaysRefuses.
  destruct (Part001.grw_allowCompression g); [|done]. intros H. apply H.
Qed.

(** With a callback that refuses everything the status is never enabled;
    with one that permits everything (or none) it is never disabled. *)
Lemma x_p1_refused_exec fn p (g : grw) :
  Extra.alwaysRefuses fn ->
  Part001.grw_allowCompression g = fn ->
  Part001.grw_status g <> Part001.COMPRESSION_ENABLED ->
  Part001.grw_status (http.exec p g) <> Part001.COMPRESSION_ENABLED.
Proof.
  intros Hfn Ha Hs.
  cut (Part001.grw_allowCompression (http.exec p g) = fn /\
       Part001.grw_status (http.exec p g) <> Part001.COMPRESSION_ENABLED);
    [tauto|].
  apply (HttpFacts.exec_preserves
           (fun g => Part001.grw_allowCompression g = fn /\
                     Part001.grw_status g <> Part001.COMPRESSION_ENABLED));
    [| | |done].
  - intros w b [Hw1 Hw2].
    change (http.rwWrite b w) with (Part001.Write b w).
    split; [by rewrite x_p1_Write_allow|].
    destruct (Part001.grw_status w) eqn:E.
    + rewrite P1Facts.p1_Write_check, P1Facts.p1_forward_status by done.
      rewrite P1Facts.p1_WriteHeader_status_check
        by (by rewrite P1Facts.p1_sniffed_status).
      rewrite x_p1_allowed_refuses; [done|].
      by rewrite P1Facts.p1_sniffed_allow, Hw1.
    + rewrite P1Facts.p1_Write_status_decided; congruence.
    + done.
  - intros w code [Hw1 Hw2].
    change (http.rwWriteHeader code w) with (Part001.WriteHeader code w).
    split; [by rewrite x_p1_WriteHeader_allow|].
    destruct (Part001.grw_status w) eqn:E.
    + rewrite P1Facts.p1_WriteHeader_status_check by done.
      rewrite x_p1_allowed_refuses; [done|]. by rewrite Hw1.
    + rewrite P1Facts.p1_WriteHeader_status_decided; congruence.
    + done.
  - intros w f Hw. exact Hw.
Qed.

Lemma x_p1_permitted_exec fn p (g : grw) acc :
  Extra.alwaysPermits fn ->
  Part001.grw_allowCompression g = fn ->
  Part001.grw_status g <> Part001.COMPRESSION_DISABLED ->
  (acc <> [] -> Part001.grw_status g <> Part001.COMPRESSION_CHECK) ->
  Part001.grw_status (http.exec p g) <> Part001.COMPRESSION_DISABLED /\
  (acc ++ http.written p g <> [] ->
   Part001.grw_status (http.exec p g) <> Part001.COMPRESSION_CHECK).
Proof.
  intros Hfn Ha Hs Hacc.
  cut (Part001.grw_allowCompression (http.exec p g) = fn /\
       Part001.grw_status (http.exec p g) <> Part001.COMPRESSION_DISABLED /\
       (acc ++ http.written p g <> [] ->
        Part001.grw_status (http.exec p g) <> Part001.COMPRESSION_CHECK));
    [tauto|].
  apply (HttpFacts.exec_invariant
           (fun g acc =>
              Part001.grw_allowCompression g = fn /\
              Part001.grw_status g <> Part001.COMPRESSION_DISABLED /\
              (acc <> [] ->
               Part001.grw_status g <> Part001.COMPRESSION_CHECK)));
    [| | |done].
  - intros w a b (Hw1 & Hw2 & Hw3).
    change (http.rwWrite b w) with (Part001.Write b w).
    split; [by rewrite x_p1_Write_allow|].
    split; [|intros _; apply P1Facts.p1_Write_status_not_check].
    destruct (Part001.grw_status w) eqn:E.
    + rewrite P1Facts.p1_Write_check, P1Facts.p1_forward_status by done.
      rewrite P1Facts.p1_WriteHeader_status_check
        by (by rewrite P1Facts.p1_sniffed_status).
      rewrite x_p1_allowed_permits; [done|].
      by rewrite P1Facts.p1_sniffed_allow, Hw1.
    + done.
    + rewrite P1Facts.p1_Write_status_decided; congruence.
  - intros w a code (Hw1 & Hw2 & Hw3).
    change (http.rwWriteHeader code w) with (Part001.WriteHeader code w).
    split; [by rewrite x_p1_WriteHeader_allow|].
    split; [|intros _; apply P1Facts.p1_WriteHeader_status_not_check].
    destruct (Part001.grw_status w) eqn:E.
    + rewrite P1Facts.p1_WriteHeader_status_check by done.
      rewrite x_p1_allowed_permits; [done|]. by rewrite Hw1.
    + done.
    + rewrite P1Facts.p1_WriteHeader_status_decided; congruence.
  - intros w a f Hw. exact Hw.
Qed.

End WithPlatform.
End XP1.

Module XGG.
Section WithPlatform.
Context `{SN : http.ContentSniffer} `{CD : compress_gzip.Codec}.

Abbreviation grw := GzipGo.gzipResponseWriter.

Lemma x_gg_gzipHeaders_announce h : Extra.announcesGzip (GGView.gzipHeaders h).
Proof.
  split.
  - apply GGFacts.gg_gzipHeaders_ContentEncoding.
  - apply GGFacts.gg_gzipHeaders_Vary.
Qed.

Lemma x_gg_sniffed_sent b (g : grw) :
  http.committed (GzipGo.sink (GGView.sniffed b g))
  = http.committed (GzipGo.sink g).
Proof. unfold GGView.sniffed. by destruct (_ =? _)%nat. Qed.

Lemma x_gg_sniffed_w b (g : grw) :
  GzipGo.grw_w (GGView.sniffed b g) = GzipGo.grw_w g.
Proof. unfold GGView.sniffed. by destruct (_ =? _)%nat. Qed.

Lemma x_gg_compressContent_sent (g : grw) :
  http.committed (GzipGo.sink (GzipGo.compressContent g).1)
  = http.committed (GzipGo.sink g).
Proof.
  unfold GzipGo.compressContent, GzipGo.allowed.
  destruct (GzipGo.status_eqb _ _); [|done].
  destruct (GzipGo.grw_allowCompression g) as [fn|]; [destruct (fn _ _)|]; done.
Qed.

Lemma x_gg_forward_sent b (g : grw) c :
  http.committed (GzipGo.sink g) = Some c ->
  http.committed (GzipGo.sink (GGView.forward b g)) = Some c.
Proof.
  intros E. unfold GGView.forward, GzipGo.codecWrite, GzipGo.plainWrite.
  destruct (GzipGo.status_eqb _ _).
  - pose proof (XFacts.x_gzWrite_sent b (GzipGo.grw_w g) _ _ E) as HW.
    by destruct (compress_gzip.Write _ _).
  - unfold GzipGo.sink in *. cbn.
    by rewrite XFacts.x_negroni_Write_commits, E.
Qed.

(** The write that decides also sends the status line: through the codec
    writer's header when enabled, through negroni's writer when not. *)
Lemma x_gg_forward_commits b (g : grw) :
  http.committed (GzipGo.sink g) = None ->
  compress_gzip.wroteHeader (GzipGo.grw_w g) = false ->
  compress_gzip.err (GzipGo.grw_w g) = None ->
  http.committed (GzipGo.sink (GGView.forward b g))
  = Some (http.StatusOK, GzipGo.Header g).
Proof.
  intros E Hw He. unfold GGView.forward, GzipGo.codecWrite, GzipGo.plainWrite.
  destruct (GzipGo.status_eqb _ _).
  - pose proof (XFacts.x_gzWrite_commits b (GzipGo.grw_w g) _ Hw He E) as HW.
    by destruct (compress_gzip.Write _ _).
  - unfold GzipGo.sink, GzipGo.Header, negroni.Header in *. cbn.
    by rewrite XFacts.x_negroni_Write_commits, E.
Qed.

Lemma x_gg_deferred_sent (g : grw) c :
  http.committed (GzipGo.sink g) = Some c ->
  http.committed (GzipGo.sink (GzipGo.deferred g)) = Some c.
Proof.
  intros E. unfold GzipGo.deferred, GzipGo.codecClose.
  destruct (GzipGo.status_eqb _ _); [|done].
  pose proof (XFacts.x_gzClose_sent (GzipGo.grw_w g) _ _ E) as HC.
  by destruct (compress_gzip.Close _).
Qed.

Lemma x_gg_SentOK_HeaderUpd f (g : grw) :
  Extra.GG_SentOK g -> Extra.GG_SentOK (GzipGo.HeaderUpd f g).
Proof. done. Qed.

Lemma x_gg_SentOK_Write lvl body0 b (g : grw) acc :
  Inv.GG_BodyOK lvl body0 g acc ->
  Extra.GG_SentOK g -> Extra.GG_SentOK (GzipGo.Write b g).
Proof.
  intros HB HS. unfold Extra.GG_SentOK in *.
  rewrite GGFacts.gg_Write_view, GGFacts.gg_forward_status.
  unfold Inv.GG_BodyOK in HB.
  destruct (GzipGo.grw_status g) eqn:E.
  - destruct HB as (_ & Hwh & _ & Herr & _).
    assert (GzipGo.grw_status (GGView.sniffed b g)
            = GzipGo.COMPRESSION_UNDEFINED) as E1
      by (by rewrite GGFacts.gg_sniffed_status).
    rewrite x_gg_forward_commits.
    + rewrite GGFacts.gg_compressContent_status,
        GGFacts.gg_compressContent_Header by done.
      destruct (GzipGo.allowed _).1; [|done].
      eexists. split; [done|]. apply x_gg_gzipHeaders_announce.
    + by rewrite x_gg_compressContent_sent, x_gg_sniffed_sent.
    + by rewrite GGFacts.gg_compressContent_w, x_gg_sniffed_w.
    + by rewrite GGFacts.gg_compressContent_w, x_gg_sniffed_w.
  - rewrite GGFacts.gg_compressContent_decided
      by (rewrite GGFacts.gg_sniffed_status; congruence).
    rewrite GGFacts.gg_sniffed_status, E.
    destruct (http.committed (GzipGo.sink g)) as [c|] eqn:Ec; [|done].
    rewrite (x_gg_forward_sent b _ c); [done|].
    by rewrite x_gg_sniffed_sent.
  - rewrite GGFacts.gg_compressContent_decided
      by (rewrite GGFacts.gg_sniffed_status; congruence).
    rewrite GGFacts.gg_sniffed_status, E.
    destruct HS as (hs & Ec & Hs).
    rewrite (x_gg_forward_sent b _ (http.StatusOK, hs)); [eauto|].
    by rewrite x_gg_sniffed_sent.
Qed.

(** For a handler that never commits the header itself, both invariants
    hold at the end of the run. *)
Lemma x_gg_SentOK_exec lvl body0 p (g : grw) acc :
  Extra.noWriteHeader p ->
  Inv.GG_BodyOK lvl body0 g acc ->
  Extra.GG_SentOK g ->
  Extra.GG_SentOK (http.exec p g).
Proof.
  intros Hp HB HS.
  cut (Inv.GG_BodyOK lvl body0 (http.exec p g) (acc ++ http.written p g) /\
       Extra.GG_SentOK (http.exec p g)); [tauto|].
  apply (XFacts.x_exec_invariant_noWriteHeader
           (fun g acc => Inv.GG_BodyOK lvl body0 g acc /\ Extra.GG_SentOK g));
    [| |done|done].
  - intros w a b [H1 H2]. split.
    + by apply GGFacts.gg_BodyOK_Write.
    + by apply (x_gg_SentOK_Write lvl body0 b w a).
  - intros w a f [H1 H2]. split; [exact H1|exact H2].
Qed.

(** *** The callback is never replaced *)

Lemma x_gg_compressContent_allow (g : grw) :
  GzipGo.grw_allowCompression (GzipGo.compressContent g).1
  = GzipGo.grw_allowCompression g.
Proof.
  unfold GzipGo.compressContent, GzipGo.allowed.
  destruct (GzipGo.status_eqb _ _); [|done].
  destruct (GzipGo.grw_allowCompression g) as [fn|] eqn:E; [|by cbn; rewrite ?E].
  destruct (fn _ _); cbn; by rewrite ?E.
Qed.

Lemma x_gg_Write_allow b (g : grw) :
  GzipGo.grw_allowCompression (GzipGo.Write b g)
  = GzipGo.grw_allowCompression g.
Proof.
  rewrite GGFacts.gg_Write_view.
  by rewrite GGFacts.gg_forward_allow, x_gg_compressContent_allow,
    GGFacts.gg_sniffed_allow.
Qed.

Lemma x_gg_allowed_permits (g : grw) :
  Extra.alwaysPermits (GzipGo.grw_allowCompression g) ->
  (GzipGo.allowed g).1 = true.
Proof.
  unfold GzipGo.allowed, Extra.alwaysPermits.
  destruct (GzipGo.grw_allowCompression g); [|done]. intros H. apply H.
Qed.

Lemma x_gg_allowed_refuses (g : grw) :
  Extra.alwaysRefuses (GzipGo.grw_allowCompression g) ->
  (GzipGo.allowed g).1 = false.
Proof.
  unfold GzipGo.allowed, Extra.alwaysRefuses.
  destruct (GzipGo.grw_allowCompression g); [|done]. intros H. apply H.
Qed.

(** The status a write leaves, by the status it finds. *)
Lemma x_gg_Write_status b (g : grw) :
  GzipGo.grw_status (GzipGo.Write b g) =
  match GzipGo.grw_status g with
  | GzipGo.COMPRESSION_UNDEFINED =>
      if (GzipGo.allowed (GGView.sniffed b g)).1
      then GzipGo.COMPRESSION_ENABLED else GzipGo.COMPRESSION_DISABLED
  | st => st
  end.
Proof.
  rewrite GGFacts.gg_Write_view, GGFacts.gg_forward_status.
  destruct (GzipGo.grw_status g) eqn:E.
  - by rewrite GGFacts.gg_compressContent_status
      by (by rewrite GGFacts.gg_sniffed_status).
  - rewrite GGFacts.gg_compressContent_decided;
      rewrite GGFacts.gg_sniffed_status; congruence.
  - rewrite GGFacts.gg_compressContent_decided;
      rewrite GGFacts.gg_sniffed_status; congruence.
Qed.

Lemma x_gg_refused_exec fn p (g : grw) :
  Extra.alwaysRefuses fn ->
  GzipGo.grw_allowCompression g = fn ->
  GzipGo.grw_status g <> GzipGo.COMPRESSION_ENABLED ->
  GzipGo.grw_status (http.exec p g) <> GzipGo.COMPRESSION_ENABLED.
Proof.
  intros Hfn Ha Hs.
  cut (GzipGo.grw_allowCompression (http.exec p g) = fn /\
       GzipGo.grw_status (http.exec p g) <> GzipGo.COMPRESSION_ENABLED);
    [tauto|].
  apply (HttpFacts.exec_preserves
           (fun g => GzipGo.grw_allowCompression g = fn /\
                     GzipGo.grw_status g <> GzipGo.COMPRESSION_ENABLED));
    [| | |done].
  - intros w b [Hw1 Hw2].
    change (http.rwWrite b w) with (GzipGo.Write b w).
    split; [by rewrite x_gg_Write_allow|].
    rewrite x_gg_Write_status. destruct (GzipGo.grw_status w); try done.
    rewrite x_gg_allowed_refuses; [done|].
    by rewrite GGFacts.gg_sniffed_allow, Hw1.
  - intros w code Hw. exact Hw.
  - intros w f Hw. exact Hw.
Qed.

Lemma x_gg_permitted_exec fn p (g : grw) acc :
  Extra.alwaysPermits fn ->
  GzipGo.grw_allowCompression g = fn ->
  GzipGo.grw_status g <> GzipGo.COMPRESSION_DISABLED ->
  (acc <> [] -> GzipGo.grw_status g <> GzipGo.COMPRESSION_UNDEFINED) ->
  GzipGo.grw_status (http.exec p g) <> GzipGo.COMPRESSION_DISABLED /\
  (acc ++ http.written p g <> [] ->
   GzipGo.grw_status (http.exec p g) <> GzipGo.COMPRESSION_UNDEFINED).
Proof.
  intros Hfn Ha Hs Hacc.
  cut (GzipGo.grw_allowCompression (http.exec p g) = fn /\
       GzipGo.grw_status (http.exec p g) <> GzipGo.COMPRESSION_DISABLED /\
       (acc ++ http.written p g <> [] ->
        GzipGo.grw_status (http.exec p g) <> GzipGo.COMPRESSION_UNDEFINED));
    [tauto|].
  apply (HttpFacts.exec_invariant
           (fun g acc =>
              GzipGo.grw_allowCompression g = fn /\
              GzipGo.grw_status g <> GzipGo.COMPRESSION_DISABLED /\
              (acc <> [] ->
               GzipGo.grw_status g <> GzipGo.COMPRESSION_UNDEFINED)));
    [| | |done].
  - intros w a b (Hw1 & Hw2 & Hw3).
    change (http.rwWrite b w) with (GzipGo.Write b w).
    split; [by rewrite x_gg_Write_allow|].
    split; [|intros _; apply GGFacts.gg_Write_status_decided_after].
    rewrite x_gg_Write_status. destruct (GzipGo.grw_status w); try done.
    rewrite x_gg_allowed_permits; [done|].
    by rewrite GGFacts.gg_sniffed_allow, Hw1.
  - intros w a code Hw. exact Hw.
  - intros w a f Hw. exact Hw.
Qed.

End WithPlatform.
End XGG.

Module XMore.
Section WithPlatform.
Context `{SN : http.ContentSniffer} `{CD : compress_gzip.Codec}.

(** Short of enabled, the sink's body is the body it had and the bytes
    written, as written. *)
Lemma x_p1_BodyOK_not_enabled lvl body0 (g : Part001.gzipResponseWriter) acc :
  Inv.P1_BodyOK lvl body0 g acc ->
  Part001.grw_status g <> Part001.COMPRESSION_ENABLED ->
  http.Body (Part001.sink g) = body0 ++ acc.
Proof.
  unfold Inv.P1_BodyOK. destruct (Part001.grw_status g); [|done|done].
  intros (-> & Hwh & _ & _ & _ & _ & Hst) _. rewrite Hwh in Hst.
  destruct Hst as (_ & _ & ->). by rewrite app_nil_r.
Qed.

Lemma x_gg_BodyOK_not_enabled lvl body0 (g : GzipGo.gzipResponseWriter) acc :
  Inv.GG_BodyOK lvl body0 g acc ->
  GzipGo.grw_status g <> GzipGo.COMPRESSION_ENABLED ->
  http.Body (GzipGo.sink g) = body0 ++ acc.
Proof.
  unfold Inv.GG_BodyOK. destruct (GzipGo.grw_status g); [|done|done].
  intros (-> & Hwh & _ & _ & _ & _ & Hst) _. rewrite Hwh in Hst.
  destruct Hst as (_ & _ & ->). by rewrite app_nil_r.
Qed.

(** The deferred function does nothing short of enabled. *)
Lemma x_p1_deferred_not_enabled (g : Part001.gzipResponseWriter) :
  Part001.grw_status g <> Part001.COMPRESSION_ENABLED -> Part001.deferred g = g.
Proof. unfold Part001.deferred. by destruct (Part001.grw_status g). Qed.

Lemma x_gg_deferred_not_enabled (g : GzipGo.gzipResponseWriter) :
  GzipGo.grw_status g <> GzipGo.COMPRESSION_ENABLED -> GzipGo.deferred g = g.
Proof. unfold GzipGo.deferred. by destruct (GzipGo.grw_status g). Qed.

(** A decorated outcome is the deferred function applied to the run of
    the next handler against a fresh writer. *)
Lemma x_p1_Decorated h w r next g :
  Part001.ServeHTTP h w r next = Part001.Decorated g ->
  exists gz,
    compress_gzip.NewWriterLevel (Part001.compressionLevel h) = inl gz /\
    g = Part001.deferred (http.exec (next r) (Part001.newGrw h gz w r)).
Proof.
  rewrite P1Facts.p1_ServeHTTP_cases. destruct (_ || _); [done|].
  destruct (compress_gzip.NewWriterLevel _) as [gz|]; [|done].
  intros [= <-]. by exists gz.
Qed.

Lemma x_gg_Decorated h w r next g :
  GzipGo.ServeHTTP h w r next = GzipGo.Decorated g ->
  exists gz,
    compress_gzip.NewWriterLevel (GzipGo.compressionLevel h) = inl gz /\
    g = GzipGo.deferred (http.exec (next r) (GzipGo.newGrw h gz w r)).
Proof.
  rewrite GGFacts.gg_ServeHTTP_cases. destruct (_ || _); [done|].
  destruct (compress_gzip.NewWriterLevel _) as [gz|]; [|done].
  intros [= <-]. by exists gz.
Qed.

(** Closing a codec writer that was never written to emits the stream of
    one empty chunk, of which a sink that accepts no body gets the header
    only. *)
Lemma x_Close_fresh lvl z s :
  compress_gzip.NewWriterLevel lvl = inl z ->
  http.Body (compress_gzip.Close (z, s)).2
  = http.Body s
    ++ (if http.takesBody s then compress_gzip.gzip_stream lvl [[]]
        else compress_gzip.gzip_header lvl).
Proof.
  unfold compress_gzip.NewWriterLevel. destruct (_ || _); [done|].
  intros [= <-]. unfold compress_gzip.Close, compress_gzip.Write,
    compress_gzip.gzip_stream. cbn.
  rewrite HttpFacts.sinkWriteResult_eq.
  destruct (http.takesBody s) eqn:Ht; cbn.
  - destruct (compress_gzip.flate_Write _ _) as [c o]. cbn.
    set (s1 := http.sinkWrite (compress_gzip.gzip_header lvl) s).
    assert (http.takesBody s1 = true) as Ht1
      by (subst s1; by rewrite HttpFacts.takesBody_sinkWrite).
    pose proof (GzipFacts.Body_emit o s1) as HB.
    pose proof (GzipFacts.takesBody_emit o s1) as HT.
    pose proof (GzipFacts.emit_accepted o s1 Ht1) as HE.
    destruct (compress_gzip.emit o s1) as [s2 e]. cbn in HB, HT, HE. subst e.
    cbn.
    assert (http.takesBody s2 = true) as Ht2 by congruence.
    pose proof (GzipFacts.Body_emit (compress_gzip.flate_Close c) s2) as HB'.
    pose proof (GzipFacts.takesBody_emit (compress_gzip.flate_Close c) s2) as HT'.
    pose proof (GzipFacts.emit_accepted (compress_gzip.flate_Close c) s2 Ht2)
      as HE'.
    destruct (compress_gzip.emit _ s2) as [s3 e]. cbn in HB', HT', HE'. subst e.
    cbn. rewrite HttpFacts.Body_sinkWrite, HB', HB. subst s1.
    rewrite HttpFacts.Body_sinkWrite.
    by rewrite app_nil_r, <- !app_assoc.
  - apply HttpFacts.Body_sinkWrite.
Qed.

Lemma x_p1_sniffed_present b (g : Part001.gzipResponseWriter) :
  http.Get (Part001.Header g) Part001.headerContentType <> "" ->
  P1View.sniffed b g = g.
Proof.
  intros E. unfold P1View.sniffed.
  destruct (_ =? _)%nat eqn:El; [|done]. by apply HttpFacts.length_zero in El.
Qed.

(** Whatever its state, a write in part_001 leaves a Content-Type that is
    there as it is. *)
Lemma x_p1_Write_keeps_ContentType b (g : Part001.gzipResponseWriter) :
  http.Get (Part001.Header g) Part001.headerContentType <> "" ->
  http.Get (Part001.Header (Part001.Write b g)) Part001.headerContentType
  = http.Get (Part001.Header g) Part001.headerContentType.
Proof.
  intros Hct. destruct (Part001.grw_status g) eqn:E.
  - rewrite P1Facts.p1_Write_check, P1Facts.p1_forward_Header by done.
    rewrite x_p1_sniffed_present by done.
    rewrite P1Facts.p1_WriteHeader_Header_check by done.
    destruct (Part001.allowed g).1; [|done].
    apply P1Facts.p1_gzipHeaders_ContentType.
  - by destruct (P1Facts.p1_Write_inert b g) as (_ & -> & _); [congruence|].
  - by destruct (P1Facts.p1_Write_inert b g) as (_ & -> & _); [congruence|].
Qed.

Lemma x_gg_Write_ContentType b (g : GzipGo.gzipResponseWriter) :
  http.Get (GzipGo.Header (GzipGo.Write b g)) GzipGo.headerContentType
  = if (String.length (http.Get (GzipGo.Header g) GzipGo.headerContentType)
        =? 0)%nat
    then http.DetectContentType b
    else http.Get (GzipGo.Header g) GzipGo.headerContentType.
Proof.
  rewrite GGFacts.gg_Write_view, GGFacts.gg_forward_Header,
    GGFacts.gg_compressContent_ContentType.
  unfold GGView.sniffed. destruct (_ =? _)%nat; [|done].
  unfold GzipGo.Header, negroni.Header. cbn.
  rewrite HttpFacts.HeaderMap_sinkHeaderUpd. cbn.
  apply HttpFacts.Get_Set_same.
Qed.

Lemma x_gg_Write_sent b (g : GzipGo.gzipResponseWriter) c :
  http.committed (GzipGo.sink g) = Some c ->
  http.committed (GzipGo.sink (GzipGo.Write b g)) = Some c.
Proof.
  intros E. rewrite GGFacts.gg_Write_view. apply XGG.x_gg_forward_sent.
  by rewrite XGG.x_gg_compressContent_sent, XGG.x_gg_sniffed_sent.
Qed.

(** *** What negroni's writer counts *)

(** negroni's writer adds the count that the wrapped writer returns: the
    length of the chunk, or nothing when the write is refused. *)
Lemma x_negroni_Write_size b rw :
  negroni.size (negroni.Write b rw)
  = negroni.size rw
    + (if http.takesBody (negroni.ResponseWriter rw)
       then Z.of_nat (length b) else 0).
Proof.
  unfold negroni.Write. cbn [negroni.size].
  rewrite HttpFacts.sinkWriteResult_eq.
  destruct (negroni.Written rw).
  - by destruct (http.takesBody _).
  - unfold negroni.WriteHeader. cbn.
    rewrite HttpFacts.takesBody_sinkWriteHeader_OK.
    by destruct (http.takesBody _).
Qed.

Lemma x_negroni_Write_status b rw :
  negroni.status (negroni.Write b rw) =
  if negroni.Written rw then negroni.status rw else http.StatusOK.
Proof.
  unfold negroni.Write. cbn [negroni.status].
  by destruct (negroni.Written rw).
Qed.

Lemma x_p1_forward_size b (g : Part001.gzipResponseWriter) :
  negroni.size (Part001.grw_ResponseWriter (P1View.forward b g)) =
  negroni.size (Part001.grw_ResponseWriter g)
  + (if Part001.status_eqb (Part001.grw_status g) Part001.COMPRESSION_ENABLED
     then 0
     else if http.takesBody (Part001.sink g) then Z.of_nat (length b) else 0).
Proof.
  unfold P1View.forward, Part001.codecWrite, Part001.plainWrite.
  destruct (Part001.status_eqb _ _).
  - destruct (compress_gzip.Write _ _). cbn. lia.
  - cbn. apply x_negroni_Write_size.
Qed.

Lemma x_gg_forward_size b (g : GzipGo.gzipResponseWriter) :
  negroni.size (GzipGo.grw_ResponseWriter (GGView.forward b g)) =
  negroni.size (GzipGo.grw_ResponseWriter g)
  + (if GzipGo.status_eqb (GzipGo.grw_status g) GzipGo.COMPRESSION_ENABLED
     then 0
     else if http.takesBody (GzipGo.sink g) then Z.of_nat (length b) else 0).
Proof.
  unfold GGView.forward, GzipGo.codecWrite, GzipGo.plainWrite.
  destruct (GzipGo.status_eqb _ _).
  - destruct (compress_gzip.Write _ _). cbn. lia.
  - cbn. apply x_negroni_Write_size.
Qed.

Lemma x_p1_WriteHeader_size code (g : Part001.gzipResponseWriter) :
  negroni.size (Part001.grw_ResponseWriter (Part001.WriteHeader code g))
  = negroni.size (Part001.grw_ResponseWriter g).
Proof.
  unfold Part001.WriteHeader, Part001.allowed.
  destruct (Part001.status_eqb _ _); [|done].
  destruct (Part001.grw_allowCompression g) as [fn|]; [destruct (fn _ _)|];
    done.
Qed.

(** The commit that a write makes is of [200], which allows a body: the
    sink is as willing after it as before. *)
Lemma x_p1_commit_takesBody b (g : Part001.gzipResponseWriter) :
  http.takesBody
    (Part001.sink (Part001.WriteHeader http.StatusOK (P1View.sniffed b g)))
  = http.takesBody (Part001.sink g).
Proof.
  rewrite P1Facts.p1_WriteHeader_takesBody.
  pose proof (P1Facts.p1_sniffed_takesBody b g) as Hs.
  assert (http.committed (Part001.sink (P1View.sniffed b g))
          = http.committed (Part001.sink g)) as Hc
    by (unfold P1View.sniffed; by destruct (_ =? _)%nat).
  rewrite Hc, Hs. unfold http.takesBody.
  by destruct (http.committed (Part001.sink g)).
Qed.

Lemma x_p1_WriteHeader_nstatus code (g : Part001.gzipResponseWriter) :
  negroni.status (Part001.grw_ResponseWriter (Part001.WriteHeader code g))
  = code.
Proof.
  unfold Part001.WriteHeader, Part001.allowed.
  destruct (Part001.status_eqb _ _); [|done].
  destruct (Part001.grw_allowCompression g) as [fn|]; [destruct (fn _ _)|];
    done.
Qed.

Lemma x_p1_sniffed_size b (g : Part001.gzipResponseWriter) :
  negroni.size (Part001.grw_ResponseWriter (P1View.sniffed b g))
  = negroni.size (Part001.grw_ResponseWriter g).
Proof. unfold P1View.sniffed. by destruct (_ =? _)%nat. Qed.

Lemma x_gg_sniffed_nrw b (g : GzipGo.gzipResponseWriter) :
  negroni.size (GzipGo.grw_ResponseWriter (GGView.sniffed b g))
  = negroni.size (GzipGo.grw_ResponseWriter g) /\
  negroni.status (GzipGo.grw_ResponseWriter (GGView.sniffed b g))
  = negroni.status (GzipGo.grw_ResponseWriter g).
Proof. unfold GGView.sniffed. by destruct (_ =? _)%nat. Qed.

Lemma x_gg_compressContent_nrw (g : GzipGo.gzipResponseWriter) :
  negroni.size (GzipGo.grw_ResponseWriter (GzipGo.compressContent g).1)
  = negroni.size (GzipGo.grw_ResponseWriter g) /\
  negroni.status (GzipGo.grw_ResponseWriter (GzipGo.compressContent g).1)
  = negroni.status (GzipGo.grw_ResponseWriter g).
Proof.
  unfold GzipGo.compressContent, GzipGo.allowed.
  destruct (GzipGo.status_eqb _ _); [|done].
  destruct (GzipGo.grw_allowCompression g) as [fn|]; [destruct (fn _ _)|];
    done.
Qed.

End WithPlatform.
End XMore.

(* ===================================================================== *)
(** * Further properties of the code                                      *)
(* ===================================================================== *)

(** X1. A decorated cycle that does not end enabled (the predicate refused,
    or the handler never triggered the decision) is a pass-through: the
    sink's body has grown by exactly the bytes the handler wrote, the codec
    writer is still open, and the log holds no compression header mutation
    and no close. Both revisions. *)
Theorem X1_cycle_not_enabled_passes_bytes_through
  `{SN : http.ContentSniffer} `{CD : compress_gzip.Codec} :
  (forall (h : Part001.handler) w r next g,
     Part001.ServeHTTP h w r next = Part001.Decorated g ->
     Part001.grw_status g <> Part001.COMPRESSION_ENABLED ->
     exists gz,
       compress_gzip.NewWriterLevel (Part001.compressionLevel h) = inl gz /\
       http.Body (Part001.sink g)
         = http.Body w ++ http.written (next r) (Part001.newGrw h gz w r) /\
       compress_gzip.closed (Part001.grw_w g) = false /\
       occurrences CodecClosed (Part001.grw_log g) = 0%nat /\
       occurrences (HeaderChanged
           (http.HSet Part001.headerContentEncoding Part001.encodingGzip))
         (Part001.grw_log g) = 0%nat /\
       occurrences (HeaderChanged
           (http.HSet Part001.headerVary Part001.headerAcceptEncoding))
         (Part001.grw_log g) = 0%nat /\
       occurrences (HeaderChanged (http.HDel Part001.headerContentLength))
         (Part001.grw_log g) = 0%nat)
  /\
  (forall (h : GzipGo.handler) w r next g,
     GzipGo.ServeHTTP h w r next = GzipGo.Decorated g ->
     GzipGo.grw_status g <> GzipGo.COMPRESSION_ENABLED ->
     exists gz,
       compress_gzip.NewWriterLevel (GzipGo.compressionLevel h) = inl gz /\
       http.Body (GzipGo.sink g)
         = http.Body w ++ http.written (next r) (GzipGo.newGrw h gz w r) /\
       compress_gzip.closed (GzipGo.grw_w g) = false /\
       occurrences CodecClosed (GzipGo.grw_log g) = 0%nat /\
       occurrences (HeaderChanged
           (http.HSet GzipGo.headerContentEncoding GzipGo.encodingGzip))
         (GzipGo.grw_log g) = 0%nat /\
       occurrences (HeaderChanged
           (http.HSet GzipGo.headerVary GzipGo.headerAcceptEncoding))
         (GzipGo.grw_log g) = 0%nat /\
       occurrences (HeaderChanged (http.HDel GzipGo.headerContentLength))
         (GzipGo.grw_log g) = 0%nat).
Proof.
  split.
  - intros h w r next g Hs Hne.
    destruct (XMore.x_p1_Decorated _ _ _ _ _ Hs) as (gz & En & ->).
    rewrite P1Facts.p1_deferred_status in Hne.
    rewrite XMore.x_p1_deferred_not_enabled by done.
    exists gz. split; [done|].
    destruct (GzipFacts.Streaming_new _ _ [] En) as (_ & Hc & _).
    pose proof (P1Facts.p1_LogOK_exec (next r) _
                  (P1Facts.p1_LogOK_new h gz w r Hc))
      as (_ & H2 & H3 & H4 & H5 & H6).
    pose proof (P1Facts.p1_BodyOK_exec _ _ (next r) _ _
                  (P1Facts.p1_BodyOK_new h _ gz w r En)) as HB.
    rewrite (XMore.x_p1_BodyOK_not_enabled _ _ _ _ HB Hne).
    rewrite H2, H3, H4, H5, H6.
    by destruct (Part001.grw_status _).
  - intros h w r next g Hs Hne.
    destruct (XMore.x_gg_Decorated _ _ _ _ _ Hs) as (gz & En & ->).
    rewrite GGFacts.gg_deferred_status in Hne.
    rewrite XMore.x_gg_deferred_not_enabled by done.
    exists gz. split; [done|].
    destruct (GzipFacts.Streaming_new _ _ [] En) as (_ & Hc & _).
    pose proof (GGFacts.gg_LogOK_exec (next r) _
                  (GGFacts.gg_LogOK_new h gz w r Hc))
      as (_ & H2 & H3 & H4 & H5 & H6).
    pose proof (GGFacts.gg_BodyOK_exec _ _ (next r) _ _
                  (GGFacts.gg_BodyOK_new h _ gz w r En)) as HB.
    rewrite (XMore.x_gg_BodyOK_not_enabled _ _ _ _ HB Hne).
    rewrite H2, H3, H4, H5, H6.
    by destruct (GzipGo.grw_status _).
Qed.

(** X2. With a callback that refuses whatever it is shown, no cycle ends
    enabled, whatever the downstream handler does: the response is
    decorated and never compressed. Both revisions. *)
Theorem X2_refusing_callback_never_enables
  `{SN : http.ContentSniffer} `{CD : compress_gzip.Codec} :
  (forall (h : Part001.handler) w r next g,
     Extra.alwaysRefuses (Part001.allowCompression h) ->
     Part001.ServeHTTP h w r next = Part001.Decorated g ->
     Part001.grw_status g <> Part001.COMPRESSION_ENABLED)
  /\
  (forall (h : GzipGo.handler) w r next g,
     Extra.alwaysRefuses (GzipGo.allowCompression h) ->
     GzipGo.ServeHTTP h w r next = GzipGo.Decorated g ->
     GzipGo.grw_status g <> GzipGo.COMPRESSION_ENABLED).
Proof.
  split.
  - intros h w r next g Hfn Hs.
    destruct (XMore.x_p1_Decorated _ _ _ _ _ Hs) as (gz & En & ->).
    rewrite P1Facts.p1_deferred_status.
    by apply (XP1.x_p1_refused_exec (Part001.allowCompression h)).
  - intros h w r next g Hfn Hs.
    destruct (XMore.x_gg_Decorated _ _ _ _ _ Hs) as (gz & En & ->).
    rewrite GGFacts.gg_deferred_status.
    by apply (XGG.x_gg_refused_exec (GzipGo.allowCompression h)).
Qed.

(** X3. With no callback, or one that permits whatever it is shown, no
    decorated cycle ends disabled, and every one in which the handler
    writes at least one byte ends enabled, whatever headers the handler
    set before (a Content-Encoding of its own included): the sink, when the
    status it is committed to allows a body, then holds one gzip stream of
    chunks that concatenate to the bytes written. Both revisions. *)
Theorem X3_permitting_callback_compresses_every_body
  `{SN : http.ContentSniffer} `{CD : compress_gzip.Codec} :
  (forall (h : Part001.handler) gz w r next,
     Extra.alwaysPermits (Part001.allowCompression h) ->
     compress_gzip.NewWriterLevel (Part001.compressionLevel h) = inl gz ->
     let g := Part001.deferred (http.exec (next r) (Part001.newGrw h gz w r)) in
     Part001.grw_status g <> Part001.COMPRESSION_DISABLED /\
     (http.written (next r) (Part001.newGrw h gz w r) <> [] ->
      Part001.grw_status g = Part001.COMPRESSION_ENABLED /\
      (http.takesBody (Part001.sink g) = true ->
       exists chunks,
         concat chunks = http.written (next r) (Part001.newGrw h gz w r) /\
         http.Body (Part001.sink g)
           = http.Body w
             ++ compress_gzip.gzip_stream (Part001.compressionLevel h) chunks)))
  /\
  (forall (h : GzipGo.handler) gz w r next,
     Extra.alwaysPermits (GzipGo.allowCompression h) ->
     compress_gzip.NewWriterLevel (GzipGo.compressionLevel h) = inl gz ->
     let g := GzipGo.deferred (http.exec (next r) (GzipGo.newGrw h gz w r)) in
     GzipGo.grw_status g <> GzipGo.COMPRESSION_DISABLED /\
     (http.written (next r) (GzipGo.newGrw h gz w r) <> [] ->
      GzipGo.grw_status g = GzipGo.COMPRESSION_ENABLED /\
      (http.takesBody (GzipGo.sink g) = true ->
       exists chunks,
         concat chunks = http.written (next r) (GzipGo.newGrw h gz w r) /\
         http.Body (GzipGo.sink g)
           = http.Body w
             ++ compress_gzip.gzip_stream (GzipGo.compressionLevel h) chunks))).
Proof.
  split.
  - intros h gz w r next Hfn En g. subst g.
    rewrite P1Facts.p1_deferred_status, P1Facts.p1_deferred_takesBody.
    destruct (XP1.x_p1_permitted_exec (Part001.allowCompression h) (next r)
                (Part001.newGrw h gz w r) [] Hfn eq_refl)
      as [Hnd Hdec]; [done|done|].
    split; [exact Hnd|]. intros Hw. specialize (Hdec Hw).
    assert (Part001.grw_status
              (http.exec (next r) (Part001.newGrw h gz w r))
            = Part001.COMPRESSION_ENABLED) as Hen
      by (by destruct (Part001.grw_status _)).
    split; [exact Hen|]. intros Ht.
    destruct (GzipFacts.Streaming_new _ _ [] En) as (_ & Hc & _).
    pose proof (P1Facts.p1_LogOK_exec (next r) _
                  (P1Facts.p1_LogOK_new h gz w r Hc)) as (_ & _ & _ & _ & _ & Hcl).
    pose proof (P1Facts.p1_BodyOK_exec _ _ (next r) _ _
                  (P1Facts.p1_BodyOK_new h _ gz w r En)) as HB.
    exact (P1Facts.p1_deferred_Body _ _ _ _ HB Hcl Hen Ht).
  - intros h gz w r next Hfn En g. subst g.
    rewrite GGFacts.gg_deferred_status, GGFacts.gg_deferred_takesBody.
    destruct (XGG.x_gg_permitted_exec (GzipGo.allowCompression h) (next r)
                (GzipGo.newGrw h gz w r) [] Hfn eq_refl)
      as [Hnd Hdec]; [done|done|].
    split; [exact Hnd|]. intros Hw. specialize (Hdec Hw).
    assert (GzipGo.grw_status
              (http.exec (next r) (GzipGo.newGrw h gz w r))
            = GzipGo.COMPRESSION_ENABLED) as Hen
      by (by destruct (GzipGo.grw_status _)).
    split; [exact Hen|]. intros Ht.
    destruct (GzipFacts.Streaming_new _ _ [] En) as (_ & Hc & _).
    pose proof (GGFacts.gg_LogOK_exec (next r) _
                  (GGFacts.gg_LogOK_new h gz w r Hc)) as (_ & _ & _ & _ & _ & Hcl).
    pose proof (GGFacts.gg_BodyOK_exec _ _ (next r) _ _
                  (GGFacts.gg_BodyOK_new h _ gz w r En)) as HB.
    exact (GGFacts.gg_deferred_Body _ _ _ _ HB Hcl Hen Ht).
Qed.

(** X4. part_001, over a sink that has sent nothing: while the state is
    undecided nothing is sent, no status line and no byte; and when a cycle
    ends enabled, the headers that went out with the status line have
    Content-Encoding gzip, Vary Accept-Encoding and no Content-Length,
    whichever of [WriteHeader] and [Write] came first and whatever the
    handler did to the header map afterwards. *)
Theorem X4_part001_sends_the_compression_headers
  `{SN : http.ContentSniffer} `{CD : compress_gzip.Codec}
  (h : Part001.handler) (w : http.Sink) (r : http.Request)
  (next : http.HandlerFunc) (g : Part001.gzipResponseWriter) :
  http.committed w = None ->
  Part001.ServeHTTP h w r next = Part001.Decorated g ->
  (Part001.grw_status g = Part001.COMPRESSION_CHECK ->
   http.committed (Part001.sink g) = None /\
   http.Body (Part001.sink g) = http.Body w) /\
  (Part001.grw_status g = Part001.COMPRESSION_ENABLED ->
   exists code hs,
     http.committed (Part001.sink g) = Some (code, hs) /\
     http.Get hs Part001.headerContentEncoding = Part001.encodingGzip /\
     http.Values hs Part001.headerVary = [Part001.headerAcceptEncoding] /\
     http.Get hs Part001.headerContentLength = "").
Proof.
  intros Hw Hs.
  destruct (XMore.x_p1_Decorated _ _ _ _ _ Hs) as (gz & En & ->).
  rewrite P1Facts.p1_deferred_status.
  pose proof (XP1.x_p1_SentOK_exec (next r) (Part001.newGrw h gz w r) Hw) as HS.
  pose proof (P1Facts.p1_BodyOK_exec _ _ (next r) _ _
                (P1Facts.p1_BodyOK_new h _ gz w r En)) as HB.
  unfold Extra.P1_SentOK in HS. split.
  - intros E. rewrite XMore.x_p1_deferred_not_enabled by congruence.
    rewrite E in HS. split; [exact HS|].
    unfold Inv.P1_BodyOK in HB. rewrite E in HB.
    destruct HB as (_ & Hwh & _ & _ & _ & _ & Hst). rewrite Hwh in Hst.
    by destruct Hst as (_ & _ & ->).
  - intros E. rewrite E in HS. destruct HS as (code & hs & Hc & [H1 H2] & H3).
    exists code, hs. by rewrite (XP1.x_p1_deferred_sent _ _ Hc).
Qed.

(** X5. gzip/gzip.go, over a sink that has sent nothing, for a handler that
    never calls [WriteHeader] itself: when the cycle ends enabled, the
    status line went out with code 200 and with Content-Encoding gzip and
    Vary Accept-Encoding among its headers. *)
Theorem X5_gzipgo_sends_the_compression_headers_on_first_write
  `{SN : http.ContentSniffer} `{CD : compress_gzip.Codec}
  (h : GzipGo.handler) (w : http.Sink) (r : http.Request)
  (next : http.HandlerFunc) (g : GzipGo.gzipResponseWriter) :
  http.committed w = None ->
  Extra.noWriteHeader (next r) ->
  GzipGo.ServeHTTP h w r next = GzipGo.Decorated g ->
  GzipGo.grw_status g = GzipGo.COMPRESSION_ENABLED ->
  exists hs,
    http.committed (GzipGo.sink g) = Some (http.StatusOK, hs) /\
    http.Get hs GzipGo.headerContentEncoding = GzipGo.encodingGzip /\
    http.Values hs GzipGo.headerVary = [GzipGo.headerAcceptEncoding].
Proof.
  intros Hw Hp Hs.
  destruct (XMore.x_gg_Decorated _ _ _ _ _ Hs) as (gz & En & ->).
  rewrite GGFacts.gg_deferred_status. intros E.
  pose proof (XGG.x_gg_SentOK_exec _ _ (next r) (GzipGo.newGrw h gz w r) []
                Hp (GGFacts.gg_BodyOK_new h _ gz w r En) Hw) as HS.
  unfold Extra.GG_SentOK in HS. rewrite E in HS.
  destruct HS as (hs & Hc & [H1 H2]).
  exists hs. by rewrite (XGG.x_gg_deferred_sent _ _ Hc).
Qed.

(** X6. [Write] touches the Content-Type only when there is none. A
    Content-Type that is set survives every write, in any state, in both
    revisions. When there is none, gzip/gzip.go sets it from the chunk at
    every write, decided or not, while part_001 sniffs only at the write
    that finds the state undecided: once decided, a write leaves an empty
    Content-Type empty. *)
Theorem X6_content_type_is_sniffed_only_when_missing
  `{SN : http.ContentSniffer} `{CD : compress_gzip.Codec} :
  (forall (g : Part001.gzipResponseWriter) b,
     http.Get (Part001.Header g) Part001.headerContentType <> "" ->
     http.Get (Part001.Header (Part001.Write b g)) Part001.headerContentType
     = http.Get (Part001.Header g) Part001.headerContentType)
  /\
  (forall (g : Part001.gzipResponseWriter) b,
     Part001.grw_status g <> Part001.COMPRESSION_CHECK ->
     http.Get (Part001.Header (Part001.Write b g)) Part001.headerContentType
     = http.Get (Part001.Header g) Part001.headerContentType)
  /\
  (forall (g : GzipGo.gzipResponseWriter) b,
     http.Get (GzipGo.Header g) GzipGo.headerContentType <> "" ->
     http.Get (GzipGo.Header (GzipGo.Write b g)) GzipGo.headerContentType
     = http.Get (GzipGo.Header g) GzipGo.headerContentType)
  /\
  (forall (g : GzipGo.gzipResponseWriter) b,
     http.Get (GzipGo.Header g) GzipGo.headerContentType = "" ->
     http.Get (GzipGo.Header (GzipGo.Write b g)) GzipGo.headerContentType
     = http.DetectContentType b).
Proof.
  split_and!.
  - intros g b. apply XMore.x_p1_Write_keeps_ContentType.
  - intros g b Hd. by destruct (P1Facts.p1_Write_inert b g Hd) as (_ & -> & _).
  - intros g b Hct. rewrite XMore.x_gg_Write_ContentType.
    destruct (_ =? _)%nat eqn:El; [|done]. by apply HttpFacts.length_zero in El.
  - intros g b Hct. rewrite XMore.x_gg_Write_ContentType. by rewrite Hct.
Qed.

(** X7. gzip/gzip.go, when the handler commits the header before its first
    write: the status line goes out with the headers as they are at the
    commit, and the write that follows, which enables compression and sets
    Content-Encoding in the header map, changes nothing of what was sent.
    The body is compressed and the headers sent do not say so, unless the
    handler had set them itself. *)
Theorem X7_gzipgo_commit_before_write_sends_stale_headers
  `{SN : http.ContentSniffer} `{CD : compress_gzip.Codec}
  (g : GzipGo.gzipResponseWriter) (code : Z) (b : bytes) :
  GzipGo.grw_status g = GzipGo.COMPRESSION_UNDEFINED ->
  http.committed (GzipGo.sink g) = None ->
  Extra.alwaysPermits (GzipGo.grw_allowCompression g) ->
  let g2 := GzipGo.Write b (GzipGo.WriteHeader code g) in
  GzipGo.grw_status g2 = GzipGo.COMPRESSION_ENABLED /\
  http.Get (GzipGo.Header g2) GzipGo.headerContentEncoding = GzipGo.encodingGzip /\
  http.committed (GzipGo.sink g2) = Some (code, GzipGo.Header g).
Proof.
  intros E Hc Hfn g2. subst g2.
  set (g1 := GzipGo.WriteHeader code g).
  assert (GzipGo.grw_status g1 = GzipGo.COMPRESSION_UNDEFINED) as E1 by done.
  assert (GzipGo.grw_status (GzipGo.Write b g1) = GzipGo.COMPRESSION_ENABLED)
    as Hen.
  { rewrite XGG.x_gg_Write_status, E1.
    rewrite XGG.x_gg_allowed_permits; [done|].
    by rewrite GGFacts.gg_sniffed_allow. }
  split; [exact Hen|]. split.
  - rewrite GGFacts.gg_Write_enables by done.
    apply GGFacts.gg_gzipHeaders_ContentEncoding.
  - apply XMore.x_gg_Write_sent. unfold g1, GzipGo.WriteHeader, GzipGo.sink,
      GzipGo.Header, negroni.Header, negroni.WriteHeader in *. cbn.
    by rewrite HttpFacts.committed_sinkWriteHeader, Hc.
Qed.

(** X8. A handler that commits a status code and writes no body, over a
    sink that has sent nothing. In part_001 (callback absent or
    permitting) the commit enables compression and the deferred function
    closes a codec writer that was never written to: under a status that
    allows a body the sink's body grows by the gzip stream of one empty
    chunk; under a status that allows none (1xx, 204, 304) it grows by the
    gzip header alone, which the sink records and refuses. In gzip/gzip.go
    the same handler leaves the state undecided and the sink exactly as a
    bare [WriteHeader] on it would. *)
Theorem X8_header_only_cycle
  `{SN : http.ContentSniffer} `{CD : compress_gzip.Codec} :
  (forall (h : Part001.handler) gz w r code,
     Extra.alwaysPermits (Part001.allowCompression h) ->
     compress_gzip.NewWriterLevel (Part001.compressionLevel h) = inl gz ->
     http.committed w = None ->
     let g := Part001.deferred
                (http.exec (http.CallWriteHeader code http.Return)
                   (Part001.newGrw h gz w r)) in
     Part001.grw_status g = Part001.COMPRESSION_ENABLED /\
     fst <$> http.committed (Part001.sink g) = Some code /\
     http.Body (Part001.sink g)
       = http.Body w
         ++ (if http.bodyAllowedForStatus code
             then compress_gzip.gzip_stream (Part001.compressionLevel h) [[]]
             else compress_gzip.gzip_header (Part001.compressionLevel h)))
  /\
  (forall (h : GzipGo.handler) gz w r code,
     let g := GzipGo.deferred
                (http.exec (http.CallWriteHeader code http.Return)
                   (GzipGo.newGrw h gz w r)) in
     GzipGo.grw_status g = GzipGo.COMPRESSION_UNDEFINED /\
     GzipGo.sink g = http.sinkWriteHeader code w).
Proof.
  split.
  - intros h gz w r code Hfn En Hw g. subst g. cbn [http.exec].
    change (http.rwWriteHeader code (Part001.newGrw h gz w r))
      with (Part001.WriteHeader code (Part001.newGrw h gz w r)).
    set (g0 := Part001.newGrw h gz w r).
    assert (Part001.grw_status (Part001.WriteHeader code g0)
            = Part001.COMPRESSION_ENABLED) as Hen.
    { rewrite P1Facts.p1_WriteHeader_status_check by done.
      by rewrite XP1.x_p1_allowed_permits. }
    assert (http.committed (Part001.sink (Part001.WriteHeader code g0))
            = Some (code, Part001.Header (Part001.WriteHeader code g0))) as Hc
      by (by apply P1Facts.p1_WriteHeader_committed).
    assert (http.takesBody (Part001.sink (Part001.WriteHeader code g0))
            = http.bodyAllowedForStatus code) as Ht.
    { rewrite P1Facts.p1_WriteHeader_takesBody.
      unfold g0, Part001.newGrw, Part001.sink. cbn. by rewrite Hw. }
    split; [by rewrite P1Facts.p1_deferred_status|].
    split; [by rewrite (XP1.x_p1_deferred_sent _ _ Hc)|].
    unfold Part001.deferred, Part001.codecClose. rewrite Hen.
    cbn [Part001.status_eqb]. rewrite P1Facts.p1_WriteHeader_w.
    pose proof (XMore.x_Close_fresh _ gz
                  (Part001.sink (Part001.WriteHeader code g0)) En) as HC.
    destruct (compress_gzip.Close _) as [z s]. cbn in *.
    by rewrite HC, P1Facts.p1_WriteHeader_Body, Ht.
  - intros h gz w r code g. by subst g.
Qed.

(** X9. What negroni's writer, which the decorated writer embeds, gets to
    count. A write that is compressed goes to the codec writer and past
    negroni's writer: its byte count stays where it was. A write that is
    not compressed goes through it and adds the count that the sink
    returns: the length of the chunk, or nothing when the sink is committed
    to a status that allows no body. In gzip/gzip.go the write that enables
    compression leaves negroni's status code as it was (zero, if the
    handler committed none); in part_001 the write that finds the state
    undecided records 200. *)
Theorem X9_negroni_counts_only_uncompressed_bytes
  `{SN : http.ContentSniffer} `{CD : compress_gzip.Codec} :
  (forall (g : Part001.gzipResponseWriter) b,
     let g' := Part001.Write b g in
     negroni.size (Part001.grw_ResponseWriter g') =
       negroni.size (Part001.grw_ResponseWriter g)
       + (if Part001.status_eqb (Part001.grw_status g')
               Part001.COMPRESSION_ENABLED
          then 0
          else if http.takesBody (Part001.sink g)
               then Z.of_nat (length b) else 0))
  /\
  (forall (g : Part001.gzipResponseWriter) b,
     Part001.grw_status g = Part001.COMPRESSION_CHECK ->
     negroni.status (Part001.grw_ResponseWriter (Part001.Write b g))
     = http.StatusOK)
  /\
  (forall (g : GzipGo.gzipResponseWriter) b,
     let g' := GzipGo.Write b g in
     negroni.size (GzipGo.grw_ResponseWriter g') =
       negroni.size (GzipGo.grw_ResponseWriter g)
       + (if GzipGo.status_eqb (GzipGo.grw_status g')
               GzipGo.COMPRESSION_ENABLED
          then 0
          else if http.takesBody (GzipGo.sink g)
               then Z.of_nat (length b) else 0))
  /\
  (forall (g : GzipGo.gzipResponseWriter) b,
     GzipGo.grw_status (GzipGo.Write b g) = GzipGo.COMPRESSION_ENABLED ->
     negroni.status (GzipGo.grw_ResponseWriter (GzipGo.Write b g))
     = negroni.status (GzipGo.grw_ResponseWriter g)).
Proof.
  split_and!.
  - intros g b g'. subst g'. destruct (Part001.grw_status g) eqn:E.
    + rewrite P1Facts.p1_Write_check by done.
      rewrite P1Facts.p1_forward_status, XMore.x_p1_forward_size.
      by rewrite XMore.x_p1_WriteHeader_size, XMore.x_p1_sniffed_size,
        XMore.x_p1_commit_takesBody.
    + rewrite P1Facts.p1_Write_decided by congruence.
      by rewrite P1Facts.p1_forward_status, XMore.x_p1_forward_size.
    + rewrite P1Facts.p1_Write_decided by congruence.
      by rewrite P1Facts.p1_forward_status, XMore.x_p1_forward_size.
  - intros g b E. rewrite P1Facts.p1_Write_check by done.
    pose proof (XMore.x_p1_WriteHeader_nstatus http.StatusOK
                  (P1View.sniffed b g)) as Hn.
    revert Hn.
    generalize (Part001.WriteHeader http.StatusOK (P1View.sniffed b g)).
    intros g1 Hn.
    unfold P1View.forward, Part001.codecWrite, Part001.plainWrite.
    destruct (Part001.status_eqb _ _).
    + by destruct (compress_gzip.Write _ _).
    + cbn. rewrite XMore.x_negroni_Write_status.
      unfold negroni.Written. by rewrite Hn.
  - intros g b g'. subst g'. rewrite GGFacts.gg_Write_view.
    rewrite GGFacts.gg_forward_status, XMore.x_gg_forward_size.
    rewrite GGFacts.gg_compressContent_takesBody, GGFacts.gg_sniffed_takesBody.
    destruct (XMore.x_gg_compressContent_nrw (GGView.sniffed b g)) as [-> _].
    by destruct (XMore.x_gg_sniffed_nrw b g) as [-> _].
  - intros g b. rewrite GGFacts.gg_Write_view, GGFacts.gg_forward_status.
    destruct (XMore.x_gg_compressContent_nrw (GGView.sniffed b g)) as [_ H2].
    destruct (XMore.x_gg_sniffed_nrw b g) as [_ H3].
    rewrite H3 in H2. revert H2.
    generalize (GzipGo.compressContent (GGView.sniffed b g)).1.
    intros g1 H2 Hen. unfold GGView.forward, GzipGo.codecWrite. rewrite Hen.
    cbn [GzipGo.status_eqb].
    by destruct (compress_gzip.Write _ _).
Qed.

(** X10. [New] with a level from HuffmanOnly to BestCompression, which the
    four exported level constants are, never falls back for an eligible
    request: the writer is decorated. [Default] is [New] at the default
    level with no callback, and so never falls back either. Both
    revisions. *)
Theorem X10_valid_levels_always_decorate
  `{SN : http.ContentSniffer} `{CD : compress_gzip.Codec}
  (level : Z) (fn1 : option Part001.AllowCompressionFunc)
  (fn2 : option GzipGo.AllowCompressionFunc)
  (w : http.Sink) (r : http.Request) (next : http.HandlerFunc) :
  compress_gzip.HuffmanOnly <= level <= compress_gzip.BestCompression ->
  strings.Contains (http.Get (http.reqHeader r) Part001.headerAcceptEncoding)
    Part001.encodingGzip = true ->
  http.Get (http.reqHeader r) Part001.headerSecWebSocketKey = "" ->
  http.Get (http.HeaderMap w) Part001.headerContentEncoding
    <> Part001.encodingGzip ->
  (exists g, Part001.ServeHTTP (Part001.New level fn1) w r next
             = Part001.Decorated g) /\
  (exists g, GzipGo.ServeHTTP (GzipGo.New level fn2) w r next
             = GzipGo.Decorated g) /\
  Forall (fun l => compress_gzip.HuffmanOnly <= l <= compress_gzip.BestCompression)
    [Part001.BestCompression; Part001.BestSpeed; Part001.DefaultCompression;
     Part001.NoCompression; GzipGo.BestCompression; GzipGo.BestSpeed;
     GzipGo.DefaultCompression; GzipGo.NoCompression] /\
  Part001.Default = Part001.New Part001.DefaultCompression None /\
  GzipGo.Default = GzipGo.New GzipGo.DefaultCompression None.
Proof.
  intros Hl Ha Hu He.
  destruct (GzipFacts.NewWriterLevel_valid level) as [gz En].
  { unfold compress_gzip.validLevel.
    destruct (Z.ltb_spec level compress_gzip.HuffmanOnly); [lia|].
    destruct (Z.ltb_spec compress_gzip.BestCompression level); [lia|]. done. }
  apply String.eqb_neq in He.
  split_and!.
  - eexists. rewrite P1Facts.p1_ServeHTTP_cases.
    unfold P1View.accepts, P1View.upgrades, P1View.encoded.
    rewrite Ha, Hu, He. cbn [Part001.New Part001.compressionLevel].
    by rewrite En.
  - eexists. rewrite GGFacts.gg_ServeHTTP_cases.
    unfold GGView.accepts, GGView.upgrades, GGView.encoded.
    change GzipGo.headerAcceptEncoding with Part001.headerAcceptEncoding.
    change GzipGo.encodingGzip with Part001.encodingGzip.
    change GzipGo.headerSecWebSocketKey with Part001.headerSecWebSocketKey.
    change GzipGo.headerContentEncoding with Part001.headerContentEncoding.
    rewrite Ha, Hu, He. cbn [GzipGo.New GzipGo.compressionLevel].
    by rewrite En.
  - repeat constructor; done.
  - done.
  - done.
Qed.

(** X11. gzip/gzip.go, the first write of a fresh codec writer, which
    enables compression, over a sink that has sent nothing: the status line
    goes out at that write with the Content-Length the header map holds
    then; the deferred function removes the Content-Length from the header
    map afterwards and does not change what was sent. *)
Theorem X11_gzipgo_content_length_is_sent_before_it_is_deleted
  `{SN : http.ContentSniffer} `{CD : compress_gzip.Codec}
  (g : GzipGo.gzipResponseWriter) (b : bytes) :
  GzipGo.grw_status g = GzipGo.COMPRESSION_UNDEFINED ->
  http.committed (GzipGo.sink g) = None ->
  compress_gzip.wroteHeader (GzipGo.grw_w g) = false ->
  compress_gzip.err (GzipGo.grw_w g) = None ->
  Extra.alwaysPermits (GzipGo.grw_allowCompression g) ->
  let g' := GzipGo.deferred (GzipGo.Write b g) in
  exists hs,
    http.committed (GzipGo.sink g') = Some (http.StatusOK, hs) /\
    http.Get hs GzipGo.headerContentLength
      = http.Get (GzipGo.Header g) GzipGo.headerContentLength /\
    http.Get (GzipGo.Header g') GzipGo.headerContentLength = "".
Proof.
  intros E Hc Hwh Herr Hfn g'. subst g'.
  assert (GzipGo.grw_status (GGView.sniffed b g) = GzipGo.COMPRESSION_UNDEFINED)
    as E1 by (by rewrite GGFacts.gg_sniffed_status).
  assert ((GzipGo.allowed (GGView.sniffed b g)).1 = true) as Hp.
  { apply XGG.x_gg_allowed_permits. by rewrite GGFacts.gg_sniffed_allow. }
  assert (GzipGo.grw_status (GzipGo.Write b g) = GzipGo.COMPRESSION_ENABLED)
    as Hen by (by rewrite XGG.x_gg_Write_status, E, Hp).
  exists (GGView.gzipHeaders (GzipGo.Header (GGView.sniffed b g))).
  split_and!.
  - apply XGG.x_gg_deferred_sent. rewrite GGFacts.gg_Write_view.
    rewrite XGG.x_gg_forward_commits.
    + by rewrite GGFacts.gg_compressContent_Header, Hp by done.
    + by rewrite XGG.x_gg_compressContent_sent, XGG.x_gg_sniffed_sent.
    + by rewrite GGFacts.gg_compressContent_w, XGG.x_gg_sniffed_w.
    + by rewrite GGFacts.gg_compressContent_w, XGG.x_gg_sniffed_w.
  - rewrite GGFacts.gg_gzipHeaders_ContentLength.
    unfold GGView.sniffed. destruct (_ =? _)%nat; [|done].
    unfold GzipGo.Header, negroni.Header. cbn.
    rewrite HttpFacts.HeaderMap_sinkHeaderUpd. cbn.
    by rewrite HttpFacts.Get_Set_other by keys_differ.
  - rewrite GGFacts.gg_deferred_Header, Hen. cbn [GzipGo.status_eqb].
    apply HttpFacts.Get_Del_same.
Qed.

(* ===================================================================== *)
(** * The further properties at work on the concrete platform             *)
(* ===================================================================== *)

Section ConcreteExtras.
#[local] Existing Instance Toy.sniffer.
#[local] Existing Instance Toy.codec.

(** X1 at work: the test of the repository with the refusing callback. The
    request accepts gzip, the cycle ends disabled, the recorder holds the
    test string as written. *)
Lemma X1_witness_refused_test_string :
  let g := Part001.deferred
             (http.exec (Toy.testHTTPContent Toy.acceptsGzip)
                (Part001.newGrw ToyExtra.refusingPart001 Toy.gz
                   http.NewRecorder Toy.acceptsGzip)) in
  Part001.ServeHTTP ToyExtra.refusingPart001 http.NewRecorder Toy.acceptsGzip
    Toy.testHTTPContent = Part001.Decorated g /\
  Part001.grw_status g <> Part001.COMPRESSION_ENABLED /\
  http.Body (Part001.sink g) = Toy.b Toy.gzipTestString.
Proof.
  intros g.
  assert (Part001.ServeHTTP ToyExtra.refusingPart001 http.NewRecorder
            Toy.acceptsGzip Toy.testHTTPContent = Part001.Decorated g) as Hs
    by (vm_compute; reflexivity).
  assert (Part001.grw_status g = Part001.COMPRESSION_DISABLED) as Hd
    by (vm_compute; reflexivity).
  assert (Part001.grw_status g <> Part001.COMPRESSION_ENABLED) as Hne
    by (rewrite Hd; discriminate).
  split; [exact Hs|]. split; [exact Hne|].
  destruct X1_cycle_not_enabled_passes_bytes_through as [H _].
  destruct (H _ _ _ _ _ Hs Hne) as (gz & En & Hbody & _).
  rewrite Hbody. injection En as <-. vm_compute. reflexivity.
Defined.

(** X2 at work: the same handler and request. *)
Lemma X2_witness_refusing_callback :
  let g := Part001.deferred
             (http.exec (Toy.testHTTPContent Toy.acceptsGzip)
                (Part001.newGrw ToyExtra.refusingPart001 Toy.gz
                   http.NewRecorder Toy.acceptsGzip)) in
  Extra.alwaysRefuses (Part001.allowCompression ToyExtra.refusingPart001) /\
  Part001.ServeHTTP ToyExtra.refusingPart001 http.NewRecorder Toy.acceptsGzip
    Toy.testHTTPContent = Part001.Decorated g /\
  Part001.grw_status g <> Part001.COMPRESSION_ENABLED.
Proof.
  intros g.
  assert (Extra.alwaysRefuses (Part001.allowCompression ToyExtra.refusingPart001))
    as Hr by (intros hd r; reflexivity).
  assert (Part001.ServeHTTP ToyExtra.refusingPart001 http.NewRecorder
            Toy.acceptsGzip Toy.testHTTPContent = Part001.Decorated g) as Hs
    by (vm_compute; reflexivity).
  split; [exact Hr|]. split; [exact Hs|].
  destruct X2_refusing_callback_never_enables as [H _].
  exact (H _ _ _ _ _ Hr Hs).
Defined.

(** X3 at work: the default handler of gzip/gzip.go and the test handler,
    under status 200. *)
Lemma X3_witness_default_compresses_test_string :
  let g := GzipGo.deferred
             (http.exec (Toy.testHTTPContent Toy.acceptsGzip) Toy.freshGzipGo) in
  Extra.alwaysPermits (GzipGo.allowCompression GzipGo.Default) /\
  compress_gzip.NewWriterLevel (GzipGo.compressionLevel GzipGo.Default)
    = inl Toy.gz /\
  http.written (Toy.testHTTPContent Toy.acceptsGzip) Toy.freshGzipGo <> [] /\
  http.takesBody (GzipGo.sink g) = true /\
  GzipGo.grw_status g = GzipGo.COMPRESSION_ENABLED /\
  http.Body (GzipGo.sink g)
    = Toy.magic ++ Toy.b Toy.gzipTestString ++ Toy.endMark.
Proof.
  intros g.
  assert (http.written (Toy.testHTTPContent Toy.acceptsGzip) Toy.freshGzipGo
          <> []) as Hw by discriminate.
  assert (http.takesBody (GzipGo.sink g) = true) as Ht
    by (vm_compute; reflexivity).
  split; [exact I|]. split; [reflexivity|]. split; [exact Hw|].
  split; [exact Ht|].
  destruct X3_permitting_callback_compresses_every_body as [_ H].
  destruct (H GzipGo.Default Toy.gz http.NewRecorder Toy.acceptsGzip
              Toy.testHTTPContent I eq_refl) as [_ H2].
  destruct (H2 Hw) as [Hen Hst]. split; [exact Hen|].
  destruct (Hst Ht) as (chunks & Hcat & Hb).
  fold Toy.freshGzipGo in Hcat, Hb. fold g in Hb.
  rewrite Hb, ToyFacts.gzip_stream_toy, Hcat. reflexivity.
Defined.

(** X4 at work: the default handler of part_001 and the test handler over
    an empty recorder. *)
Lemma X4_witness_part001_headers_of_the_test :
  let g := Part001.deferred
             (http.exec (Toy.testHTTPContent Toy.acceptsGzip) Toy.freshPart001) in
  http.committed http.NewRecorder = None /\
  Part001.ServeHTTP Part001.Default http.NewRecorder Toy.acceptsGzip
    Toy.testHTTPContent = Part001.Decorated g /\
  Part001.grw_status g = Part001.COMPRESSION_ENABLED /\
  exists code hs,
    http.committed (Part001.sink g) = Some (code, hs) /\
    http.Get hs Part001.headerContentEncoding = Part001.encodingGzip /\
    http.Values hs Part001.headerVary = [Part001.headerAcceptEncoding] /\
    http.Get hs Part001.headerContentLength = "".
Proof.
  intros g.
  assert (Part001.ServeHTTP Part001.Default http.NewRecorder Toy.acceptsGzip
            Toy.testHTTPContent = Part001.Decorated g) as Hs
    by (vm_compute; reflexivity).
  assert (Part001.grw_status g = Part001.COMPRESSION_ENABLED) as He
    by (vm_compute; reflexivity).
  split; [reflexivity|]. split; [exact Hs|]. split; [exact He|].
  exact (proj2 (X4_part001_sends_the_compression_headers Part001.Default
                  http.NewRecorder Toy.acceptsGzip Toy.testHTTPContent g
                  eq_refl Hs) He).
Defined.

(** X5 at work: the same over gzip/gzip.go; the test handler only writes. *)
Lemma X5_witness_gzipgo_headers_of_the_test :
  let g := GzipGo.deferred
             (http.exec (Toy.testHTTPContent Toy.acceptsGzip) Toy.freshGzipGo) in
  http.committed http.NewRecorder = None /\
  Extra.noWriteHeader (Toy.testHTTPContent Toy.acceptsGzip) /\
  GzipGo.ServeHTTP GzipGo.Default http.NewRecorder Toy.acceptsGzip
    Toy.testHTTPContent = GzipGo.Decorated g /\
  GzipGo.grw_status g = GzipGo.COMPRESSION_ENABLED /\
  exists hs,
    http.committed (GzipGo.sink g) = Some (http.StatusOK, hs) /\
    http.Get hs GzipGo.headerContentEncoding = GzipGo.encodingGzip /\
    http.Values hs GzipGo.headerVary = [GzipGo.headerAcceptEncoding].
Proof.
  intros g.
  assert (GzipGo.ServeHTTP GzipGo.Default http.NewRecorder Toy.acceptsGzip
            Toy.testHTTPContent = GzipGo.Decorated g) as Hs
    by (vm_compute; reflexivity).
  assert (GzipGo.grw_status g = GzipGo.COMPRESSION_ENABLED) as He
    by (vm_compute; reflexivity).
  split; [reflexivity|]. split; [exact I|]. split; [exact Hs|].
  split; [exact He|].
  exact (X5_gzipgo_sends_the_compression_headers_on_first_write GzipGo.Default
           http.NewRecorder Toy.acceptsGzip Toy.testHTTPContent g
           eq_refl I Hs He).
Defined.

(** X6 at work: the handler has set text/plain; the write keeps it. *)
Lemma X6_witness_text_plain_survives :
  http.Get (Part001.Header ToyExtra.typedPart001) Part001.headerContentType
    <> "" /\
  http.Get
    (Part001.Header
       (Part001.Write (Toy.b Toy.gzipTestString) ToyExtra.typedPart001))
    Part001.headerContentType
  = http.Get (Part001.Header ToyExtra.typedPart001) Part001.headerContentType.
Proof.
  assert (http.Get (Part001.Header ToyExtra.typedPart001)
            Part001.headerContentType <> "") as Hct
    by (vm_compute; discriminate).
  split; [exact Hct|].
  destruct X6_content_type_is_sniffed_only_when_missing as [H _].
  exact (H ToyExtra.typedPart001 (Toy.b Toy.gzipTestString) Hct).
Defined.

(** X7 at work: a fresh writer of gzip/gzip.go, a 404 committed before
    the write. *)
Lemma X7_witness_not_found :
  let g2 := GzipGo.Write (Toy.b "not found")
              (GzipGo.WriteHeader 404 Toy.freshGzipGo) in
  GzipGo.grw_status Toy.freshGzipGo = GzipGo.COMPRESSION_UNDEFINED /\
  http.committed (GzipGo.sink Toy.freshGzipGo) = None /\
  Extra.alwaysPermits (GzipGo.grw_allowCompression Toy.freshGzipGo) /\
  GzipGo.grw_status g2 = GzipGo.COMPRESSION_ENABLED /\
  http.Get (GzipGo.Header g2) GzipGo.headerContentEncoding = GzipGo.encodingGzip /\
  http.committed (GzipGo.sink g2) = Some (404, GzipGo.Header Toy.freshGzipGo).
Proof.
  intros g2. split; [reflexivity|]. split; [reflexivity|]. split; [exact I|].
  exact (X7_gzipgo_commit_before_write_sends_stale_headers Toy.freshGzipGo 404
           (Toy.b "not found") eq_refl eq_refl I).
Defined.

(** X8 at work: a 304 and no body, through the default handler of
    part_001: the recorder holds the gzip header and nothing else. *)
Lemma X8_witness_not_modified :
  let g := Part001.deferred
             (http.exec (http.CallWriteHeader 304 http.Return)
                (Part001.newGrw Part001.Default Toy.gz http.NewRecorder
                   Toy.acceptsGzip)) in
  Extra.alwaysPermits (Part001.allowCompression Part001.Default) /\
  compress_gzip.NewWriterLevel (Part001.compressionLevel Part001.Default)
    = inl Toy.gz /\
  http.committed http.NewRecorder = None /\
  Part001.grw_status g = Part001.COMPRESSION_ENABLED /\
  fst <$> http.committed (Part001.sink g) = Some 304 /\
  http.Body (Part001.sink g)
    = http.Body http.NewRecorder
      ++ compress_gzip.gzip_header (Part001.compressionLevel Part001.Default).
Proof.
  intros g. split; [exact I|]. split; [reflexivity|]. split; [reflexivity|].
  destruct X8_header_only_cycle as [H _].
  exact (H Part001.Default Toy.gz http.NewRecorder Toy.acceptsGzip 304
           I eq_refl eq_refl).
Defined.

(** X9 at work: a 204 was committed through a writer of gzip/gzip.go whose
    callback refuses; the three bytes written afterwards reach the
    recorder, are refused, and are not counted. *)
Lemma X9_witness_refused_bytes_are_not_counted :
  let h := GzipGo.New compress_gzip.DefaultCompression (Some ToyExtra.refuse) in
  let g := GzipGo.WriteHeader 204
             (GzipGo.newGrw h Toy.gz http.NewRecorder Toy.acceptsGzip) in
  let g' := GzipGo.Write (Toy.b "abc") g in
  GzipGo.grw_status g' = GzipGo.COMPRESSION_DISABLED /\
  http.takesBody (GzipGo.sink g) = false /\
  http.Body (GzipGo.sink g') = Toy.b "abc" /\
  negroni.size (GzipGo.grw_ResponseWriter g')
    = negroni.size (GzipGo.grw_ResponseWriter g) + 0.
Proof.
  intros h g g'.
  assert (GzipGo.grw_status g' = GzipGo.COMPRESSION_DISABLED) as Hd
    by (vm_compute; reflexivity).
  assert (http.takesBody (GzipGo.sink g) = false) as Ht
    by (vm_compute; reflexivity).
  split; [exact Hd|]. split; [exact Ht|]. split; [vm_compute; reflexivity|].
  destruct X9_negroni_counts_only_uncompressed_bytes as (_ & _ & H & _).
  pose proof (H g (Toy.b "abc")) as Hs. cbv zeta in Hs. fold g' in Hs.
  rewrite Hd, Ht in Hs. exact Hs.
Defined.

(** X10 at work: the best compression level. *)
Lemma X10_witness_best_compression :
  (compress_gzip.HuffmanOnly <= 9 <= compress_gzip.BestCompression) /\
  strings.Contains
    (http.Get (http.reqHeader Toy.acceptsGzip) Part001.headerAcceptEncoding)
    Part001.encodingGzip = true /\
  http.Get (http.reqHeader Toy.acceptsGzip) Part001.headerSecWebSocketKey = "" /\
  http.Get (http.HeaderMap http.NewRecorder) Part001.headerContentEncoding
    <> Part001.encodingGzip /\
  (exists g, Part001.ServeHTTP (Part001.New 9 None) http.NewRecorder
               Toy.acceptsGzip Toy.testHTTPContent = Part001.Decorated g).
Proof.
  assert (compress_gzip.HuffmanOnly <= 9 <= compress_gzip.BestCompression)
    as Hl by (split; discriminate).
  assert (strings.Contains
            (http.Get (http.reqHeader Toy.acceptsGzip)
               Part001.headerAcceptEncoding)
            Part001.encodingGzip = true) as Ha by (vm_compute; reflexivity).
  assert (http.Get (http.reqHeader Toy.acceptsGzip)
            Part001.headerSecWebSocketKey = "") as Hu
    by (vm_compute; reflexivity).
  assert (http.Get (http.HeaderMap http.NewRecorder)
            Part001.headerContentEncoding <> Part001.encodingGzip) as He
    by (vm_compute; discriminate).
  split; [exact Hl|]. split; [exact Ha|]. split; [exact Hu|].
  split; [exact He|].
  exact (proj1 (X10_valid_levels_always_decorate 9 None None http.NewRecorder
                  Toy.acceptsGzip Toy.testHTTPContent Hl Ha Hu He)).
Defined.

(** X11 at work: the handler has set Content-Length 21; it is sent with
    the status line, and gone from the header map in the end. *)
Lemma X11_witness_content_length_21 :
  let g' := GzipGo.deferred
              (GzipGo.Write (Toy.b Toy.gzipTestString) ToyExtra.sizedGzipGo) in
  GzipGo.grw_status ToyExtra.sizedGzipGo = GzipGo.COMPRESSION_UNDEFINED /\
  http.committed (GzipGo.sink ToyExtra.sizedGzipGo) = None /\
  compress_gzip.wroteHeader (GzipGo.grw_w ToyExtra.sizedGzipGo) = false /\
  compress_gzip.err (GzipGo.grw_w ToyExtra.sizedGzipGo) = None /\
  Extra.alwaysPermits (GzipGo.grw_allowCompression ToyExtra.sizedGzipGo) /\
  http.Get (GzipGo.Header ToyExtra.sizedGzipGo) GzipGo.headerContentLength
    = "21" /\
  exists hs,
    http.committed (GzipGo.sink g') = Some (http.StatusOK, hs) /\
    http.Get hs GzipGo.headerContentLength
      = http.Get (GzipGo.Header ToyExtra.sizedGzipGo) GzipGo.headerContentLength /\
    http.Get (GzipGo.Header g') GzipGo.headerContentLength = "".
Proof.
  intros g'. split; [reflexivity|]. split; [reflexivity|].
  split; [reflexivity|]. split; [reflexivity|]. split; [exact I|].
  split; [vm_compute; reflexivity|].
  exact (X11_gzipgo_content_length_is_sent_before_it_is_deleted
           ToyExtra.sizedGzipGo (Toy.b Toy.gzipTestString)
           eq_refl eq_refl eq_refl eq_refl I).
Defined.

End ConcreteExtras.
